(** * Medical-Chat-Bot: the chat request handlers and the index build script

    A shallow embedding of
    - [src/app.py]      the Flask application (handlers, module start-up),
    - [src/app/main.py] the FastAPI port of the same handlers,
    - [src/store.py]    the ingestion script that builds the Pinecone index,
    - [src/template.py] the script that lays out the files of the project,
    followed by the properties of the request pipeline: validation, retrieval,
    chain invocation, answer extraction and fallback, error mapping.

    Python values are modelled by the inductive type [pyval]; exceptions by an
    error monad over an explicit world that records every call made to the
    external collaborators (retriever, chain, language model) and every log
    record.  An [except Exception] clause catches the instances of
    [Exception] only: an interrupt or the exit of the interpreter goes on to
    the caller. *)

From Stdlib Require Import ZArith String Ascii DecimalString List Lia.
From stdpp Require Import gmap strings.
Open Scope string_scope.
Set Warnings "-register-all".

(** ** Python strings

    A Python [str] is modelled by [string]; each [ascii] stands for one code
    point in the range U+0000..U+00FF. *)

Module PyString.

(** [str.isspace] on one code point below U+0100: TAB..CR, FS..US, SPACE,
    NEL (U+0085) and NBSP (U+00A0). *)
Definition is_space (c : ascii) : bool :=
  let n := N_of_ascii c in
  ((9 <=? n) && (n <=? 13) || (28 <=? n) && (n <=? 32)
   || (n =? 133) || (n =? 160))%N.

Fixpoint lstrip (s : string) : string :=
  match s with
  | EmptyString => EmptyString
  | String c s' => if is_space c then lstrip s' else s
  end.

Fixpoint rstrip (s : string) : string :=
  match s with
  | EmptyString => EmptyString
  | String c s' =>
      match rstrip s' with
      | EmptyString => if is_space c then EmptyString else String c EmptyString
      | t => String c t
      end
  end.

(** [s.strip()] *)
Definition strip (s : string) : string := rstrip (lstrip s).

(** [sep.join(l)] on a list of strings *)
Definition join (sep : string) (l : list string) : string := String.concat sep l.

(** decimal rendering, as [str(n)] gives for an [int] *)
Definition str_of_nat (n : nat) : string := NilZero.string_of_uint (Nat.to_uint n).
Definition str_of_Z (z : Z) : string := NilZero.string_of_int (Z.to_int z).

Definition squote : ascii := ascii_of_N 39.
Definition dquote : ascii := ascii_of_N 34.
Definition backslash : ascii := ascii_of_N 92.

Fixpoint has_char (c : ascii) (s : string) : bool :=
  match s with
  | EmptyString => false
  | String d s' => Ascii.eqb c d || has_char c s'
  end.

Definition hexdigit (n : N) : ascii :=
  match String.get (N.to_nat n) "0123456789abcdef" with
  | Some c => c
  | None => "0"%char
  end.

(** [repr] of one character of a [str], inside quotes [quote] *)
Definition repr_char (quote c : ascii) : string :=
  let n := N_of_ascii c in
  if Ascii.eqb c quote || Ascii.eqb c backslash then String backslash (String c "")
  else if (n =? 9)%N then String backslash "t"
  else if (n =? 10)%N then String backslash "n"
  else if (n =? 13)%N then String backslash "r"
  else if ((n <? 32) || (127 <=? n) && (n <=? 160) || (n =? 173))%N
       then String backslash (String "x" (String (hexdigit (n / 16)) (String (hexdigit (n mod 16)) "")))
  else String c "".

Fixpoint repr_chars (quote : ascii) (s : string) : string :=
  match s with
  | EmptyString => EmptyString
  | String c s' => repr_char quote c ++ repr_chars quote s'
  end.

(** [repr(s)] of a [str]: single quotes, unless the text has a single quote
    and no double quote *)
Definition repr (s : string) : string :=
  let quote := if has_char squote s && negb (has_char dquote s) then dquote else squote in
  String quote (repr_chars quote s ++ String quote "").

End PyString.

(** ** Exceptions and results *)

(** An exception, by what the handlers can observe of it: the name of its
    class, whether it is an instance of [Exception] (what
    [isinstance(e, Exception)] gives, and what an [except Exception] clause
    asks), and what [str(e)] gives. *)
Record exn := Raised {
  exn_class : string;
  is_Exception : bool;
  exn_str : string
}.

(** The outcome of an expression that may raise. *)
Definition result (A : Type) : Type := exn + A.

(** The classes of the interpreter and of [asyncio] that derive from
    [BaseException] and not from [Exception]. *)
Definition base_exception_only : list string :=
  ["BaseException"; "BaseExceptionGroup"; "GeneratorExit"; "KeyboardInterrupt";
   "SystemExit"; "CancelledError"].

(** An exception of a class of the interpreter or of a library, by the name
    of the class: all of them but the ones above derive from [Exception]. *)
Definition Exn (cls msg : string) : exn :=
  Raised cls (negb (existsb (String.eqb cls) base_exception_only)) msg.

Definition attribute_error (type attr : string) : exn :=
  Exn "AttributeError" ("'" ++ type ++ "' object has no attribute '" ++ attr ++ "'").

(** ** Python values *)

(** Any object other than [None], a [bool], an [int], a [str] or a [dict]
    (a list, a float, a LangChain [Document], a test double, ...), by what the
    handlers can observe of it: its type name, and the outcomes of [bool(o)],
    [str(o)], [repr(o)] and of its JSON serialisation.  Such an object has no
    [get] and no [strip] attribute. *)
Record pyobj := PyObject {
  obj_type : string;
  obj_bool : result bool;
  obj_str  : result string;
  obj_repr : result string;
  obj_json : result unit
}.

(** A [dict] has string keys and keeps its items in insertion order; a lookup
    takes the first item with the key. *)
Inductive pyval :=
| PyNone
| PyBool (b : bool)
| PyInt (z : Z)
| PyStr (s : string)
| PyDict (items : list (string * pyval))
| PyObj (o : pyobj).

Definition pydict := list (string * pyval).

Module Py.

Definition type_name (v : pyval) : string :=
  match v with
  | PyNone => "NoneType"
  | PyBool _ => "bool"
  | PyInt _ => "int"
  | PyStr _ => "str"
  | PyDict _ => "dict"
  | PyObj o => obj_type o
  end.

(** [bool(v)] *)
Definition truthy (v : pyval) : result bool :=
  match v with
  | PyNone => inr false
  | PyBool b => inr b
  | PyInt z => inr (negb (z =? 0)%Z)
  | PyStr s => inr (negb (String.eqb s ""))
  | PyDict d => inr (match d with [] => false | _ => true end)
  | PyObj o => obj_bool o
  end.

(** [repr(v)]; the items of a [dict] are rendered in order and the first
    exception ends the rendering. *)
Fixpoint repr (v : pyval) : result string :=
  match v with
  | PyNone => inr "None"
  | PyBool b => inr (if b then "True" else "False")
  | PyInt z => inr (PyString.str_of_Z z)
  | PyStr s => inr (PyString.repr s)
  | PyDict d =>
      let fix items (d : list (string * pyval)) : result (list string) :=
        match d with
        | [] => inr []
        | (k, x) :: d' =>
            match repr x with
            | inl e => inl e
            | inr r =>
                match items d' with
                | inl e => inl e
                | inr rs => inr ((PyString.repr k ++ ": " ++ r) :: rs)
                end
            end
        end in
      match items d with
      | inl e => inl e
      | inr rs => inr ("{" ++ PyString.join ", " rs ++ "}")
      end
  | PyObj o => obj_repr o
  end.

(** [str(v)], which is also what an f-string field [{v}] renders *)
Definition str (v : pyval) : result string :=
  match v with
  | PyStr s => inr s
  | PyObj o => obj_str o
  | _ => repr v
  end.

(** [d.get(k, default)] on a [dict] *)
Fixpoint dict_get (d : pydict) (k : string) (default : pyval) : pyval :=
  match d with
  | [] => default
  | (k', x) :: d' => if String.eqb k' k then x else dict_get d' k default
  end.

(** Whether [json.dumps] accepts the value. *)
Fixpoint json_check (v : pyval) : result unit :=
  match v with
  | PyDict d =>
      let fix items (d : list (string * pyval)) : result unit :=
        match d with
        | [] => inr tt
        | (_, x) :: d' =>
            match json_check x with
            | inl e => inl e
            | inr _ => items d'
            end
        end in
      items d
  | PyObj o => obj_json o
  | _ => inr tt
  end.

(** [v.get(k, default)]: only a [dict] has the method. *)
Definition get (v : pyval) (k : string) (default : pyval) : result pyval :=
  match v with
  | PyDict d => inr (dict_get d k default)
  | _ => inl (attribute_error (type_name v) "get")
  end.

(** [v.strip()]: only a [str] has the method. *)
Definition strip (v : pyval) : result string :=
  match v with
  | PyStr s => inr (PyString.strip s)
  | _ => inl (attribute_error (type_name v) "strip")
  end.

(** [sep.join(items)]: every item has to be a [str]. *)
Fixpoint join_items (i : nat) (items : list pyval) : result (list string) :=
  match items with
  | [] => inr []
  | PyStr s :: rest =>
      match join_items (S i) rest with
      | inl e => inl e
      | inr l => inr (s :: l)
      end
  | v :: _ =>
      inl (Exn "TypeError" ("sequence item " ++ PyString.str_of_nat i
                            ++ ": expected str instance, " ++ type_name v ++ " found"))
  end.

Definition join (sep : string) (items : list pyval) : result string :=
  match join_items 0 items with
  | inl e => inl e
  | inr l => inr (PyString.join sep l)
  end.

(** [d[k] = x] on a [dict]: the item is replaced where the key is, or added
    at the end. *)
Fixpoint dict_set (d : pydict) (k : string) (x : pyval) : pydict :=
  match d with
  | [] => [(k, x)]
  | (k', y) :: d' => if String.eqb k' k then (k, x) :: d' else (k', y) :: dict_set d' k x
  end.

(** [v1 or v2 or ... or last]: the first operand that is truthy, else [last];
    each operand before the result has its truth value taken once, in order. *)
Fixpoint or_chain (vs : list pyval) (last : pyval) : result pyval :=
  match vs with
  | [] => inr last
  | v :: vs' =>
      match truthy v with
      | inl e => inl e
      | inr true => inr v
      | inr false => or_chain vs' last
      end
  end.

End Py.

(** ** The world: calls to the collaborators, log records *)

(** The prompt given to the language model: the system template of
    [src/prompt.py] with the text bound to its [context] field, and the human
    turn. *)
Record prompt := Prompt {
  p_system : string;
  p_context : string;
  p_input : string
}.

Inductive call :=
| CallRetrieve (query : string)
| CallInvoke (input : pyval)
| CallLLM (p : prompt).

Inductive loglevel := INFO | WARNING | ERROR.

(** A log record; [logger.exception] attaches the exception being handled. *)
Record logrec := Log {
  log_level : loglevel;
  log_msg : string;
  log_exc : option exn
}.

Record world := World {
  calls : list call;
  logs : list logrec
}.

(** A computation that reads and extends the world and may raise. *)
Definition M (A : Type) : Type := world -> result A * world.

Definition ret {A} (x : A) : M A := fun w => (inr x, w).

Definition raise {A} (e : exn) : M A := fun w => (inl e, w).

Definition bind {A B} (m : M A) (k : A -> M B) : M B :=
  fun w =>
    match m w with
    | (inl e, w') => (inl e, w')
    | (inr x, w') => k x w'
    end.

(** [try: m  except Exception as e: h e]: the clause catches the instances
    of [Exception]; any other exception goes on to the caller. *)
Definition try_except {A} (m : M A) (h : exn -> M A) : M A :=
  fun w =>
    match m w with
    | (inl e, w') => if is_Exception e then h e w' else (inl e, w')
    | (inr x, w') => (inr x, w')
    end.

Definition lift {A} (r : result A) : M A := fun w => (r, w).

Notation "'let!' x ':=' m 'in' k" := (bind m (fun x => k))
  (at level 10, x name, m at level 100, k at level 200).
Notation "m >> k" := (bind m (fun _ => k))
  (at level 65, right associativity).

Definition record_call (c : call) : M unit :=
  fun w => (inr tt, World (calls w ++ [c]) (logs w)).

Definition history : M (list call) := fun w => (inr (calls w), w).

Definition emit (r : logrec) : M unit :=
  fun w => (inr tt, World (calls w) (logs w ++ [r])).

Module logger.
Definition info (msg : string) : M unit := emit (Log INFO msg None).
Definition warning (msg : string) : M unit := emit (Log WARNING msg None).
Definition exception (msg : string) (e : exn) : M unit := emit (Log ERROR msg (Some e)).
End logger.

(** ** The collaborators *)

(** A retrieved document.  [metadata] is [None] for an object without the
    attribute; [doc_repr] is the text [repr] gives for it. *)
Record doc := Document {
  metadata : option pydict;
  page_content : string;
  doc_repr : string
}.

(** The vector-store retriever and the chat model are external services: each
    is given by the outcome of a call, as a function of the calls made so far
    and of the argument. *)
Definition vector_store_retriever : Type := list call -> string -> result (list doc).
Definition chat_model : Type := list call -> prompt -> result string.

(** [retriever.get_relevant_documents(query)], on the module-level
    [retriever], which is [None] when the start-up failed. *)
Definition get_relevant_documents (r : option vector_store_retriever) (query : string)
  : M (list doc) :=
  match r with
  | None => raise (attribute_error "NoneType" "get_relevant_documents")
  | Some r =>
      let! h := history in
      record_call (CallRetrieve query) >>
      lift (r h query)
  end.

(** The part of LangChain that [src/app.py] and [src/app/main.py] build their
    chain with (library code, modelled from its documented behaviour). *)
Module langchain.

(** [create_stuff_documents_chain(llm, prompt)], for the prompt of the two
    applications: a system turn made of the template [system_prompt] and a
    human turn made of the input. *)
Record stuff_documents_chain := StuffDocumentsChain {
  chain_llm : chat_model;
  chain_system_prompt : string
}.

Definition create_stuff_documents_chain (llm : chat_model) (system_prompt : string)
  : stuff_documents_chain := StuffDocumentsChain llm system_prompt.

(** A runnable is either known by its behaviour only (a test double, any
    chain), or the retrieval chain [create_retrieval_chain] builds. *)
Inductive runnable :=
| Double (f : list call -> pyval -> result pyval)
| RetrievalChain (r : vector_store_retriever) (combine_docs_chain : stuff_documents_chain).

Definition create_retrieval_chain (r : vector_store_retriever)
  (combine_docs_chain : stuff_documents_chain) : runnable :=
  RetrievalChain r combine_docs_chain.

Definition newline : string := String (ascii_of_N 10) "".

(** The documents are bound to [context] as their contents, two newlines
    apart. *)
Definition format_docs (docs : list doc) : string :=
  PyString.join (newline ++ newline) (map page_content docs).

(** A list of documents as a Python value. *)
Definition list_of_docs (docs : list doc) : pyval :=
  let text := "[" ++ PyString.join ", " (map doc_repr docs) ++ "]" in
  PyObj {| obj_type := "list";
           obj_bool := inr (match docs with [] => false | _ => true end);
           obj_str := inr text;
           obj_repr := inr text;
           obj_json := match docs with
                       | [] => inr tt
                       | _ => inl (Exn "TypeError" "Object of type Document is not JSON serializable")
                       end |}.

(** [combine_docs_chain.invoke({"input": input, "context": docs})]: the
    prompt is assembled from the documents and the input, the model is called
    once, and its text is the answer. *)
Definition invoke_stuff (c : stuff_documents_chain) (input : string) (docs : list doc)
  : M string :=
  let p := Prompt (chain_system_prompt c) (format_docs docs) input in
  let! h := history in
  record_call (CallLLM p) >>
  lift (chain_llm c h p).

(** [chain.invoke(input)].  The retrieval chain passes [input["input"]] to the
    retriever, the documents and the input to the combining chain, and returns
    the input extended with [context] and [answer].  The handlers invoke it
    on [{"input": user_message}] only; on an input of another shape it raises,
    and of that exception the model keeps no more than that it is raised. *)
Definition invoke (c : runnable) (input : pyval) : M pyval :=
  let! h := history in
  record_call (CallInvoke input) >>
  match c with
  | Double f => lift (f h input)
  | RetrievalChain r combine =>
      match input with
      | PyDict d =>
          match Py.dict_get d "input" PyNone with
          | PyStr query =>
              let! docs := get_relevant_documents (Some r) query in
              let! answer := invoke_stuff combine query docs in
              ret (PyDict (Py.dict_set (Py.dict_set d "context" (list_of_docs docs))
                                       "answer" (PyStr answer)))
          | _ => raise (Exn "Exception" "invalid chain input")
          end
      | _ => raise (Exn "Exception" "invalid chain input")
      end
  end.

End langchain.

(** ** Module start-up ([src/app.py] lines 33-64, [src/app/main.py] lines 33-63) *)

(** The module-level state the handler reads. *)
Record app := App {
  retriever : option vector_store_retriever;
  rag_chain : option langchain.runnable
}.

(** [init] is the outcome of the guarded block that downloads the embeddings
    and opens the existing index; [system_prompt] is the template of
    [src/prompt.py].  The construction of the chat model and of the prompt,
    which is not guarded, is taken to succeed. *)
Definition startup (init : result vector_store_retriever) (chat_llm : chat_model)
  (system_prompt : string) : M app :=
  let! retriever :=
    try_except
      (let! r := lift init in ret (Some r))
      (fun e => logger.exception "Failed to initialize vector store or embeddings." e >> ret None) in
  let chain := langchain.create_stuff_documents_chain chat_llm system_prompt in
  match retriever with
  | Some r => ret (App (Some r) (Some (langchain.create_retrieval_chain r chain)))
  | None => ret (App None None)
  end.

(** ** Answer extraction and fallback
    ([src/app.py] lines 116-124, [src/app/main.py] lines 114-122) *)

(** [response_obj.get("answer") or response_obj.get("response") or
     response_obj.get("output") or ""] for a [dict], [str(response_obj)]
    otherwise. *)
Definition extract_answer (response_obj : pyval) : result pyval :=
  match response_obj with
  | PyDict d =>
      Py.or_chain [Py.dict_get d "answer" PyNone;
                   Py.dict_get d "response" PyNone;
                   Py.dict_get d "output" PyNone] (PyStr "")
  | _ =>
      match Py.str response_obj with
      | inl e => inl e
      | inr s => inr (PyStr s)
      end
  end.

Definition fallback_text (user_message : string) : string :=
  "(No answer generated) You asked: " ++ user_message.

(** [if not answer: ...] *)
Definition or_fallback (user_message : string) (answer : pyval) : M pyval :=
  let! t := lift (Py.truthy answer) in
  if t then ret answer
  else
    logger.warning "[WARN] Empty answer extracted, falling back to echo" >>
    ret (PyStr (fallback_text user_message)).

(** The title logged for a retrieved document. *)
Definition doc_title (d : doc) : pyval :=
  match metadata d with
  | Some m => Py.dict_get m "title" (PyStr "no-title")
  | None => PyStr "no-meta"
  end.

(** The text of the log line about the retrieved documents; the join raises
    on a title that is not a [str]. *)
Definition retrieved_line (retrieved_docs : list doc) : result string :=
  match Py.join "; " (map doc_title (firstn 3 retrieved_docs)) with
  | inl e => inl e
  | inr titles =>
      inr ("[DEBUG] Retrieved " ++ PyString.str_of_nat (List.length retrieved_docs)
           ++ " docs. Sample titles/snippets: " ++ titles)
  end.

(** ** The clock, module [time] *)

Module time.

(** The fields of [struct_time] that the format of the applications uses. *)
Record struct_time := {
  tm_year : N;
  tm_mon : N;
  tm_mday : N;
  tm_hour : N;
  tm_min : N;
  tm_sec : N
}.

Definition decimal (n : N) : string := NilZero.string_of_uint (N.to_uint n).

(** A number on at least two digits. *)
Definition pad2 (n : N) : string :=
  if (n <? 10)%N then "0" ++ decimal n else decimal n.

(** One directive of [strftime]; the year is printed as it is, the other
    fields on two digits.  Only these six directives are interpreted. *)
Definition directive (c : ascii) (t : struct_time) : string :=
  if Ascii.eqb c "Y" then decimal (tm_year t)
  else if Ascii.eqb c "m" then pad2 (tm_mon t)
  else if Ascii.eqb c "d" then pad2 (tm_mday t)
  else if Ascii.eqb c "H" then pad2 (tm_hour t)
  else if Ascii.eqb c "M" then pad2 (tm_min t)
  else if Ascii.eqb c "S" then pad2 (tm_sec t)
  else String "%" (String c "").

(** [time.strftime(format, t)] *)
Fixpoint strftime (format : string) (t : struct_time) : string :=
  match format with
  | EmptyString => EmptyString
  | String c rest =>
      if Ascii.eqb c "%" then
        match rest with
        | String d rest' => directive d t ++ strftime rest' t
        | EmptyString => String c EmptyString
        end
      else String c (strftime rest t)
  end.

End time.

(** ** The Flask application, [src/app.py] *)

Module Flask.

(** The request, by the outcome of [request.get_json(force=True)]: the parsed
    body, or the exception raised on a body that is not JSON. *)
Record request := Request { get_json : result pyval }.

(** What a view returns: the JSON body and the status code. *)
Definition response : Type := pyval * Z.

(** [jsonify(body)] raises on a value that is not serialisable. *)
Definition jsonify (body : pyval) : M pyval :=
  lift (Py.json_check body) >> ret body.

Definition error_body (msg : string) : pyval := PyDict [("error", PyStr msg)].

(** Lines 96-105: the handler's own retrieval, whose documents go to the log.
    [inl] is the response of an early [return]. *)
Definition retrieve (a : app) (user_message : string) : M (response + list doc) :=
  try_except
    (let! retrieved_docs := get_relevant_documents (retriever a) user_message in
     let! line := lift (retrieved_line retrieved_docs) in
     logger.info line >>
     ret (inr retrieved_docs))
    (fun e =>
     logger.exception "[ERROR] Retrieval failed" e >>
     let! body := jsonify (error_body ("retrieval error: " ++ exn_str e)) in
     ret (inl (body, 500%Z))).

(** Lines 108-113: the chain invocation. *)
Definition generate (rag_chain : langchain.runnable) (user_message : string)
  : M (response + pyval) :=
  try_except
    (let! response_obj := langchain.invoke rag_chain (PyDict [("input", PyStr user_message)]) in
     let! text := lift (Py.str response_obj) in
     logger.info ("[DEBUG] Raw chain output: " ++ text) >>
     ret (inr response_obj))
    (fun e =>
     logger.exception "[ERROR] Chain invocation failed" e >>
     let! body := jsonify (error_body ("chain invocation error: " ++ exn_str e)) in
     ret (inl (body, 500%Z))).

(** Lines 115-127: extraction, fallback and the response. *)
Definition respond (user_message : string) (response_obj : pyval) : M response :=
  let! answer := lift (extract_answer response_obj) in
  let! answer := or_fallback user_message answer in
  let! text := lift (Py.str answer) in
  logger.info ("[DEBUG] Final answer: " ++ text) >>
  let! body := jsonify (PyDict [("response", answer)]) in
  ret (body, 200%Z).

(** Lines 95-127: the three steps in sequence; the documents of the first
    step are not passed on. *)
Definition pipeline (a : app) (rag_chain : langchain.runnable) (user_message : string)
  : M response :=
  let! r := retrieve a user_message in
  match r with
  | inl resp => ret resp
  | inr retrieved_docs =>
      let! g := generate rag_chain user_message in
      match g with
      | inl resp => ret resp
      | inr response_obj => respond user_message response_obj
      end
  end.

(** Lines 88-127: the body of the outer [try]. *)
Definition chat_try (a : app) (rag_chain : langchain.runnable) (req : request) : M response :=
  let! data := lift (get_json req) in
  let! message := lift (Py.get data "message" (PyStr "")) in
  let! user_message := lift (Py.strip message) in
  if String.eqb user_message "" then
    let! body := jsonify (error_body "empty message") in
    ret (body, 400%Z)
  else
    logger.info ("[DEBUG] User input: " ++ user_message) >>
    pipeline a rag_chain user_message.

(** Lines 83-131: [chat]. *)
Definition chat (a : app) (req : request) : M response :=
  match rag_chain a with
  | None =>
      let! body := jsonify (error_body "retrieval chain not initialized") in
      ret (body, 500%Z)
  | Some rag_chain =>
      try_except
        (chat_try a rag_chain req)
        (fun e =>
         logger.exception "Unhandled exception in /api/chat" e >>
         let! body := jsonify (error_body "internal server error") in
         ret (body, 500%Z))
  end.

(** Lines 73-75: [health]; [now] is what [time.gmtime()] gives. *)
Definition health (now : time.struct_time) : M response :=
  let! body := jsonify (PyDict [("status", PyStr "ok");
                                ("timestamp", PyStr (time.strftime "%Y-%m-%dT%H:%M:%SZ" now))]) in
  ret (body, 200%Z).

(** Lines 78-81: [clear], a placeholder. *)
Definition clear : M response :=
  let! body := jsonify (PyDict [("status", PyStr "cleared")]) in
  ret (body, 200%Z).

End Flask.

(** ** The FastAPI application, [src/app/main.py] *)

Module FastAPI.

(** [ChatRequest]: the body has been validated before the handler runs. *)
Record ChatRequest := { message : string }.

(** How the handler ends when no other exception leaves it: it returns a
    body, or raises [HTTPException]. *)
Inductive reply :=
| Return (body : pyval)
| HTTPException (status_code : Z) (detail : string).

(** Lines 94-103. [inl] is the [HTTPException] raised from the handler. *)
Definition retrieve (a : app) (user_message : string) : M (reply + list doc) :=
  try_except
    (let! retrieved_docs := get_relevant_documents (retriever a) user_message in
     let! line := lift (retrieved_line retrieved_docs) in
     logger.info line >>
     ret (inr retrieved_docs))
    (fun e =>
     logger.exception "[ERROR] Retrieval failed" e >>
     ret (inl (HTTPException 500 ("retrieval error: " ++ exn_str e)))).

(** Lines 106-111. *)
Definition generate (rag_chain : langchain.runnable) (user_message : string)
  : M (reply + pyval) :=
  try_except
    (let! response_obj := langchain.invoke rag_chain (PyDict [("input", PyStr user_message)]) in
     let! text := lift (Py.str response_obj) in
     logger.info ("[DEBUG] Raw chain output: " ++ text) >>
     ret (inr response_obj))
    (fun e =>
     logger.exception "[ERROR] Chain invocation failed" e >>
     ret (inl (HTTPException 500 ("chain invocation error: " ++ exn_str e)))).

(** Lines 113-125: extraction, fallback and the returned body. *)
Definition respond (user_message : string) (response_obj : pyval) : M reply :=
  let! answer := lift (extract_answer response_obj) in
  let! answer := or_fallback user_message answer in
  let! text := lift (Py.str answer) in
  logger.info ("[DEBUG] Final answer: " ++ text) >>
  ret (Return (PyDict [("response", answer)])).

(** Lines 93-125: the three steps in sequence; the documents of the first
    step are not passed on. *)
Definition pipeline (a : app) (rag_chain : langchain.runnable) (user_message : string)
  : M reply :=
  let! r := retrieve a user_message in
  match r with
  | inl exc => ret exc
  | inr retrieved_docs =>
      let! g := generate rag_chain user_message in
      match g with
      | inl exc => ret exc
      | inr response_obj => respond user_message response_obj
      end
  end.

(** Lines 83-125: [chat].  There is no outer [try]: an exception raised
    outside the two guarded steps leaves the handler. *)
Definition chat (a : app) (payload : ChatRequest) : M reply :=
  match rag_chain a with
  | None => ret (HTTPException 500 "Retrieval chain not initialized")
  | Some rag_chain =>
      let user_message := PyString.strip (message payload) in
      if String.eqb user_message "" then
        ret (HTTPException 400 "empty message")
      else
        logger.info ("[DEBUG] User input: " ++ user_message) >>
        pipeline a rag_chain user_message
  end.

(** Lines 70-75: [health]; [now] is what [time.gmtime()] gives. *)
Definition health (now : time.struct_time) : M pyval :=
  ret (PyDict [("status", PyStr "ok");
               ("timestamp", PyStr (time.strftime "%Y-%m-%dT%H:%M:%SZ" now))]).

(** Lines 77-80: [clear], a placeholder. *)
Definition clear : M pyval := ret (PyDict [("status", PyStr "cleared")]).

End FastAPI.

(** ** The ingestion script, [src/store.py] *)

Module Store.

(** A Pinecone index: its configuration and the texts upserted so far (one
    vector each). *)
Record index := Index {
  dimension : Z;
  metric : string;
  cloud : string;
  region : string;
  vectors : list string
}.

(** The indexes of the account, by name. *)
Abbreviation pinecone := (gmap string index).

(** What a run of the script does that can be observed. *)
Inductive event :=
| CreateIndex (name : string)
| Print (line : string)
| Upsert (name : string) (count : nat).

(** [pc.list_indexes().names()] *)
Definition names (pc : pinecone) : gset string := dom pc.

(** [pc.create_index(name=..., dimension=..., metric=..., spec=ServerlessSpec(...))];
    the service refuses a name that is taken. *)
Definition create_index (name : string) (dim : Z) (met cl reg : string) (pc : pinecone)
  : result pinecone :=
  match pc !! name with
  | Some _ => inl (Exn "PineconeApiException" "(409) Reason: Conflict")
  | None => inr (<[name := Index dim met cl reg []]> pc)
  end.

(** [PineconeVectorStore.from_documents(documents=..., index_name=..., embedding=...)]:
    one vector per chunk is added to the index, under a fresh id.  The
    embedding is taken to have the dimension of the index: that the service
    refuses vectors of another dimension is not modelled. *)
Definition from_documents (documents : list string) (name : string) (pc : pinecone)
  : result pinecone :=
  match pc !! name with
  | None => inl (Exn "ValueError" ("Index '" ++ name ++ "' not found in your Pinecone project."))
  | Some ix =>
      inr (<[name := Index (dimension ix) (metric ix) (cloud ix) (region ix)
                           (vectors ix ++ documents)]> pc)
  end.

Definition index_name : string := "medibot".

(** Lines 25-36: the index is created only if no index has the name. *)
Definition build_index (pc : pinecone) : result pinecone * list event :=
  if decide (index_name ∉ names pc) then
    (create_index index_name 384 "cosine" "aws" "us-east-1" pc, [CreateIndex index_name])
  else
    (inr pc, [Print ("Index '" ++ index_name ++ "' already exists. Skipping creation.")]).

(** Lines 21-43: the script, from the chunks of the loaded documents. *)
Definition store (text_chunks : list string) (pc : pinecone) : result pinecone * list event :=
  match build_index pc with
  | (inl e, t) => (inl e, t)
  | (inr pc', t) =>
      (from_documents text_chunks index_name pc',
       (t ++ [Upsert index_name (List.length text_chunks)])%list)
  end.

End Store.

(** ** The scaffolding script, [src/template.py] *)

Module Template.

(** A path relative to the working directory, by its components; the empty
    list is the working directory itself. *)
Abbreviation path := (list string).

(** What the file system holds at a path: a directory, or a file with its
    content.  The file system is a tree: what lies under a path that holds a
    file, or under a path that holds nothing, is absent. *)
Inductive node :=
| Dir
| File (content : string).

Abbreviation filesystem := (gmap (list string) node).

(** What the script logs. *)
Inductive logline :=
| CreatingDirectory (filedir : path)
| CreatingEmptyFile (filename : string) (filedir : path)
| AlreadyExists (filename : string).

(** The pieces of a text between slashes. *)
Fixpoint pieces (s : string) (piece : string) : list string :=
  match s with
  | EmptyString => [piece]
  | String c s' =>
      if Ascii.eqb c "/" then piece :: pieces s' EmptyString
      else pieces s' (piece ++ String c EmptyString)
  end.

(** [Path(filepath)], for a relative path: empty pieces and [.] are dropped. *)
Definition Path (filepath : string) : path :=
  List.filter (fun x => negb (String.eqb x "") && negb (String.eqb x ".")) (pieces filepath "").

(** [os.path.split]: the directory part and the last component. *)
Definition os_path_split (p : path) : path * string := (List.removelast p, List.last p ".").

(** [os.stat]: the working directory is a directory. *)
Definition stat (fs : filesystem) (p : path) : option node :=
  match p with
  | [] => Some Dir
  | _ => fs !! p
  end.

(** The text of a relative path. *)
Definition path_str (p : path) : string :=
  match p with
  | [] => "."
  | _ => PyString.join "/" p
  end.

(** An [OSError] of the class [cls] about the path [p]. *)
Definition os_error (cls : string) (errno : nat) (strerror : string) (p : path) : exn :=
  Exn cls ("[Errno " ++ PyString.str_of_nat errno ++ "] " ++ strerror ++ ": "
           ++ PyString.repr (path_str p)).

(** [os.makedirs(name, exist_ok=True)]: the directories from the first
    component of [rest] down are made where they are missing; a file in the
    way is an error, raised where the file is to be a directory
    ([FileExistsError]) or for the first path below it
    ([NotADirectoryError]). *)
Fixpoint makedirs_from (made rest : path) (fs : filesystem) : option exn * filesystem :=
  match rest with
  | [] => (None, fs)
  | x :: rest' =>
      let p := (made ++ [x])%list in
      match fs !! p with
      | Some Dir => makedirs_from p rest' fs
      | Some (File _) =>
          (Some (match rest' with
                 | [] => os_error "FileExistsError" 17 "File exists" p
                 | y :: _ => os_error "NotADirectoryError" 20 "Not a directory" (p ++ [y])
                 end), fs)
      | None => makedirs_from p rest' (<[p := Dir]> fs)
      end
  end.

Definition makedirs (name : path) (fs : filesystem) : option exn * filesystem :=
  makedirs_from [] name fs.

Section Script.

(** The size the system reports for a directory, which depends on the file
    system in use. *)
Variable getsize_dir : filesystem -> path -> nat.

(** [os.path.getsize] *)
Definition getsize (fs : filesystem) (p : path) : nat :=
  match stat fs p with
  | Some (File content) => String.length content
  | Some Dir => getsize_dir fs p
  | None => 0
  end.

(** [with open(filepath, "w") as f: pass]: the file is made, or emptied;
    the directory it lies in exists when the script comes here. *)
Definition open_w (p : path) (fs : filesystem) : option exn * filesystem :=
  match stat fs p with
  | Some Dir => (Some (os_error "IsADirectoryError" 21 "Is a directory" p), fs)
  | _ => (None, <[p := File ""]> fs)
  end.

(** Lines 17-29: the body of the loop, for one entry of the list. *)
Definition visit (filepath : string) (fs : filesystem)
  : option exn * filesystem * list logline :=
  let filepath := Path filepath in
  let (filedir, filename) := os_path_split filepath in
  let '(e, fs1, log1) :=
    match filedir with
    | [] => (None, fs, [])
    | _ =>
        match makedirs filedir fs with
        | (Some e, fs1) => (Some e, fs1, [])
        | (None, fs1) => (None, fs1, [CreatingDirectory filedir])
        end
    end in
  match e with
  | Some e => (Some e, fs1, log1)
  | None =>
      if negb (bool_decide (is_Some (stat fs1 filepath))) || Nat.eqb (getsize fs1 filepath) 0 then
        match open_w filepath fs1 with
        | (Some e, fs2) => (Some e, fs2, log1)
        | (None, fs2) => (None, fs2, (log1 ++ [CreatingEmptyFile filename filedir])%list)
        end
      else (None, fs1, (log1 ++ [AlreadyExists filename])%list)
  end.

(** Lines 16-29: the loop; an exception ends the script. *)
Fixpoint scaffold (files : list string) (fs : filesystem)
  : option exn * filesystem * list logline :=
  match files with
  | [] => (None, fs, [])
  | filepath :: files' =>
      match visit filepath fs with
      | (Some e, fs1, log1) => (Some e, fs1, log1)
      | (None, fs1, log1) =>
          let '(e, fs2, log2) := scaffold files' fs1 in
          (e, fs2, (log1 ++ log2)%list)
      end
  end.

End Script.

(** Lines 7-15. *)
Definition list_of_files : list string :=
  [" src/helper.py"; "src/__init__.py"; "src/prompt.py"; ".env"; "setup.py"; "app.py";
   "research/trials.ipynb"].

End Template.

(** ** Observations on a run *)

Definition is_invoke (c : call) : bool :=
  match c with CallInvoke _ => true | _ => false end.

Definition is_retrieve (c : call) : bool :=
  match c with CallRetrieve _ => true | _ => false end.

(** How many times the chain, respectively the retriever, was called. *)
Definition count_invokes (l : list call) : nat := List.length (List.filter is_invoke l).
Definition count_retrieves (l : list call) : nat := List.length (List.filter is_retrieve l).

(** The world once the handler has logged the user input [um]. *)
Definition logged_input (w : world) (um : string) : world :=
  World (calls w) (logs w ++ [Log INFO ("[DEBUG] User input: " ++ um) None]).

(** The world once the handler's own retrieval has returned and the line
    [line] about its documents is logged. *)
Definition retrieved (w : world) (um line : string) : world :=
  World (calls w ++ [CallRetrieve um])
        (logs w ++ [Log INFO ("[DEBUG] User input: " ++ um) None; Log INFO line None]).

(** A world extended by one log record. *)
Definition logged (w : world) (r : logrec) : world :=
  World (calls w) (logs w ++ [r]).

(** A Flask request whose JSON body is the object [d]. *)
Definition json_request (d : pydict) : Flask.request := Flask.Request (inr (PyDict d)).

(** The world after a response that took the fallback. *)
Definition fell_back (w : world) (um : string) : world :=
  World (calls w)
        (logs w ++ [Log WARNING "[WARN] Empty answer extracted, falling back to echo" None;
                    Log INFO ("[DEBUG] Final answer: " ++ fallback_text um) None]).

(** The response of the outer [except] of the Flask handler. *)
Definition internal_server_error : Flask.response :=
  (Flask.error_body "internal server error", 500%Z).

(** The record it logs. *)
Definition unhandled (e : exn) : logrec :=
  Log ERROR "Unhandled exception in /api/chat" (Some e).

(** What the script prints when the index exists. *)
Definition skip_line : Store.event :=
  Store.Print "Index 'medibot' already exists. Skipping creation.".

(** The index as the script creates it. *)
Definition fresh_index : Store.index := Store.Index 384 "cosine" "aws" "us-east-1" [].

(** What a successful request on the chain of the start-up does, from the
    world [w] and the trimmed message [um]: the handler's retrieval gives
    [docs1], the retrieval of the chain gives [docs2], the model is called on
    the prompt made from [docs2] and gives [text]; [w'] is the final world. *)
Definition two_retrievals (r : vector_store_retriever) (llm : chat_model) (sp : string)
  (w : world) (um : string) (docs1 docs2 : list doc) (text : string) (w' : world) : Prop :=
  let input := PyDict [("input", PyStr um)] in
  let h1 := (calls w ++ [CallRetrieve um; CallInvoke input])%list in
  let p := Prompt sp (langchain.format_docs docs2) um in
  r (calls w) um = inr docs1
  /\ r h1 um = inr docs2
  /\ llm (h1 ++ [CallRetrieve um])%list p = inr text
  /\ calls w' = (h1 ++ [CallRetrieve um; CallLLM p])%list.

(** The answer made from the text of the model. *)
Definition answer_of (text um : string) : pyval :=
  PyStr (if String.eqb text "" then fallback_text um else text).

(** Two retrievers that differ at most on the call made with history [h0]. *)
Definition agree_except_at (h0 : list call) (r r' : vector_store_retriever) : Prop :=
  forall h q, h <> h0 -> r' h q = r h q.

(** Two runs end alike: with the same response or the same exception, after
    the same calls; the log records may differ. *)
Definition same_outcome {A} (x y : result A * world) : Prop :=
  fst x = fst y /\ calls (snd x) = calls (snd y).

(** ** The two applications side by side *)

(** The Flask response for an outcome of the FastAPI handler. *)
Definition flask_error (exc : FastAPI.reply) : Flask.response :=
  match exc with
  | FastAPI.HTTPException st detail => (Flask.error_body detail, st)
  | FastAPI.Return body => (body, 200%Z)
  end.

Definition flask_try_view (out : result FastAPI.reply * world) : result Flask.response * world :=
  match out with
  | (inl e, w') => (inl e, w')
  | (inr (FastAPI.HTTPException st detail), w') => (inr (Flask.error_body detail, st), w')
  | (inr (FastAPI.Return body), w') =>
      match Py.json_check body with
      | inl e => (inl e, w')
      | inr _ => (inr (body, 200%Z), w')
      end
  end.

Definition flask_view (out : result FastAPI.reply * world) : result Flask.response * world :=
  match flask_try_view out with
  | (inl e, w') =>
      if is_Exception e then (inr internal_server_error, logged w' (unhandled e))
      else (inl e, w')
  | (inr resp, w') => (inr resp, w')
  end.

(** The calls a handler makes for one request on the trimmed message [um]:
    none, the retrieval alone, or the retrieval, one invocation of the chain
    and what the chain calls itself. *)
Definition request_calls (um : string) (new : list call) : Prop :=
  new = []
  \/ new = [CallRetrieve um]
  \/ exists rest, new = CallRetrieve um :: CallInvoke (PyDict [("input", PyStr um)]) :: rest
                  /\ count_invokes rest = 0.

(** The title of the document is a [str]. *)
Definition title_is_str (d : doc) : Prop := exists s, doc_title d = PyStr s.

(** The outcomes of the FastAPI handler: a body with the answer, or one of
    the four [HTTPException]s it raises. *)
Inductive expected_reply : FastAPI.reply -> Prop :=
| reply_answer answer :
    expected_reply (FastAPI.Return (PyDict [("response", answer)]))
| reply_uninitialized :
    expected_reply (FastAPI.HTTPException 500 "Retrieval chain not initialized")
| reply_empty :
    expected_reply (FastAPI.HTTPException 400 "empty message")
| reply_retrieval e :
    expected_reply (FastAPI.HTTPException 500 ("retrieval error: " ++ exn_str e))
| reply_generation e :
    expected_reply (FastAPI.HTTPException 500 ("chain invocation error: " ++ exn_str e)).

(** The responses of the Flask handler: the answer with the status 200, or
    one of five error bodies. *)
Inductive expected_response : Flask.response -> Prop :=
| response_answer answer :
    expected_response (PyDict [("response", answer)], 200%Z)
| response_uninitialized :
    expected_response (Flask.error_body "retrieval chain not initialized", 500%Z)
| response_empty :
    expected_response (Flask.error_body "empty message", 400%Z)
| response_retrieval e :
    expected_response (Flask.error_body ("retrieval error: " ++ exn_str e), 500%Z)
| response_generation e :
    expected_response (Flask.error_body ("chain invocation error: " ++ exn_str e), 500%Z)
| response_internal :
    expected_response internal_server_error.

(** ** The shape of a timestamp *)

Definition is_digit (c : ascii) : bool :=
  let n := N_of_ascii c in ((48 <=? n) && (n <=? 57))%N.

Definition two_digits (s : string) : bool :=
  match s with
  | String a (String b EmptyString) => is_digit a && is_digit b
  | _ => false
  end.

Definition four_digits (s : string) : bool :=
  match s with
  | String a (String b (String c (String d EmptyString))) =>
      is_digit a && is_digit b && is_digit c && is_digit d
  | _ => false
  end.

(** The shape [YYYY-MM-DDTHH:MM:SSZ]. *)
Definition iso_shape (s : string) : bool :=
  four_digits (substring 0 4 s) && String.eqb (substring 4 1 s) "-"
  && two_digits (substring 5 2 s) && String.eqb (substring 7 1 s) "-"
  && two_digits (substring 8 2 s) && String.eqb (substring 10 1 s) "T"
  && two_digits (substring 11 2 s) && String.eqb (substring 13 1 s) ":"
  && two_digits (substring 14 2 s) && String.eqb (substring 16 1 s) ":"
  && two_digits (substring 17 2 s) && String.eqb (substring 19 1 s) "Z"
  && Nat.eqb (String.length s) 20.

(** A time as [time.gmtime] gives it, in the years of four digits. *)
Definition in_range (t : time.struct_time) : Prop :=
  (1000 <= time.tm_year t <= 9999
   /\ 1 <= time.tm_mon t <= 12 /\ 1 <= time.tm_mday t <= 31
   /\ time.tm_hour t <= 23 /\ time.tm_min t <= 59 /\ time.tm_sec t <= 61)%N.

(** ** States of the file system of the scaffolding script *)

(** The directories [made ++ pre], for the prefixes [pre] of [rest] that are
    not empty, are there. *)
Definition dirs_made (made rest : list string) (fs : gmap (list string) Template.node) : Prop :=
  forall pre suf, rest = (pre ++ suf)%list -> pre <> [] ->
                  fs !! (made ++ pre)%list = Some Template.Dir.

(** The entry [filepath] of the list needs nothing more: the directories
    above it are there, and something is at its path. *)
Definition settled (fs : gmap (list string) Template.node) (filepath : string) : Prop :=
  dirs_made [] (List.removelast (Template.Path filepath)) fs
  /\ is_Some (Template.stat fs (Template.Path filepath)).

(** The first part of the body of the loop: the directories of the entry. *)
Definition after_dirs (filepath : string) (fs : gmap (list string) Template.node)
  : option exn * gmap (list string) Template.node :=
  match List.removelast (Template.Path filepath) with
  | [] => (None, fs)
  | filedir => Template.makedirs filedir fs
  end.

(** No file is in the way of the directories of the entry. *)
Definition dirs_free (fs : gmap (list string) Template.node) (filepath : string) : Prop :=
  forall pre suf c, List.removelast (Template.Path filepath) = (pre ++ suf)%list -> pre <> [] ->
                    fs !! pre <> Some (Template.File c).

(** Nothing is in the way of the entries: no file where a directory is
    needed, no directory where a file is to be. *)
Definition clear_for (files : list string) (fs : gmap (list string) Template.node) : Prop :=
  forall f, In f files -> dirs_free fs f /\ fs !! Template.Path f <> Some Template.Dir.

(** No entry of the list is a directory of an entry, and none is empty. *)
Definition separate (files : list string) : Prop :=
  forall f g pre suf, In f files -> In g files ->
    List.removelast (Template.Path g) = (pre ++ suf)%list -> pre <> [] ->
    Template.Path f <> pre.

(** ** Values and collaborators used in the examples *)

(** An array of two numbers: its truth value raises; it can be printed. *)
Definition ambiguous_truth : exn :=
  Exn "ValueError"
      "The truth value of an array with more than one element is ambiguous. Use a.any() or a.all()".

Definition ndarray : pyval :=
  PyObj {| obj_type := "ndarray";
           obj_bool := inl ambiguous_truth;
           obj_str := inr "[1 2]";
           obj_repr := inr "array([1, 2])";
           obj_json := inl (Exn "TypeError" "Object of type ndarray is not JSON serializable") |}.

Definition asthma_doc : doc :=
  Document (Some [("title", PyStr "Asthma")]) "Asthma is a chronic disease." "Document(asthma)".

Definition fever_doc : doc :=
  Document (Some [("page", PyInt 3)]) "Fever is a symptom." "Document(fever)".

(** A retriever whose first answer differs from the later ones. *)
Definition changing_retriever : vector_store_retriever :=
  fun h _ => match h with [] => inr [asthma_doc] | _ => inr [fever_doc] end.

(** A document whose title is a number. *)
Definition numbered_doc : doc :=
  Document (Some [("title", PyInt 7)]) "Chapter seven." "Document(seven)".

(** The same retriever, but for its first answer. *)
Definition numbering_retriever : vector_store_retriever :=
  fun h _ => match h with [] => inr [numbered_doc] | _ => inr [fever_doc] end.

(** A model that answers with the context it was given. *)
Definition echo_model : chat_model := fun _ p => inr ("Context: " ++ p_context p).

(** An object that cannot be printed: [str] and [repr] raise. *)
Definition no_text : exn := Exn "RuntimeError" "no text for this object".

Definition unprintable : pyval :=
  PyObj {| obj_type := "Handle";
           obj_bool := inr true;
           obj_str := inl no_text;
           obj_repr := inl no_text;
           obj_json := inl (Exn "TypeError" "Object of type Handle is not JSON serializable") |}.

(** * Properties *)

(** ** Python strings and values, on examples *)

Example repr_plain : PyString.repr "it's" = String PyString.dquote ("it's" ++ String PyString.dquote "").
Proof. reflexivity. Qed.

Example repr_dict :
  Py.repr (PyDict [("answer", PyStr "a"); ("n", PyInt (-3)); ("ok", PyBool true)])
  = inr "{'answer': 'a', 'n': -3, 'ok': True}".
Proof. reflexivity. Qed.

Example strip_spaces : PyString.strip "  hi there  " = "hi there".
Proof. reflexivity. Qed.

(** A title that is not a [str] makes the join of the log line raise. *)
Example retrieved_line_title_not_str :
  retrieved_line [asthma_doc; Document (Some [("title", PyInt 7)]) "x" "Document(x)"]
  = inl (Exn "TypeError" "sequence item 1: expected str instance, int found").
Proof. reflexivity. Qed.

(** ** Running the monad *)

Section Monad.
Context {A B : Type}.

Lemma bind_inr (m : M A) (k : A -> M B) w x w1 :
  m w = (inr x, w1) -> bind m k w = k x w1.
Proof. intros H. unfold bind. now rewrite H. Qed.

Lemma bind_inl (m : M A) (k : A -> M B) w e w1 :
  m w = (inl e, w1) -> bind m k w = (inl e, w1).
Proof. intros H. unfold bind. now rewrite H. Qed.

Lemma bind_inv (m : M A) (k : A -> M B) w r w' :
  bind m k w = (r, w') ->
  (exists e, m w = (inl e, w') /\ r = inl e)
  \/ (exists x w1, m w = (inr x, w1) /\ k x w1 = (r, w')).
Proof.
  unfold bind. destruct (m w) as [[e|x] w1]; intros H.
  - left. exists e. now inversion H.
  - right. now exists x, w1.
Qed.

Lemma try_except_inr (m : M A) (h : exn -> M A) w x w1 :
  m w = (inr x, w1) -> try_except m h w = (inr x, w1).
Proof. intros H. unfold try_except. now rewrite H. Qed.

Lemma try_except_inl (m : M A) (h : exn -> M A) w e w1 :
  m w = (inl e, w1) -> is_Exception e = true -> try_except m h w = h e w1.
Proof. intros H He. unfold try_except. now rewrite H, He. Qed.

Lemma try_except_escapes (m : M A) (h : exn -> M A) w e w1 :
  m w = (inl e, w1) -> is_Exception e = false -> try_except m h w = (inl e, w1).
Proof. intros H He. unfold try_except. now rewrite H, He. Qed.

Lemma try_except_inv (m : M A) (h : exn -> M A) w r w' :
  try_except m h w = (r, w') ->
  (exists x, m w = (inr x, w') /\ r = inr x)
  \/ (exists e w1, m w = (inl e, w1) /\ is_Exception e = true /\ h e w1 = (r, w'))
  \/ (exists e, m w = (inl e, w') /\ is_Exception e = false /\ r = inl e).
Proof.
  unfold try_except. destruct (m w) as [[e|x] w1]; intros H.
  - destruct (is_Exception e) eqn:He.
    + right; left. now exists e, w1.
    + right; right. exists e. now inversion H.
  - left. exists x. now inversion H.
Qed.

End Monad.

Lemma get_relevant_documents_run r q w :
  get_relevant_documents (Some r) q w
  = (r (calls w) q, World (calls w ++ [CallRetrieve q]) (logs w)).
Proof. reflexivity. Qed.

Lemma retrieved_world w um line :
  World (calls (logged_input w um) ++ [CallRetrieve um])
        (logs (logged_input w um) ++ [Log INFO line None])
  = retrieved w um line.
Proof. unfold retrieved, logged_input. cbn. now rewrite <- app_assoc. Qed.

Arguments PyString.strip : simpl never.

(** The unfolding used to run the primitive steps. *)
Ltac run :=
  unfold bind, ret, lift, raise, try_except, history, record_call, emit,
    logger.info, logger.warning, logger.exception, Flask.jsonify; cbn.

Ltac run_in H :=
  unfold bind, ret, lift, raise, try_except, history, record_call, emit,
    logger.info, logger.warning, logger.exception, Flask.jsonify in H; cbn in H.

(** ** The retrieval step *)

Lemma flask_retrieve_ok r c um w docs line :
  r (calls w) um = inr docs -> retrieved_line docs = inr line ->
  Flask.retrieve (App (Some r) c) um w
  = (inr (inr docs), World (calls w ++ [CallRetrieve um]) (logs w ++ [Log INFO line None])).
Proof.
  intros H1 H2. unfold Flask.retrieve. run. rewrite H1. cbn. now rewrite H2.
Qed.

Lemma flask_retrieve_raises r c um w e :
  r (calls w) um = inl e -> is_Exception e = true ->
  Flask.retrieve (App (Some r) c) um w
  = (inr (inl (Flask.error_body ("retrieval error: " ++ exn_str e), 500%Z)),
     World (calls w ++ [CallRetrieve um])
           (logs w ++ [Log ERROR "[ERROR] Retrieval failed" (Some e)])).
Proof.
  intros H He. unfold Flask.retrieve. run. rewrite H. cbn. now rewrite He.
Qed.

Lemma flask_retrieve_escapes r c um w e :
  r (calls w) um = inl e -> is_Exception e = false ->
  Flask.retrieve (App (Some r) c) um w
  = (inl e, World (calls w ++ [CallRetrieve um]) (logs w)).
Proof.
  intros H He. unfold Flask.retrieve. run. rewrite H. cbn. now rewrite He.
Qed.

Lemma fastapi_retrieve_ok r c um w docs line :
  r (calls w) um = inr docs -> retrieved_line docs = inr line ->
  FastAPI.retrieve (App (Some r) c) um w
  = (inr (inr docs), World (calls w ++ [CallRetrieve um]) (logs w ++ [Log INFO line None])).
Proof.
  intros H1 H2. unfold FastAPI.retrieve. run. rewrite H1. cbn. now rewrite H2.
Qed.

Lemma fastapi_retrieve_raises r c um w e :
  r (calls w) um = inl e -> is_Exception e = true ->
  FastAPI.retrieve (App (Some r) c) um w
  = (inr (inl (FastAPI.HTTPException 500 ("retrieval error: " ++ exn_str e))),
     World (calls w ++ [CallRetrieve um])
           (logs w ++ [Log ERROR "[ERROR] Retrieval failed" (Some e)])).
Proof.
  intros H He. unfold FastAPI.retrieve. run. rewrite H. cbn. now rewrite He.
Qed.

Lemma fastapi_retrieve_escapes r c um w e :
  r (calls w) um = inl e -> is_Exception e = false ->
  FastAPI.retrieve (App (Some r) c) um w
  = (inl e, World (calls w ++ [CallRetrieve um]) (logs w)).
Proof.
  intros H He. unfold FastAPI.retrieve. run. rewrite H. cbn. now rewrite He.
Qed.

(** ** The chain invocation step *)

Lemma flask_generate_raises c um w e w2 :
  langchain.invoke c (PyDict [("input", PyStr um)]) w = (inl e, w2) ->
  is_Exception e = true ->
  Flask.generate c um w
  = (inr (inl (Flask.error_body ("chain invocation error: " ++ exn_str e), 500%Z)),
     logged w2 (Log ERROR "[ERROR] Chain invocation failed" (Some e))).
Proof.
  intros H He. unfold Flask.generate.
  rewrite (try_except_inl _ _ _ e w2); [reflexivity | | exact He].
  now erewrite bind_inl by exact H.
Qed.

Lemma flask_generate_escapes c um w e w2 :
  langchain.invoke c (PyDict [("input", PyStr um)]) w = (inl e, w2) ->
  is_Exception e = false ->
  Flask.generate c um w = (inl e, w2).
Proof.
  intros H He. unfold Flask.generate.
  apply try_except_escapes; [|exact He]. now erewrite bind_inl by exact H.
Qed.

Lemma flask_generate_ok c um w raw w2 text :
  langchain.invoke c (PyDict [("input", PyStr um)]) w = (inr raw, w2) ->
  Py.str raw = inr text ->
  Flask.generate c um w
  = (inr (inr raw), logged w2 (Log INFO ("[DEBUG] Raw chain output: " ++ text) None)).
Proof.
  intros H Ht. unfold Flask.generate.
  erewrite try_except_inr; [reflexivity|].
  erewrite bind_inr by exact H. run. now rewrite Ht.
Qed.

Lemma fastapi_generate_raises c um w e w2 :
  langchain.invoke c (PyDict [("input", PyStr um)]) w = (inl e, w2) ->
  is_Exception e = true ->
  FastAPI.generate c um w
  = (inr (inl (FastAPI.HTTPException 500 ("chain invocation error: " ++ exn_str e))),
     logged w2 (Log ERROR "[ERROR] Chain invocation failed" (Some e))).
Proof.
  intros H He. unfold FastAPI.generate.
  rewrite (try_except_inl _ _ _ e w2); [reflexivity | | exact He].
  now erewrite bind_inl by exact H.
Qed.

Lemma fastapi_generate_escapes c um w e w2 :
  langchain.invoke c (PyDict [("input", PyStr um)]) w = (inl e, w2) ->
  is_Exception e = false ->
  FastAPI.generate c um w = (inl e, w2).
Proof.
  intros H He. unfold FastAPI.generate.
  apply try_except_escapes; [|exact He]. now erewrite bind_inl by exact H.
Qed.

Lemma fastapi_generate_ok c um w raw w2 text :
  langchain.invoke c (PyDict [("input", PyStr um)]) w = (inr raw, w2) ->
  Py.str raw = inr text ->
  FastAPI.generate c um w
  = (inr (inr raw), logged w2 (Log INFO ("[DEBUG] Raw chain output: " ++ text) None)).
Proof.
  intros H Ht. unfold FastAPI.generate.
  erewrite try_except_inr; [reflexivity|].
  erewrite bind_inr by exact H. run. now rewrite Ht.
Qed.

(** ** From the request to the pipeline *)

Lemma flask_chat_try_valid a c d m w :
  Py.dict_get d "message" (PyStr "") = PyStr m ->
  PyString.strip m <> "" ->
  Flask.chat_try a c (json_request d) w
  = Flask.pipeline a c (PyString.strip m) (logged_input w (PyString.strip m)).
Proof.
  intros Hm Hne. apply String.eqb_neq in Hne.
  unfold Flask.chat_try, json_request. run. rewrite Hm. cbn. now rewrite Hne.
Qed.

Lemma flask_chat_valid r c d m w resp w' :
  Py.dict_get d "message" (PyStr "") = PyStr m ->
  PyString.strip m <> "" ->
  Flask.pipeline (App r (Some c)) c (PyString.strip m) (logged_input w (PyString.strip m))
  = (inr resp, w') ->
  Flask.chat (App r (Some c)) (json_request d) w = (inr resp, w').
Proof.
  intros Hm Hne H. unfold Flask.chat. cbn [rag_chain].
  apply try_except_inr. now rewrite (flask_chat_try_valid _ _ _ m).
Qed.

Lemma fastapi_chat_valid r c m w :
  PyString.strip m <> "" ->
  FastAPI.chat (App r (Some c)) (FastAPI.Build_ChatRequest m) w
  = FastAPI.pipeline (App r (Some c)) c (PyString.strip m) (logged_input w (PyString.strip m)).
Proof.
  intros Hne. apply String.eqb_neq in Hne.
  unfold FastAPI.chat. cbn. now rewrite Hne.
Qed.

Lemma flask_pipeline_retrieval_returns a c um w resp w1 :
  Flask.retrieve a um w = (inr (inl resp), w1) ->
  Flask.pipeline a c um w = (inr resp, w1).
Proof. intros H. unfold Flask.pipeline. now erewrite bind_inr by exact H. Qed.

Lemma flask_pipeline_generate_returns a c um w docs w1 resp w2 :
  Flask.retrieve a um w = (inr (inr docs), w1) ->
  Flask.generate c um w1 = (inr (inl resp), w2) ->
  Flask.pipeline a c um w = (inr resp, w2).
Proof.
  intros H1 H2. unfold Flask.pipeline.
  erewrite bind_inr by exact H1. cbv beta iota.
  now erewrite bind_inr by exact H2.
Qed.

Lemma flask_pipeline_responds a c um w docs w1 raw w2 :
  Flask.retrieve a um w = (inr (inr docs), w1) ->
  Flask.generate c um w1 = (inr (inr raw), w2) ->
  Flask.pipeline a c um w = Flask.respond um raw w2.
Proof.
  intros H1 H2. unfold Flask.pipeline.
  erewrite bind_inr by exact H1. cbv beta iota.
  now erewrite bind_inr by exact H2.
Qed.

Lemma fastapi_pipeline_retrieval_returns a c um w exc w1 :
  FastAPI.retrieve a um w = (inr (inl exc), w1) ->
  FastAPI.pipeline a c um w = (inr exc, w1).
Proof. intros H. unfold FastAPI.pipeline. now erewrite bind_inr by exact H. Qed.

Lemma fastapi_pipeline_generate_returns a c um w docs w1 exc w2 :
  FastAPI.retrieve a um w = (inr (inr docs), w1) ->
  FastAPI.generate c um w1 = (inr (inl exc), w2) ->
  FastAPI.pipeline a c um w = (inr exc, w2).
Proof.
  intros H1 H2. unfold FastAPI.pipeline.
  erewrite bind_inr by exact H1. cbv beta iota.
  now erewrite bind_inr by exact H2.
Qed.

Lemma fastapi_pipeline_responds a c um w docs w1 raw w2 :
  FastAPI.retrieve a um w = (inr (inr docs), w1) ->
  FastAPI.generate c um w1 = (inr (inr raw), w2) ->
  FastAPI.pipeline a c um w = FastAPI.respond um raw w2.
Proof.
  intros H1 H2. unfold FastAPI.pipeline.
  erewrite bind_inr by exact H1. cbv beta iota.
  now erewrite bind_inr by exact H2.
Qed.

Lemma flask_pipeline_retrieval_escapes a c um w e w1 :
  Flask.retrieve a um w = (inl e, w1) -> Flask.pipeline a c um w = (inl e, w1).
Proof. intros H. unfold Flask.pipeline. now erewrite bind_inl by exact H. Qed.

Lemma flask_pipeline_generate_escapes a c um w docs w1 e w2 :
  Flask.retrieve a um w = (inr (inr docs), w1) ->
  Flask.generate c um w1 = (inl e, w2) ->
  Flask.pipeline a c um w = (inl e, w2).
Proof.
  intros H1 H2. unfold Flask.pipeline.
  erewrite bind_inr by exact H1. cbv beta iota.
  now erewrite bind_inl by exact H2.
Qed.

Lemma fastapi_pipeline_retrieval_escapes a c um w e w1 :
  FastAPI.retrieve a um w = (inl e, w1) -> FastAPI.pipeline a c um w = (inl e, w1).
Proof. intros H. unfold FastAPI.pipeline. now erewrite bind_inl by exact H. Qed.

Lemma fastapi_pipeline_generate_escapes a c um w docs w1 e w2 :
  FastAPI.retrieve a um w = (inr (inr docs), w1) ->
  FastAPI.generate c um w1 = (inl e, w2) ->
  FastAPI.pipeline a c um w = (inl e, w2).
Proof.
  intros H1 H2. unfold FastAPI.pipeline.
  erewrite bind_inr by exact H1. cbv beta iota.
  now erewrite bind_inl by exact H2.
Qed.

(** ** Start-up *)

Lemma startup_failed e llm sp w :
  is_Exception e = true ->
  startup (inl e) llm sp w
  = (inr (App None None),
     logged w (Log ERROR "Failed to initialize vector store or embeddings." (Some e))).
Proof. intros He. unfold startup. run. now rewrite He. Qed.

(** An exception that is not an instance of [Exception] ends the import of
    the module: there is no application. *)
Lemma startup_interrupted e llm sp w :
  is_Exception e = false -> startup (inl e) llm sp w = (inl e, w).
Proof. intros He. unfold startup. run. now rewrite He. Qed.

Lemma startup_ok r llm sp w :
  startup (inr r) llm sp w
  = (inr (App (Some r)
              (Some (langchain.RetrievalChain r (langchain.StuffDocumentsChain llm sp)))), w).
Proof. reflexivity. Qed.

(** ** Requests on a pipeline that was not initialised *)

(** C7: when the start-up failed with [e] and the process still started, the
    RAG chain is absent (the guarded block catches [e] when it is an instance
    of [Exception]; any other exception ends the import, and there is no
    process), and when the RAG chain is absent every chat request, whatever
    its content, gets the status 500 with the message that the chain is not
    initialised, in both applications; the world is unchanged, so no
    retrieval was attempted and nothing else was called. *)
Theorem uninitialized_pipeline_unavailable
  (e : exn) (llm : chat_model) (sp : string) (w0 : world)
  (r : option vector_store_retriever)
  (req : Flask.request) (payload : FastAPI.ChatRequest) (w : world) :
  startup (inl e) llm sp w0
  = (if is_Exception e
     then (inr (App None None),
           logged w0 (Log ERROR "Failed to initialize vector store or embeddings." (Some e)))
     else (inl e, w0))
  /\ (forall a w1, startup (inl e) llm sp w0 = (inr a, w1) -> a = App None None)
  /\ Flask.chat (App r None) req w
     = (inr (Flask.error_body "retrieval chain not initialized", 500%Z), w)
  /\ FastAPI.chat (App r None) payload w
     = (inr (FastAPI.HTTPException 500 "Retrieval chain not initialized"), w).
Proof.
  assert (Hs : startup (inl e) llm sp w0
               = (if is_Exception e
                  then (inr (App None None),
                        logged w0 (Log ERROR "Failed to initialize vector store or embeddings."
                                       (Some e)))
                  else (inl e, w0))).
  { destruct (is_Exception e) eqn:He;
      [now apply startup_failed | now apply startup_interrupted]. }
  split; [exact Hs|]. split; [|split].
  - intros a w1. rewrite Hs. destruct (is_Exception e); intros H; now inversion H.
  - reflexivity.
  - reflexivity.
Qed.

(** ** Empty messages *)

(** With no RAG chain, the whitespace-only message gets the status 500, not a
    400-class rejection. *)
Lemma empty_message_uninitialized :
  PyString.strip "   " = ""
  /\ Flask.chat (App None None) (json_request [("message", PyStr "   ")]) (World [] [])
     = (inr (Flask.error_body "retrieval chain not initialized", 500%Z), World [] [])
  /\ FastAPI.chat (App None None) (FastAPI.Build_ChatRequest "   ") (World [] [])
     = (inr (FastAPI.HTTPException 500 "Retrieval chain not initialized"), World [] [])
  /\ ~ (exists body w', Flask.chat (App None None) (json_request [("message", PyStr "   ")])
                          (World [] []) = (inr (body, 400%Z), w'))
  /\ ~ (exists detail w', FastAPI.chat (App None None) (FastAPI.Build_ChatRequest "   ")
                            (World [] []) = (inr (FastAPI.HTTPException 400 detail), w')).
Proof.
  repeat split.
  - intros (body & w' & H). discriminate H.
  - intros (detail & w' & H). discriminate H.
Qed.

(** C4, amended: when the RAG chain is present, a chat request whose message
    trims to the empty string is rejected with the status 400 and the world
    is unchanged: neither the retriever nor the chain was called.  Whether
    the chain is present or not, no call is made for such a request. *)
Theorem empty_message_rejected
  (r : option vector_store_retriever) (c : langchain.runnable)
  (d : pydict) (m : string) (w : world) :
  Py.dict_get d "message" (PyStr "") = PyStr m ->
  PyString.strip m = "" ->
  Flask.chat (App r (Some c)) (json_request d) w
  = (inr (Flask.error_body "empty message", 400%Z), w)
  /\ FastAPI.chat (App r (Some c)) (FastAPI.Build_ChatRequest m) w
     = (inr (FastAPI.HTTPException 400 "empty message"), w)
  /\ (forall a, calls (snd (Flask.chat a (json_request d) w)) = calls w
                /\ calls (snd (FastAPI.chat a (FastAPI.Build_ChatRequest m) w)) = calls w).
Proof.
  intros Hm He.
  assert (HF : forall r c, Flask.chat (App r (Some c)) (json_request d) w
                           = (inr (Flask.error_body "empty message", 400%Z), w)).
  { intros r' c'. unfold Flask.chat, Flask.chat_try, json_request. run.
    rewrite Hm. cbn. rewrite He. reflexivity. }
  assert (HA : forall r c, FastAPI.chat (App r (Some c)) (FastAPI.Build_ChatRequest m) w
                           = (inr (FastAPI.HTTPException 400 "empty message"), w)).
  { intros r' c'. unfold FastAPI.chat. cbn. rewrite He. reflexivity. }
  split; [apply HF|]. split; [apply HA|].
  intros [r' [c'|]].
  - rewrite HF, HA. now split.
  - now split.
Qed.

Lemma empty_message_rejected_witness :
  let r : vector_store_retriever := fun _ _ => inr [] in
  let c := langchain.Double (fun _ _ => inr (PyStr "unused")) in
  Flask.chat (App (Some r) (Some c)) (json_request [("message", PyStr "   ")]) (World [] [])
  = (inr (Flask.error_body "empty message", 400%Z), World [] []).
Proof.
  intros r c.
  apply (empty_message_rejected (Some r) c [("message", PyStr "   ")] "   " (World [] [])).
  - reflexivity.
  - reflexivity.
Defined.

(** ** Failure of the retrieval *)

(** C5: when the retrieval call of the handler raises [e], an instance of
    [Exception] (what the [except Exception] clause of the step catches), the
    response has the status 500 and the message "retrieval error: " followed
    by the text of [e]; the only call of the request is that retrieval, so
    the RAG chain was not invoked.  In both applications. *)
Theorem retrieval_failure
  (r : vector_store_retriever) (c : langchain.runnable)
  (d : pydict) (m : string) (w : world) (e : exn) :
  Py.dict_get d "message" (PyStr "") = PyStr m ->
  PyString.strip m <> "" ->
  r (calls w) (PyString.strip m) = inl e ->
  is_Exception e = true ->
  let w' := World (calls w ++ [CallRetrieve (PyString.strip m)])
                  (logs w ++ [Log INFO ("[DEBUG] User input: " ++ PyString.strip m) None;
                              Log ERROR "[ERROR] Retrieval failed" (Some e)]) in
  Flask.chat (App (Some r) (Some c)) (json_request d) w
  = (inr (Flask.error_body ("retrieval error: " ++ exn_str e), 500%Z), w')
  /\ FastAPI.chat (App (Some r) (Some c)) (FastAPI.Build_ChatRequest m) w
     = (inr (FastAPI.HTTPException 500 ("retrieval error: " ++ exn_str e)), w')
  /\ count_invokes (calls w') = count_invokes (calls w).
Proof.
  intros Hm Hne He Hexc w'. split; [|split].
  - apply (flask_chat_valid _ _ _ m); trivial.
    erewrite flask_pipeline_retrieval_returns
      by (apply flask_retrieve_raises; [exact He | exact Hexc]).
    unfold w'. cbn. now rewrite <- app_assoc.
  - rewrite fastapi_chat_valid by trivial.
    erewrite fastapi_pipeline_retrieval_returns
      by (apply fastapi_retrieve_raises; [exact He | exact Hexc]).
    unfold w'. cbn. now rewrite <- app_assoc.
  - unfold w', count_invokes. cbn. rewrite List.filter_app, List.length_app. cbn. lia.
Qed.

Lemma retrieval_failure_witness :
  let r : vector_store_retriever := fun _ _ => inl (Exn "ConnectionError" "index unreachable") in
  let c := langchain.Double (fun _ _ => inr (PyStr "unused")) in
  Flask.chat (App (Some r) (Some c)) (json_request [("message", PyStr " what is asthma? ")])
             (World [] [])
  = (inr (Flask.error_body "retrieval error: index unreachable", 500%Z),
     World [CallRetrieve "what is asthma?"]
           [Log INFO "[DEBUG] User input: what is asthma?" None;
            Log ERROR "[ERROR] Retrieval failed"
                (Some (Exn "ConnectionError" "index unreachable"))]).
Proof.
  intros r c.
  apply (retrieval_failure r c [("message", PyStr " what is asthma? ")] " what is asthma? "
           (World [] []) (Exn "ConnectionError" "index unreachable")).
  - reflexivity.
  - discriminate.
  - reflexivity.
  - reflexivity.
Defined.

(** ** Calls made by a chain invocation *)

Lemma count_invokes_app l1 l2 :
  count_invokes (l1 ++ l2) = count_invokes l1 + count_invokes l2.
Proof. unfold count_invokes. now rewrite List.filter_app, List.length_app. Qed.

(** An invocation records itself first; what follows are the calls of the
    chain to the retriever and to the model. *)
Lemma invoke_calls c input w res w' :
  langchain.invoke c input w = (res, w') ->
  exists rest, calls w' = (calls w ++ CallInvoke input :: rest)%list
               /\ count_invokes rest = 0
               /\ logs w' = logs w.
Proof.
  unfold langchain.invoke, langchain.invoke_stuff, get_relevant_documents.
  destruct c as [f|r [llm sp]].
  - run. intros H. inversion H; subst. exists []. cbn. auto.
  - destruct input as [| | | |d|]; run;
      try (intros H; inversion H; subst; exists []; cbn; now auto).
    destruct (Py.dict_get d "input" PyNone) as [| | |q| |]; cbn;
      try (intros H; inversion H; subst; exists []; cbn; now auto).
    destruct (r _ q) as [e|docs]; cbn.
    + intros H; inversion H; subst. exists [CallRetrieve q]. cbn.
      rewrite <- app_assoc. now auto.
    + destruct (llm _ _) as [e|answer]; cbn;
        intros H; inversion H; subst; eexists [CallRetrieve q; CallLLM _]; cbn;
        rewrite <- !app_assoc; now auto.
Qed.

(** ** Failure of the chain invocation *)

(** C6: when the invocation of the RAG chain raises [e], an instance of
    [Exception] (what the [except Exception] clause of the step catches),
    after a retrieval that succeeded, the response has the status 500 and the
    message "chain invocation error: " followed by the text of [e], in both
    applications; the chain was invoked exactly once during the request. *)
Theorem generation_failure
  (r : vector_store_retriever) (c : langchain.runnable)
  (d : pydict) (m : string) (w : world)
  (docs : list doc) (line : string) (e : exn) (w2 : world) :
  Py.dict_get d "message" (PyStr "") = PyStr m ->
  PyString.strip m <> "" ->
  r (calls w) (PyString.strip m) = inr docs ->
  retrieved_line docs = inr line ->
  langchain.invoke c (PyDict [("input", PyStr (PyString.strip m))])
                   (retrieved w (PyString.strip m) line) = (inl e, w2) ->
  is_Exception e = true ->
  let w' := logged w2 (Log ERROR "[ERROR] Chain invocation failed" (Some e)) in
  Flask.chat (App (Some r) (Some c)) (json_request d) w
  = (inr (Flask.error_body ("chain invocation error: " ++ exn_str e), 500%Z), w')
  /\ FastAPI.chat (App (Some r) (Some c)) (FastAPI.Build_ChatRequest m) w
     = (inr (FastAPI.HTTPException 500 ("chain invocation error: " ++ exn_str e)), w')
  /\ count_invokes (calls w') = S (count_invokes (calls w)).
Proof.
  intros Hm Hne Hr Hl Hi Hexc w'.
  assert (Hw : World (calls (logged_input w (PyString.strip m)) ++ [CallRetrieve (PyString.strip m)])
                     (logs (logged_input w (PyString.strip m)) ++ [Log INFO line None])
               = retrieved w (PyString.strip m) line).
  { unfold retrieved, logged_input. cbn. now rewrite <- app_assoc. }
  split; [|split].
  - apply (flask_chat_valid _ _ _ m); trivial.
    eapply flask_pipeline_generate_returns.
    + apply flask_retrieve_ok; [exact Hr | exact Hl].
    + rewrite Hw. now apply flask_generate_raises.
  - rewrite fastapi_chat_valid by trivial.
    eapply fastapi_pipeline_generate_returns.
    + apply fastapi_retrieve_ok; [exact Hr | exact Hl].
    + rewrite Hw. now apply fastapi_generate_raises.
  - apply invoke_calls in Hi. destruct Hi as (rest & Hc & Hn & _).
    unfold w'. cbn [logged calls]. rewrite Hc. cbn [retrieved calls].
    rewrite !count_invokes_app.
    change (count_invokes (CallInvoke ?x :: rest)) with (S (count_invokes rest)).
    rewrite Hn. cbn. lia.
Qed.

Lemma generation_failure_witness :
  let r : vector_store_retriever := fun _ _ => inr [] in
  let c := langchain.Double (fun _ _ => inl (Exn "APIConnectionError" "model unreachable")) in
  Flask.chat (App (Some r) (Some c)) (json_request [("message", PyStr "fever")]) (World [] [])
  = (inr (Flask.error_body "chain invocation error: model unreachable", 500%Z),
     World [CallRetrieve "fever"; CallInvoke (PyDict [("input", PyStr "fever")])]
           [Log INFO "[DEBUG] User input: fever" None;
            Log INFO "[DEBUG] Retrieved 0 docs. Sample titles/snippets: " None;
            Log ERROR "[ERROR] Chain invocation failed"
                (Some (Exn "APIConnectionError" "model unreachable"))]).
Proof.
  intros r c.
  apply (generation_failure r c [("message", PyStr "fever")] "fever" (World [] []) []
           "[DEBUG] Retrieved 0 docs. Sample titles/snippets: "
           (Exn "APIConnectionError" "model unreachable")
           (World [CallRetrieve "fever"; CallInvoke (PyDict [("input", PyStr "fever")])]
                  [Log INFO "[DEBUG] User input: fever" None;
                   Log INFO "[DEBUG] Retrieved 0 docs. Sample titles/snippets: " None])).
  - reflexivity.
  - discriminate.
  - reflexivity.
  - reflexivity.
  - reflexivity.
  - reflexivity.
Defined.

(** X18: an exception that is not an instance of [Exception] (an interrupt,
    the exit of the interpreter) is caught by none of the [except Exception]
    clauses: raised by the retrieval or by the chain invocation, it leaves
    both handlers as it is; no response is made and nothing more is logged
    or called. *)
Theorem interrupts_escape r c d m w e :
  Py.dict_get d "message" (PyStr "") = PyStr m ->
  PyString.strip m <> "" ->
  is_Exception e = false ->
  (r (calls w) (PyString.strip m) = inl e ->
   let w' := World (calls w ++ [CallRetrieve (PyString.strip m)])
                   (logs w ++ [Log INFO ("[DEBUG] User input: " ++ PyString.strip m) None]) in
   Flask.chat (App (Some r) (Some c)) (json_request d) w = (inl e, w')
   /\ FastAPI.chat (App (Some r) (Some c)) (FastAPI.Build_ChatRequest m) w = (inl e, w'))
  /\ (forall docs line w2,
        r (calls w) (PyString.strip m) = inr docs ->
        retrieved_line docs = inr line ->
        langchain.invoke c (PyDict [("input", PyStr (PyString.strip m))])
                         (retrieved w (PyString.strip m) line) = (inl e, w2) ->
        Flask.chat (App (Some r) (Some c)) (json_request d) w = (inl e, w2)
        /\ FastAPI.chat (App (Some r) (Some c)) (FastAPI.Build_ChatRequest m) w = (inl e, w2)).
Proof.
  intros Hm Hne Hexc. split.
  - intros He w'. split.
    + unfold Flask.chat. cbn [rag_chain].
      apply try_except_escapes; [|exact Hexc].
      rewrite (flask_chat_try_valid _ _ _ m) by trivial.
      erewrite flask_pipeline_retrieval_escapes
        by (apply flask_retrieve_escapes; [exact He | exact Hexc]).
      reflexivity.
    + rewrite fastapi_chat_valid by trivial.
      erewrite fastapi_pipeline_retrieval_escapes
        by (apply fastapi_retrieve_escapes; [exact He | exact Hexc]).
      reflexivity.
  - intros docs line w2 Hr Hl Hi.
    assert (Hw : World (calls (logged_input w (PyString.strip m)) ++ [CallRetrieve (PyString.strip m)])
                       (logs (logged_input w (PyString.strip m)) ++ [Log INFO line None])
                 = retrieved w (PyString.strip m) line).
    { unfold retrieved, logged_input. cbn. now rewrite <- app_assoc. }
    split.
    + unfold Flask.chat. cbn [rag_chain].
      apply try_except_escapes; [|exact Hexc].
      rewrite (flask_chat_try_valid _ _ _ m) by trivial.
      eapply flask_pipeline_generate_escapes.
      * apply flask_retrieve_ok; [exact Hr | exact Hl].
      * rewrite Hw. now apply flask_generate_escapes.
    + rewrite fastapi_chat_valid by trivial.
      eapply fastapi_pipeline_generate_escapes.
      * apply fastapi_retrieve_ok; [exact Hr | exact Hl].
      * rewrite Hw. now apply fastapi_generate_escapes.
Qed.

Lemma interrupts_escape_witness :
  let r : vector_store_retriever := fun _ _ => inr [] in
  let c := langchain.Double (fun _ _ => inl (Exn "SystemExit" "1")) in
  let w2 := World [CallRetrieve "fever"; CallInvoke (PyDict [("input", PyStr "fever")])]
                  [Log INFO "[DEBUG] User input: fever" None;
                   Log INFO "[DEBUG] Retrieved 0 docs. Sample titles/snippets: " None] in
  Flask.chat (App (Some r) (Some c)) (json_request [("message", PyStr "fever")]) (World [] [])
  = (inl (Exn "SystemExit" "1"), w2)
  /\ FastAPI.chat (App (Some r) (Some c)) (FastAPI.Build_ChatRequest "fever") (World [] [])
     = (inl (Exn "SystemExit" "1"), w2).
Proof.
  intros r c w2.
  destruct (interrupts_escape r c [("message", PyStr "fever")] "fever" (World [] [])
              (Exn "SystemExit" "1")) as (_ & H); [reflexivity | discriminate | reflexivity |].
  apply (H [] "[DEBUG] Retrieved 0 docs. Sample titles/snippets: " w2); reflexivity.
Defined.

(** A retriever interrupted from the keyboard: the request gets no response. *)
Example keyboard_interrupt_escapes :
  let r : vector_store_retriever := fun _ _ => inl (Exn "KeyboardInterrupt" "") in
  let c := langchain.Double (fun _ _ => inr (PyStr "unused")) in
  Flask.chat (App (Some r) (Some c)) (json_request [("message", PyStr "fever")]) (World [] [])
  = (inl (Exn "KeyboardInterrupt" ""),
     World [CallRetrieve "fever"] [Log INFO "[DEBUG] User input: fever" None])
  /\ FastAPI.chat (App (Some r) (Some c)) (FastAPI.Build_ChatRequest "fever") (World [] [])
     = (inl (Exn "KeyboardInterrupt" ""),
        World [CallRetrieve "fever"] [Log INFO "[DEBUG] User input: fever" None]).
Proof. intros r c. split; reflexivity. Qed.

(** ** Extraction and fallback *)

Lemma truthy_nonempty a : Py.truthy a = inr true -> a <> PyStr "".
Proof. intros H ->. discriminate H. Qed.

Lemma fallback_text_nonempty um : fallback_text um <> "".
Proof. discriminate. Qed.

Lemma or_fallback_truthy um a w b w' :
  or_fallback um a w = (inr b, w') -> Py.truthy b = inr true.
Proof.
  unfold or_fallback. run.
  destruct (Py.truthy a) as [e|[|]] eqn:Ha; intros H; inversion H; subst; auto.
Qed.

Lemma or_fallback_keeps um a w :
  Py.truthy a = inr true -> or_fallback um a w = (inr a, w).
Proof. intros H. unfold or_fallback. run. now rewrite H. Qed.

Lemma or_fallback_substitutes um a w :
  Py.truthy a = inr false ->
  or_fallback um a w
  = (inr (PyStr (fallback_text um)),
     logged w (Log WARNING "[WARN] Empty answer extracted, falling back to echo" None)).
Proof. intros H. unfold or_fallback. run. now rewrite H. Qed.

Lemma flask_respond_fallback um raw a w :
  extract_answer raw = inr a -> Py.truthy a = inr false ->
  Flask.respond um raw w
  = (inr (PyDict [("response", PyStr (fallback_text um))], 200%Z), fell_back w um).
Proof.
  intros He Ht. unfold Flask.respond.
  erewrite bind_inr by (unfold lift; now rewrite He).
  erewrite bind_inr by (now apply or_fallback_substitutes).
  run. unfold fell_back. now rewrite <- app_assoc.
Qed.

Lemma fastapi_respond_fallback um raw a w :
  extract_answer raw = inr a -> Py.truthy a = inr false ->
  FastAPI.respond um raw w
  = (inr (FastAPI.Return (PyDict [("response", PyStr (fallback_text um))])), fell_back w um).
Proof.
  intros He Ht. unfold FastAPI.respond.
  erewrite bind_inr by (unfold lift; now rewrite He).
  erewrite bind_inr by (now apply or_fallback_substitutes).
  run. unfold fell_back. now rewrite <- app_assoc.
Qed.

Lemma flask_respond_inv um raw w resp w' :
  Flask.respond um raw w = (inr resp, w') ->
  exists answer, resp = (PyDict [("response", answer)], 200%Z)
                 /\ Py.truthy answer = inr true.
Proof.
  unfold Flask.respond. intros H.
  apply bind_inv in H. destruct H as [(e & _ & H) | (a & w1 & _ & H)]; [discriminate|].
  apply bind_inv in H. destruct H as [(e & _ & H) | (b & w2 & Hb & H)]; [discriminate|].
  apply or_fallback_truthy in Hb.
  apply bind_inv in H. destruct H as [(e & _ & H) | (t & w3 & _ & H)]; [discriminate|].
  apply bind_inv in H. destruct H as [(e & _ & H) | (u & w4 & _ & H)]; [discriminate|].
  apply bind_inv in H. destruct H as [(e & _ & H) | (body & w5 & Hj & H)]; [discriminate|].
  unfold Flask.jsonify in Hj.
  apply bind_inv in Hj. destruct Hj as [(e & _ & Hj) | (v & w6 & _ & Hj)]; [discriminate|].
  inversion Hj; subst. inversion H; subst. now exists b.
Qed.

Lemma fastapi_respond_inv um raw w body w' :
  FastAPI.respond um raw w = (inr (FastAPI.Return body), w') ->
  exists answer, body = PyDict [("response", answer)] /\ Py.truthy answer = inr true.
Proof.
  unfold FastAPI.respond. intros H.
  apply bind_inv in H. destruct H as [(e & _ & H) | (a & w1 & _ & H)]; [discriminate|].
  apply bind_inv in H. destruct H as [(e & _ & H) | (b & w2 & Hb & H)]; [discriminate|].
  apply or_fallback_truthy in Hb.
  apply bind_inv in H. destruct H as [(e & _ & H) | (t & w3 & _ & H)]; [discriminate|].
  apply bind_inv in H. destruct H as [(e & _ & H) | (u & w4 & _ & H)]; [discriminate|].
  inversion H; subst. now exists b.
Qed.

Lemma fastapi_respond_returns um raw w rep w' :
  FastAPI.respond um raw w = (inr rep, w') -> exists body, rep = FastAPI.Return body.
Proof.
  unfold FastAPI.respond. intros H.
  apply bind_inv in H. destruct H as [(e & _ & H) | (a & w1 & _ & H)]; [discriminate|].
  apply bind_inv in H. destruct H as [(e & _ & H) | (b & w2 & Hb & H)]; [discriminate|].
  apply bind_inv in H. destruct H as [(e & _ & H) | (t & w3 & _ & H)]; [discriminate|].
  apply bind_inv in H. destruct H as [(e & _ & H) | (u & w4 & _ & H)]; [discriminate|].
  inversion H; subst. eauto.
Qed.

(** ** What the guarded steps can return *)

(** A guarded step returns its value, returns the response of its [except]
    clause, or lets through an exception that is not an instance of
    [Exception]. *)
Ltac guarded_step H :=
  apply try_except_inv in H;
  destruct H as [(?x & H & ->) | [(?e & ?w1 & _ & _ & H) | (?e & _ & ?He & ->)]];
  [ left;
    apply bind_inv in H; destruct H as [(? & _ & H) | (? & ? & _ & H)]; [discriminate|];
    apply bind_inv in H; destruct H as [(? & _ & H) | (? & ? & _ & H)]; [discriminate|];
    apply bind_inv in H; destruct H as [(? & _ & H) | (? & ? & _ & H)]; [discriminate|];
    inversion H; subst; eauto
  | right; left; run_in H; inversion H; subst; eauto
  | right; right; eauto ].

Lemma flask_retrieve_inv a um w res w' :
  Flask.retrieve a um w = (res, w') ->
  (exists docs, res = inr (inr docs))
  \/ (exists msg, res = inr (inl (Flask.error_body msg, 500%Z)))
  \/ (exists e, res = inl e /\ is_Exception e = false).
Proof. unfold Flask.retrieve. intros H. guarded_step H. Qed.

Lemma flask_generate_inv c um w res w' :
  Flask.generate c um w = (res, w') ->
  (exists raw, res = inr (inr raw))
  \/ (exists msg, res = inr (inl (Flask.error_body msg, 500%Z)))
  \/ (exists e, res = inl e /\ is_Exception e = false).
Proof. unfold Flask.generate. intros H. guarded_step H. Qed.

Lemma fastapi_retrieve_inv a um w res w' :
  FastAPI.retrieve a um w = (res, w') ->
  (exists docs, res = inr (inr docs))
  \/ (exists msg, res = inr (inl (FastAPI.HTTPException 500 msg)))
  \/ (exists e, res = inl e /\ is_Exception e = false).
Proof. unfold FastAPI.retrieve. intros H. guarded_step H. Qed.

Lemma fastapi_generate_inv c um w res w' :
  FastAPI.generate c um w = (res, w') ->
  (exists raw, res = inr (inr raw))
  \/ (exists msg, res = inr (inl (FastAPI.HTTPException 500 msg)))
  \/ (exists e, res = inl e /\ is_Exception e = false).
Proof. unfold FastAPI.generate. intros H. guarded_step H. Qed.

(** ** The ways a request can end *)

Lemma flask_pipeline_cases a c um w res w' :
  Flask.pipeline a c um w = (res, w') ->
  (exists msg, res = inr (Flask.error_body msg, 500%Z))
  \/ (exists e, res = inl e /\ is_Exception e = false)
  \/ (exists docs w1 raw w2,
        Flask.retrieve a um w = (inr (inr docs), w1)
        /\ Flask.generate c um w1 = (inr (inr raw), w2)
        /\ Flask.respond um raw w2 = (res, w')).
Proof.
  unfold Flask.pipeline. intros H.
  apply bind_inv in H. destruct H as [(e & H & ->) | (x & w1 & Hr & H)].
  { apply flask_retrieve_inv in H.
    destruct H as [(? & H) | [(? & H) | (e' & H & He)]]; try discriminate H.
    injection H as <-. right; left. eauto. }
  destruct (flask_retrieve_inv _ _ _ _ _ Hr) as [(docs & Hx) | [(msg & Hx) | (e & Hx & _)]];
    inversion Hx; subst; clear Hx.
  2:{ inversion H; subst. left. eauto. }
  apply bind_inv in H. destruct H as [(e & H & ->) | (y & w2 & Hg & H)].
  { apply flask_generate_inv in H.
    destruct H as [(? & H) | [(? & H) | (e' & H & He)]]; try discriminate H.
    injection H as <-. right; left. eauto. }
  destruct (flask_generate_inv _ _ _ _ _ Hg) as [(raw & Hy) | [(msg & Hy) | (e & Hy & _)]];
    inversion Hy; subst; clear Hy.
  2:{ inversion H; subst. left. eauto. }
  right; right. now exists docs, w1, raw, w2.
Qed.

Lemma fastapi_pipeline_cases a c um w res w' :
  FastAPI.pipeline a c um w = (res, w') ->
  (exists msg, res = inr (FastAPI.HTTPException 500 msg))
  \/ (exists e, res = inl e /\ is_Exception e = false)
  \/ (exists docs w1 raw w2,
        FastAPI.retrieve a um w = (inr (inr docs), w1)
        /\ FastAPI.generate c um w1 = (inr (inr raw), w2)
        /\ FastAPI.respond um raw w2 = (res, w')).
Proof.
  unfold FastAPI.pipeline. intros H.
  apply bind_inv in H. destruct H as [(e & H & ->) | (x & w1 & Hr & H)].
  { apply fastapi_retrieve_inv in H.
    destruct H as [(? & H) | [(? & H) | (e' & H & He)]]; try discriminate H.
    injection H as <-. right; left. eauto. }
  destruct (fastapi_retrieve_inv _ _ _ _ _ Hr) as [(docs & Hx) | [(msg & Hx) | (e & Hx & _)]];
    inversion Hx; subst; clear Hx.
  2:{ inversion H; subst. left. eauto. }
  apply bind_inv in H. destruct H as [(e & H & ->) | (y & w2 & Hg & H)].
  { apply fastapi_generate_inv in H.
    destruct H as [(? & H) | [(? & H) | (e' & H & He)]]; try discriminate H.
    injection H as <-. right; left. eauto. }
  destruct (fastapi_generate_inv _ _ _ _ _ Hg) as [(raw & Hy) | [(msg & Hy) | (e & Hy & _)]];
    inversion Hy; subst; clear Hy.
  2:{ inversion H; subst. left. eauto. }
  right; right. now exists docs, w1, raw, w2.
Qed.

(** The body of the Flask [try] ends with the 400 rejection, with a 500 of
    one of the guarded steps, with what [respond] gives, or with an
    exception: one raised before the pipeline, one that a guarded step let
    through, or one of [respond]. *)
Lemma flask_chat_try_cases a c req w res w' :
  Flask.chat_try a c req w = (res, w') ->
  (exists e, res = inl e /\ w' = w)
  \/ (res = inr (Flask.error_body "empty message", 400%Z) /\ w' = w)
  \/ (exists msg, res = inr (Flask.error_body msg, 500%Z))
  \/ (exists e, res = inl e /\ is_Exception e = false)
  \/ (exists data msg um docs w1 raw w2,
        Flask.get_json req = inr data
        /\ Py.get data "message" (PyStr "") = inr msg
        /\ Py.strip msg = inr um
        /\ um <> ""
        /\ Flask.retrieve a um (logged_input w um) = (inr (inr docs), w1)
        /\ Flask.generate c um w1 = (inr (inr raw), w2)
        /\ Flask.respond um raw w2 = (res, w')).
Proof.
  unfold Flask.chat_try. intros H.
  apply bind_inv in H. destruct H as [(e & H & ->) | (data & w1 & Hd & H)].
  { left. inversion H; subst. eauto. }
  unfold lift in Hd. injection Hd as Hdata Hw. subst w1.
  apply bind_inv in H. destruct H as [(e & H & ->) | (msg & w1 & Hm & H)].
  { left. inversion H; subst. eauto. }
  unfold lift in Hm. injection Hm as Hmsg Hw. subst w1.
  apply bind_inv in H. destruct H as [(e & H & ->) | (um & w1 & Hu & H)].
  { left. inversion H; subst. eauto. }
  unfold lift in Hu. injection Hu as Hum Hw. subst w1.
  destruct (String.eqb um "") eqn:Hne.
  { right; left. run_in H. inversion H; subst. auto. }
  apply String.eqb_neq in Hne.
  apply bind_inv in H. destruct H as [(e & H & _) | (u & w1 & Hl & H)]; [discriminate|].
  unfold logger.info, emit in Hl. injection Hl as _ Hw. subst w1.
  apply flask_pipeline_cases in H.
  destruct H as [(m & ->) | [(e & -> & He) | (docs & w1 & raw & w2 & Hr & Hg & Hs)]].
  { right; right; left. eauto. }
  { right; right; right; left. eauto. }
  right; right; right; right. exists data, msg, um, docs, w1, raw, w2. auto 10.
Qed.

(** The Flask handler returns a response, unless an exception is raised that
    is not an instance of [Exception]: nothing else leaves it. *)
Lemma flask_chat_outcome a req w res w' :
  Flask.chat a req w = (res, w') ->
  (exists resp, res = inr resp) \/ (exists e, res = inl e /\ is_Exception e = false).
Proof.
  unfold Flask.chat. destruct (rag_chain a) as [c|].
  - intros H. apply try_except_inv in H.
    destruct H as [(x & _ & ->) | [(e & w1 & _ & _ & H) | (e & _ & He & ->)]].
    + left. eauto.
    + run_in H. inversion H; subst. left. eauto.
    + right. eauto.
  - run. intros H. inversion H; subst. left. eauto.
Qed.

(** A response with the status 200 comes from [respond], after both guarded
    steps succeeded. *)
Lemma flask_chat_success a req w body w' :
  Flask.chat a req w = (inr (body, 200%Z), w') ->
  exists c data msg um docs w1 raw w2,
    rag_chain a = Some c
    /\ Flask.get_json req = inr data
    /\ Py.get data "message" (PyStr "") = inr msg
    /\ Py.strip msg = inr um
    /\ um <> ""
    /\ Flask.retrieve a um (logged_input w um) = (inr (inr docs), w1)
    /\ Flask.generate c um w1 = (inr (inr raw), w2)
    /\ Flask.respond um raw w2 = (inr (body, 200%Z), w').
Proof.
  unfold Flask.chat. destruct (rag_chain a) as [c|] eqn:Hc.
  2:{ run. intros H. inversion H. }
  intros H. apply try_except_inv in H.
  destruct H as [(x & H & Hx) | [(e & w1 & _ & _ & H) | (e & _ & _ & H)]].
  2:{ run_in H. inversion H. }
  2:{ discriminate H. }
  inversion Hx; subst x; clear Hx.
  apply flask_chat_try_cases in H.
  destruct H as [(e & H & _) | [(H & _) | [(m & H) | [(e & H & _) | H]]]]; try discriminate H.
  destruct H as (data & msg & um & docs & w1 & raw & w2 & H).
  exists c, data, msg, um, docs, w1, raw, w2. tauto.
Qed.

Lemma fastapi_chat_success a payload w body w' :
  FastAPI.chat a payload w = (inr (FastAPI.Return body), w') ->
  exists c docs w1 raw w2,
    let um := PyString.strip (FastAPI.message payload) in
    rag_chain a = Some c
    /\ um <> ""
    /\ FastAPI.retrieve a um (logged_input w um) = (inr (inr docs), w1)
    /\ FastAPI.generate c um w1 = (inr (inr raw), w2)
    /\ FastAPI.respond um raw w2 = (inr (FastAPI.Return body), w').
Proof.
  unfold FastAPI.chat. destruct (rag_chain a) as [c|] eqn:Hc.
  2:{ run. intros H. inversion H. }
  cbv zeta. destruct (String.eqb _ "") eqn:Hne.
  { run. intros H. inversion H. }
  apply String.eqb_neq in Hne. intros H.
  apply bind_inv in H. destruct H as [(e & H & _) | (u & w1 & Hl & H)]; [discriminate|].
  unfold logger.info, emit in Hl. injection Hl as _ Hw. subst w1.
  apply fastapi_pipeline_cases in H.
  destruct H as [(m & H) | [(e & H & _) | (docs & w1 & raw & w2 & Hr & Hg & Hs)]];
    try discriminate H.
  exists c, docs, w1, raw, w2. cbv zeta. auto.
Qed.

Lemma flask_chat_cases a req w body st w' :
  Flask.chat a req w = (inr (body, st), w') ->
  (exists msg, body = Flask.error_body msg /\ st <> 200%Z)
  \/ (exists answer, body = PyDict [("response", answer)] /\ st = 200%Z
                     /\ Py.truthy answer = inr true).
Proof.
  unfold Flask.chat. destruct (rag_chain a) as [c|].
  2:{ run. intros H. inversion H; subst. left. eexists. split; [reflexivity|lia]. }
  intros H. apply try_except_inv in H.
  destruct H as [(x & H & Hx) | [(e & w1 & _ & _ & H) | (e & _ & _ & H)]].
  2:{ run_in H. inversion H; subst. left. eexists. split; [reflexivity|lia]. }
  2:{ discriminate H. }
  inversion Hx; subst x; clear Hx.
  apply flask_chat_try_cases in H.
  destruct H as [(e & H & _) | [(H & _) | [(m & H) | [(e & H & _) | H]]]].
  - discriminate H.
  - inversion H; subst. left. eexists. split; [reflexivity|lia].
  - inversion H; subst. left. eexists. split; [reflexivity|lia].
  - discriminate H.
  - destruct H as (data & msg & um & docs & w1 & raw & w2 & _ & _ & _ & _ & _ & _ & H).
    apply flask_respond_inv in H. destruct H as (answer & H & Ht).
    inversion H; subst. right. eauto.
Qed.

(** ** The response is never empty *)

(** C1: a request that reaches the answer extraction and gets a response gets
    one that is truthy, so never the empty string: [respond] returns the
    status 200 with such an answer in both applications, a body returned by
    either handler with a [response] key has such an answer, and when the
    extraction gives the empty string the answer is the fallback text, which
    is not empty. *)
Theorem response_never_empty :
  (forall um raw w resp w',
      Flask.respond um raw w = (inr resp, w') ->
      exists answer, resp = (PyDict [("response", answer)], 200%Z)
                     /\ Py.truthy answer = inr true /\ answer <> PyStr "")
  /\ (forall um raw w rep w',
        FastAPI.respond um raw w = (inr rep, w') ->
        exists answer, rep = FastAPI.Return (PyDict [("response", answer)])
                       /\ Py.truthy answer = inr true /\ answer <> PyStr "")
  /\ (forall a req w body st w',
        Flask.chat a req w = (inr (body, st), w') ->
        (exists msg, body = Flask.error_body msg /\ st <> 200%Z)
        \/ (exists answer, body = PyDict [("response", answer)] /\ st = 200%Z
                           /\ Py.truthy answer = inr true /\ answer <> PyStr ""))
  /\ (forall a payload w body w',
        FastAPI.chat a payload w = (inr (FastAPI.Return body), w') ->
        exists answer, body = PyDict [("response", answer)]
                       /\ Py.truthy answer = inr true /\ answer <> PyStr "")
  /\ (forall um raw w,
        extract_answer raw = inr (PyStr "") ->
        Flask.respond um raw w
        = (inr (PyDict [("response", PyStr (fallback_text um))], 200%Z), fell_back w um)
        /\ FastAPI.respond um raw w
           = (inr (FastAPI.Return (PyDict [("response", PyStr (fallback_text um))])),
              fell_back w um)
        /\ fallback_text um <> "").
Proof.
  split; [|split; [|split; [|split]]].
  - intros um raw w resp w' H. apply flask_respond_inv in H.
    destruct H as (answer & -> & Ht). exists answer. auto using truthy_nonempty.
  - intros um raw w rep w' H.
    destruct (fastapi_respond_returns _ _ _ _ _ H) as (body & ->).
    apply fastapi_respond_inv in H. destruct H as (answer & -> & Ht).
    exists answer. auto using truthy_nonempty.
  - intros a req w body st w' H. apply flask_chat_cases in H.
    destruct H as [H | (answer & H1 & H2 & H3)]; [now left|].
    right. exists answer. auto using truthy_nonempty.
  - intros a payload w body w' H. apply fastapi_chat_success in H.
    destruct H as (c & docs & w1 & raw & w2 & H). cbv zeta in H.
    destruct H as (_ & _ & _ & _ & H).
    apply fastapi_respond_inv in H. destruct H as (answer & -> & Ht).
    exists answer. auto using truthy_nonempty.
  - intros um raw w He. split; [|split].
    + now apply (flask_respond_fallback um raw (PyStr "")).
    + now apply (fastapi_respond_fallback um raw (PyStr "")).
    + apply fallback_text_nonempty.
Qed.

Lemma response_never_empty_witness :
  Flask.respond "fever" (PyDict [("answer", PyStr "")]) (World [] [])
  = (inr (PyDict [("response", PyStr "(No answer generated) You asked: fever")], 200%Z),
     fell_back (World [] []) "fever")
  /\ exists answer,
       (PyDict [("response", PyStr "Rest and fluids.")], 200%Z)
       = (PyDict [("response", answer)], 200%Z)
       /\ Py.truthy answer = inr true /\ answer <> PyStr "".
Proof.
  destruct response_never_empty as (Hresp & _ & _ & _ & Hfall).
  split.
  - apply (Hfall "fever" (PyDict [("answer", PyStr "")]) (World [] [])). reflexivity.
  - apply (Hresp "fever" (PyDict [("answer", PyStr "Rest and fluids.")]) (World [] [])
             (PyDict [("response", PyStr "Rest and fluids.")], 200%Z)
             (logged (World [] []) (Log INFO "[DEBUG] Final answer: Rest and fluids." None))).
    reflexivity.
Defined.

(** ** The order of the keys *)

(** C2: on a [dict] the extractor takes the value under [answer] when it is
    truthy (for a string: not empty), else the value under [response] when it
    is truthy, else the value under [output] when it is truthy, else the empty
    string; a key that is absent counts as [None].  On a value that is not a
    [dict] it takes [str] of the value. *)
Theorem extraction_priority :
  (forall d x, Py.dict_get d "answer" PyNone = x -> Py.truthy x = inr true ->
               extract_answer (PyDict d) = inr x)
  /\ (forall d x, Py.truthy (Py.dict_get d "answer" PyNone) = inr false ->
                  Py.dict_get d "response" PyNone = x -> Py.truthy x = inr true ->
                  extract_answer (PyDict d) = inr x)
  /\ (forall d x, Py.truthy (Py.dict_get d "answer" PyNone) = inr false ->
                  Py.truthy (Py.dict_get d "response" PyNone) = inr false ->
                  Py.dict_get d "output" PyNone = x -> Py.truthy x = inr true ->
                  extract_answer (PyDict d) = inr x)
  /\ (forall d, Py.truthy (Py.dict_get d "answer" PyNone) = inr false ->
                Py.truthy (Py.dict_get d "response" PyNone) = inr false ->
                Py.truthy (Py.dict_get d "output" PyNone) = inr false ->
                extract_answer (PyDict d) = inr (PyStr ""))
  /\ (forall x y z, x <> "" -> y <> "" -> z <> "" ->
                    extract_answer (PyDict [("answer", PyStr x); ("response", PyStr y);
                                            ("output", PyStr z)]) = inr (PyStr x)
                    /\ extract_answer (PyDict [("output", PyStr z); ("response", PyStr y);
                                               ("answer", PyStr x)]) = inr (PyStr x)
                    /\ extract_answer (PyDict [("output", PyStr z); ("response", PyStr y)])
                       = inr (PyStr y)
                    /\ extract_answer (PyDict [("output", PyStr z)]) = inr (PyStr z))
  /\ (forall v s, (forall d, v <> PyDict d) -> Py.str v = inr s ->
                  extract_answer v = inr (PyStr s)).
Proof.
  split; [|split; [|split; [|split; [|split]]]].
  - intros d x <- Ht. cbn. now rewrite Ht.
  - intros d x Ha <- Ht. cbn. now rewrite Ha, Ht.
  - intros d x Ha Hr <- Ht. cbn. now rewrite Ha, Hr, Ht.
  - intros d Ha Hr Ho. cbn. now rewrite Ha, Hr, Ho.
  - intros x y z Hx Hy Hz. apply String.eqb_neq in Hx, Hy, Hz.
    repeat split; cbn; rewrite ?Hx, ?Hy, ?Hz; reflexivity.
  - intros v s Hv Hstr. destruct v; cbn in *; try (now rewrite Hstr); try congruence.
    now destruct (Hv items).
Qed.

Lemma extraction_priority_witness :
  extract_answer (PyDict [("output", PyStr "C"); ("response", PyStr "B"); ("answer", PyStr "A")])
  = inr (PyStr "A")
  /\ extract_answer (PyDict [("answer", PyStr ""); ("output", PyStr "C"); ("response", PyStr "B")])
     = inr (PyStr "B")
  /\ extract_answer (PyInt 42) = inr (PyStr "42").
Proof.
  destruct extraction_priority as (Ha & Hr & _ & _ & _ & Hstr).
  split; [|split].
  - apply Ha; reflexivity.
  - apply Hr; reflexivity.
  - apply Hstr; [discriminate | reflexivity].
Defined.

(** ** The fallback text *)

(** A chain that returns the empty [dict], asked [" hi "]: the fallback text
    echoes ["hi"], not the message as it was submitted. *)
Lemma fallback_not_raw_message :
  let r : vector_store_retriever := fun _ _ => inr [] in
  let c := langchain.Double (fun _ _ => inr (PyDict [])) in
  fst (Flask.chat (App (Some r) (Some c)) (json_request [("message", PyStr " hi ")])
                  (World [] []))
  = inr (PyDict [("response", PyStr "(No answer generated) You asked: hi")], 200%Z)
  /\ fst (FastAPI.chat (App (Some r) (Some c)) (FastAPI.Build_ChatRequest " hi ") (World [] []))
     = inr (FastAPI.Return (PyDict [("response", PyStr "(No answer generated) You asked: hi")]))
  /\ PyStr "(No answer generated) You asked: hi" <> PyStr (fallback_text " hi ").
Proof.
  intros r c. split; [|split].
  - reflexivity.
  - reflexivity.
  - discriminate.
Qed.

(** C3, amended: when the chain returns the empty [dict] or the empty string,
    the answer is the fallback text applied to the trimmed message (the text
    the pipeline was run on), in both applications. *)
Theorem fallback_echoes_trimmed_message
  (r : vector_store_retriever) (c : langchain.runnable)
  (d : pydict) (m : string) (w : world)
  (docs : list doc) (line : string) (raw : pyval) (w2 : world) :
  Py.dict_get d "message" (PyStr "") = PyStr m ->
  PyString.strip m <> "" ->
  r (calls w) (PyString.strip m) = inr docs ->
  retrieved_line docs = inr line ->
  langchain.invoke c (PyDict [("input", PyStr (PyString.strip m))])
                   (retrieved w (PyString.strip m) line) = (inr raw, w2) ->
  raw = PyDict [] \/ raw = PyStr "" ->
  exists w',
    Flask.chat (App (Some r) (Some c)) (json_request d) w
    = (inr (PyDict [("response", PyStr (fallback_text (PyString.strip m)))], 200%Z), w')
    /\ FastAPI.chat (App (Some r) (Some c)) (FastAPI.Build_ChatRequest m) w
       = (inr (FastAPI.Return (PyDict [("response", PyStr (fallback_text (PyString.strip m)))])),
          w').
Proof.
  intros Hm Hne Hr Hl Hi Hraw.
  assert (Hw : World (calls (logged_input w (PyString.strip m)) ++ [CallRetrieve (PyString.strip m)])
                     (logs (logged_input w (PyString.strip m)) ++ [Log INFO line None])
               = retrieved w (PyString.strip m) line).
  { unfold retrieved, logged_input. cbn. now rewrite <- app_assoc. }
  assert (Hx : exists text, Py.str raw = inr text /\ extract_answer raw = inr (PyStr "")).
  { destruct Hraw as [-> | ->]; eexists; split; reflexivity. }
  destruct Hx as (text & Htext & Hx).
  eexists. split.
  - apply (flask_chat_valid _ _ _ m); trivial.
    erewrite flask_pipeline_responds.
    + now apply (flask_respond_fallback _ raw (PyStr "")).
    + apply flask_retrieve_ok; [exact Hr | exact Hl].
    + rewrite Hw. apply flask_generate_ok; [exact Hi | exact Htext].
  - rewrite fastapi_chat_valid by trivial.
    erewrite fastapi_pipeline_responds.
    + now apply (fastapi_respond_fallback _ raw (PyStr "")).
    + apply fastapi_retrieve_ok; [exact Hr | exact Hl].
    + rewrite Hw. apply fastapi_generate_ok; [exact Hi | exact Htext].
Qed.

Lemma fallback_echoes_trimmed_message_witness :
  let r : vector_store_retriever := fun _ _ => inr [] in
  let c := langchain.Double (fun _ _ => inr (PyStr "")) in
  exists w',
    Flask.chat (App (Some r) (Some c)) (json_request [("message", PyStr " hi ")]) (World [] [])
    = (inr (PyDict [("response", PyStr (fallback_text (PyString.strip " hi ")))], 200%Z), w')
    /\ FastAPI.chat (App (Some r) (Some c)) (FastAPI.Build_ChatRequest " hi ") (World [] [])
       = (inr (FastAPI.Return (PyDict [("response", PyStr (fallback_text (PyString.strip " hi ")))])),
          w').
Proof.
  intros r c.
  apply (fallback_echoes_trimmed_message r c [("message", PyStr " hi ")] " hi " (World [] []) []
           "[DEBUG] Retrieved 0 docs. Sample titles/snippets: " (PyStr "")
           (World [CallRetrieve "hi"; CallInvoke (PyDict [("input", PyStr "hi")])]
                  [Log INFO "[DEBUG] User input: hi" None;
                   Log INFO "[DEBUG] Retrieved 0 docs. Sample titles/snippets: " None])).
  - reflexivity.
  - discriminate.
  - reflexivity.
  - reflexivity.
  - reflexivity.
  - now right.
Defined.

(** ** Exceptions outside the guarded steps *)

(** In the FastAPI application an exception raised by the answer extraction
    leaves the handler: no response is built from it. *)
Lemma fastapi_extraction_error_escapes :
  let r : vector_store_retriever := fun _ _ => inr [] in
  let c := langchain.Double (fun _ _ => inr (PyDict [("answer", ndarray)])) in
  fst (FastAPI.chat (App (Some r) (Some c)) (FastAPI.Build_ChatRequest "fever") (World [] []))
  = inl ambiguous_truth
  /\ ~ (exists rep, fst (FastAPI.chat (App (Some r) (Some c)) (FastAPI.Build_ChatRequest "fever")
                                      (World [] [])) = inr rep).
Proof.
  intros r c. split.
  - reflexivity.
  - intros (rep & H). discriminate H.
Qed.

(** What the outer [except Exception] of the Flask handler makes of an
    exception of the body of its [try]. *)
Lemma flask_chat_catches r c req w e w1 :
  Flask.chat_try (App r (Some c)) c req w = (inl e, w1) ->
  Flask.chat (App r (Some c)) req w
  = (if is_Exception e then (inr internal_server_error, logged w1 (unhandled e))
     else (inl e, w1)).
Proof.
  intros H. unfold Flask.chat. cbn [rag_chain].
  destruct (is_Exception e) eqn:He.
  - erewrite try_except_inl by (exact H || exact He). reflexivity.
  - now apply try_except_escapes.
Qed.

Lemma flask_respond_extraction_raises um raw w e :
  extract_answer raw = inl e -> Flask.respond um raw w = (inl e, w).
Proof. intros H. unfold Flask.respond. apply bind_inl. unfold lift. now rewrite H. Qed.

Lemma fastapi_respond_extraction_raises um raw w e :
  extract_answer raw = inl e -> FastAPI.respond um raw w = (inl e, w).
Proof. intros H. unfold FastAPI.respond. apply bind_inl. unfold lift. now rewrite H. Qed.

(** C8, amended: in the Flask handler every exception that is an instance of
    [Exception] and is raised in the body of the [try] outside the two
    guarded steps (by the parsing of the JSON body, by the answer extraction)
    is logged and answered with the status 500 and the constant message
    "internal server error", which carries nothing of the exception; the
    only exceptions that leave the Flask handler are those that are not
    instances of [Exception] (an interrupt, the exit of the interpreter),
    which its [except Exception] does not catch.  The FastAPI handler has no
    such guard: the body is parsed before the handler runs, and an exception
    raised by the answer extraction leaves the handler as it is, whatever its
    class. *)
Theorem unanticipated_exceptions :
  (forall a req w res w',
      Flask.chat a req w = (res, w') ->
      (exists resp, res = inr resp) \/ (exists e, res = inl e /\ is_Exception e = false))
  /\ (forall r c req w e w1,
        Flask.chat_try (App r (Some c)) c req w = (inl e, w1) ->
        Flask.chat (App r (Some c)) req w
        = (if is_Exception e then (inr internal_server_error, logged w1 (unhandled e))
           else (inl e, w1)))
  /\ (forall r c e w,
        Flask.chat (App r (Some c)) (Flask.Request (inl e)) w
        = (if is_Exception e then (inr internal_server_error, logged w (unhandled e))
           else (inl e, w)))
  /\ (forall r c d m w docs line raw w2 text e,
        Py.dict_get d "message" (PyStr "") = PyStr m ->
        PyString.strip m <> "" ->
        r (calls w) (PyString.strip m) = inr docs ->
        retrieved_line docs = inr line ->
        langchain.invoke c (PyDict [("input", PyStr (PyString.strip m))])
                         (retrieved w (PyString.strip m) line) = (inr raw, w2) ->
        Py.str raw = inr text ->
        extract_answer raw = inl e ->
        let w3 := logged w2 (Log INFO ("[DEBUG] Raw chain output: " ++ text) None) in
        Flask.chat (App (Some r) (Some c)) (json_request d) w
        = (if is_Exception e then (inr internal_server_error, logged w3 (unhandled e))
           else (inl e, w3))
        /\ FastAPI.chat (App (Some r) (Some c)) (FastAPI.Build_ChatRequest m) w
           = (inl e, w3)).
Proof.
  split; [|split; [|split]].
  - apply flask_chat_outcome.
  - apply flask_chat_catches.
  - intros r c e w. now apply flask_chat_catches.
  - intros r c d m w docs line raw w2 text e Hm Hne Hr Hl Hi Htext He w3.
    assert (Hw : World (calls (logged_input w (PyString.strip m)) ++ [CallRetrieve (PyString.strip m)])
                       (logs (logged_input w (PyString.strip m)) ++ [Log INFO line None])
                 = retrieved w (PyString.strip m) line).
    { unfold retrieved, logged_input. cbn. now rewrite <- app_assoc. }
    split.
    + apply flask_chat_catches.
      rewrite (flask_chat_try_valid _ _ _ m) by trivial.
      erewrite flask_pipeline_responds.
      * apply flask_respond_extraction_raises. exact He.
      * apply flask_retrieve_ok; [exact Hr | exact Hl].
      * rewrite Hw. apply flask_generate_ok; [exact Hi | exact Htext].
    + rewrite fastapi_chat_valid by trivial.
      erewrite fastapi_pipeline_responds.
      * apply fastapi_respond_extraction_raises. exact He.
      * apply fastapi_retrieve_ok; [exact Hr | exact Hl].
      * rewrite Hw. apply fastapi_generate_ok; [exact Hi | exact Htext].
Qed.

Lemma unanticipated_exceptions_witness :
  let r : vector_store_retriever := fun _ _ => inr [] in
  let c := langchain.Double (fun _ _ => inr (PyDict [("answer", ndarray)])) in
  let w3 := World [CallRetrieve "fever"; CallInvoke (PyDict [("input", PyStr "fever")])]
                  [Log INFO "[DEBUG] User input: fever" None;
                   Log INFO "[DEBUG] Retrieved 0 docs. Sample titles/snippets: " None;
                   Log INFO "[DEBUG] Raw chain output: {'answer': array([1, 2])}" None] in
  Flask.chat (App (Some r) (Some c)) (json_request [("message", PyStr "fever")]) (World [] [])
  = (inr internal_server_error, logged w3 (unhandled ambiguous_truth))
  /\ FastAPI.chat (App (Some r) (Some c)) (FastAPI.Build_ChatRequest "fever") (World [] [])
     = (inl ambiguous_truth, w3).
Proof.
  intros r c w3.
  destruct unanticipated_exceptions as (_ & _ & _ & H).
  apply (H r c [("message", PyStr "fever")] "fever" (World [] []) []
           "[DEBUG] Retrieved 0 docs. Sample titles/snippets: "
           (PyDict [("answer", ndarray)])
           (World [CallRetrieve "fever"; CallInvoke (PyDict [("input", PyStr "fever")])]
                  [Log INFO "[DEBUG] User input: fever" None;
                   Log INFO "[DEBUG] Retrieved 0 docs. Sample titles/snippets: " None])
           "{'answer': array([1, 2])}" ambiguous_truth).
  - reflexivity.
  - discriminate.
  - reflexivity.
  - reflexivity.
  - reflexivity.
  - reflexivity.
  - reflexivity.
Defined.

(** ** The index build *)

Lemma build_index_existing (pc : gmap string Store.index) :
  Store.index_name ∈ Store.names pc ->
  Store.build_index pc = (inr pc, [skip_line]).
Proof.
  intros H. unfold Store.build_index.
  destruct (decide (Store.index_name ∉ Store.names pc)) as [Hn|_]; [now destruct Hn|].
  reflexivity.
Qed.

Lemma build_index_new (pc : gmap string Store.index) :
  Store.index_name ∉ Store.names pc ->
  Store.build_index pc
  = (inr (<[Store.index_name := fresh_index]> pc), [Store.CreateIndex Store.index_name]).
Proof.
  intros H. unfold Store.build_index, Store.create_index.
  destruct (decide (Store.index_name ∉ Store.names pc)) as [_|Hn]; [|now destruct Hn].
  unfold Store.names in H. apply not_elem_of_dom in H. now rewrite H.
Qed.

Lemma build_index_total (pc : gmap string Store.index) :
  exists pc1 t1, Store.build_index pc = (inr pc1, t1) /\ Store.index_name ∈ Store.names pc1
                 /\ (forall ix, pc !! Store.index_name = Some ix -> pc1 = pc).
Proof.
  destruct (decide (Store.index_name ∈ Store.names pc)) as [Hin|Hn].
  - exists pc, [skip_line]. split; [now apply build_index_existing|]. auto.
  - eexists _, _. split; [now apply build_index_new|]. split.
    + unfold Store.names. rewrite dom_insert_L. set_solver.
    + intros ix Hix. destruct Hn. unfold Store.names. apply elem_of_dom. now exists ix.
Qed.

(** C9: when an index of the name exists, the build step creates nothing and
    leaves the account as it is, printing that it skips the creation; so the
    build step of a second run is always such a skip, and a second run of the
    script issues no creation: it keeps the configuration of the index and
    the vectors it has, and adds its own. *)
Theorem index_build_idempotent :
  (forall pc : gmap string Store.index,
      Store.index_name ∈ Store.names pc ->
      Store.build_index pc = (inr pc, [skip_line]))
  /\ (forall pc : gmap string Store.index,
        exists pc1 t1, Store.build_index pc = (inr pc1, t1)
                       /\ Store.build_index pc1 = (inr pc1, [skip_line]))
  /\ (forall (chunks1 chunks2 : list string) (pc : gmap string Store.index),
        exists pc1 t1 ix,
          Store.store chunks1 pc = (inr pc1, t1)
          /\ pc1 !! Store.index_name = Some ix
          /\ Store.store chunks2 pc1
             = (inr (<[Store.index_name :=
                         Store.Index (Store.dimension ix) (Store.metric ix) (Store.cloud ix)
                                     (Store.region ix) (Store.vectors ix ++ chunks2)]> pc1),
                [skip_line; Store.Upsert Store.index_name (List.length chunks2)])).
Proof.
  split; [|split].
  - apply build_index_existing.
  - intros pc. destruct (build_index_total pc) as (pc1 & t1 & H1 & Hin & _).
    exists pc1, t1. split; [exact H1|]. now apply build_index_existing.
  - intros chunks1 chunks2 pc.
    destruct (build_index_total pc) as (pc0 & t0 & H0 & Hin & _).
    unfold Store.names in Hin. apply elem_of_dom in Hin. destruct Hin as (ix0 & Hix0).
    unfold Store.store at 1. rewrite H0. unfold Store.from_documents at 1. rewrite Hix0.
    eexists _, _, _. split; [reflexivity|]. split; [apply lookup_insert_eq|].
    unfold Store.store. rewrite build_index_existing.
    + unfold Store.from_documents. rewrite lookup_insert_eq. reflexivity.
    + unfold Store.names. rewrite dom_insert_L. set_solver.
Qed.

(** ** The two retrievals of a successful request *)

Lemma flask_retrieve_success r c um w docs w1 :
  Flask.retrieve (App (Some r) c) um w = (inr (inr docs), w1) ->
  r (calls w) um = inr docs
  /\ exists line, retrieved_line docs = inr line
                  /\ w1 = World (calls w ++ [CallRetrieve um]) (logs w ++ [Log INFO line None]).
Proof.
  unfold Flask.retrieve. run.
  destruct (r (calls w) um) as [e|docs'] eqn:Hr; cbn.
  { destruct (is_Exception e); intros H; inversion H. }
  destruct (retrieved_line docs') as [e|line] eqn:Hl; cbn.
  { destruct (is_Exception e); intros H; inversion H. }
  intros H; inversion H; subst.
  split; [reflexivity|]. now exists line.
Qed.

Lemma fastapi_retrieve_success r c um w docs w1 :
  FastAPI.retrieve (App (Some r) c) um w = (inr (inr docs), w1) ->
  r (calls w) um = inr docs
  /\ exists line, retrieved_line docs = inr line
                  /\ w1 = World (calls w ++ [CallRetrieve um]) (logs w ++ [Log INFO line None]).
Proof.
  unfold FastAPI.retrieve. run.
  destruct (r (calls w) um) as [e|docs'] eqn:Hr; cbn.
  { destruct (is_Exception e); intros H; inversion H. }
  destruct (retrieved_line docs') as [e|line] eqn:Hl; cbn.
  { destruct (is_Exception e); intros H; inversion H. }
  intros H; inversion H; subst.
  split; [reflexivity|]. now exists line.
Qed.

Lemma flask_generate_success c um w raw w2 :
  Flask.generate c um w = (inr (inr raw), w2) ->
  exists w1, langchain.invoke c (PyDict [("input", PyStr um)]) w = (inr raw, w1)
             /\ calls w2 = calls w1.
Proof.
  unfold Flask.generate. unfold try_except, bind at 1.
  destruct (langchain.invoke c _ w) as [[e|raw'] w1].
  { destruct (is_Exception e); run; intros H; inversion H. }
  run. destruct (Py.str raw') as [e|text]; cbn.
  { destruct (is_Exception e); intros H; inversion H. }
  intros H; inversion H; subst.
  now exists w1.
Qed.

Lemma fastapi_generate_success c um w raw w2 :
  FastAPI.generate c um w = (inr (inr raw), w2) ->
  exists w1, langchain.invoke c (PyDict [("input", PyStr um)]) w = (inr raw, w1)
             /\ calls w2 = calls w1.
Proof.
  unfold FastAPI.generate. unfold try_except, bind at 1.
  destruct (langchain.invoke c _ w) as [[e|raw'] w1].
  { destruct (is_Exception e); run; intros H; inversion H. }
  run. destruct (Py.str raw') as [e|text]; cbn.
  { destruct (is_Exception e); intros H; inversion H. }
  intros H; inversion H; subst.
  now exists w1.
Qed.

(** The retrieval chain calls the retriever, then the model on the prompt
    made from the documents it got. *)
Lemma retrieval_chain_invoke r llm sp um w raw w1 :
  langchain.invoke (langchain.RetrievalChain r (langchain.StuffDocumentsChain llm sp))
                   (PyDict [("input", PyStr um)]) w = (inr raw, w1) ->
  let input := PyDict [("input", PyStr um)] in
  exists docs text,
    let p := Prompt sp (langchain.format_docs docs) um in
    r (calls w ++ [CallInvoke input])%list um = inr docs
    /\ llm (calls w ++ [CallInvoke input] ++ [CallRetrieve um])%list p = inr text
    /\ raw = PyDict [("input", PyStr um); ("context", langchain.list_of_docs docs);
                     ("answer", PyStr text)]
    /\ calls w1 = (calls w ++ [CallInvoke input] ++ [CallRetrieve um; CallLLM p])%list.
Proof.
  unfold langchain.invoke, langchain.invoke_stuff, get_relevant_documents. run.
  destruct (r _ um) as [e|docs] eqn:Hr; cbn; [intros H; inversion H|].
  destruct (llm _ _) as [e|text] eqn:Hllm; cbn; intros H; inversion H; subst.
  exists docs, text. cbn. rewrite <- !app_assoc in *. cbn in *. auto.
Qed.

(** What [respond] returns, and that it calls nothing. *)
Lemma flask_respond_success um raw w body st w' :
  Flask.respond um raw w = (inr (body, st), w') ->
  exists a t, extract_answer raw = inr a /\ Py.truthy a = inr t
              /\ body = PyDict [("response", if t then a else PyStr (fallback_text um))]
              /\ st = 200%Z /\ calls w' = calls w.
Proof.
  unfold Flask.respond, or_fallback. run.
  destruct (extract_answer raw) as [e|a]; cbn; [intros H; inversion H|].
  destruct (Py.truthy a) as [e|[|]] eqn:Ht; cbn; [intros H; inversion H| |].
  - destruct (Py.str a) as [e|s]; cbn; [intros H; inversion H|].
    destruct (Py.json_check a) as [e|u]; cbn; intros H; inversion H; subst.
    exists a, true. auto.
  - intros H; inversion H; subst. exists a, false. auto.
Qed.

Lemma fastapi_respond_success um raw w body w' :
  FastAPI.respond um raw w = (inr (FastAPI.Return body), w') ->
  exists a t, extract_answer raw = inr a /\ Py.truthy a = inr t
              /\ body = PyDict [("response", if t then a else PyStr (fallback_text um))]
              /\ calls w' = calls w.
Proof.
  unfold FastAPI.respond, or_fallback. run.
  destruct (extract_answer raw) as [e|a]; cbn; [intros H; inversion H|].
  destruct (Py.truthy a) as [e|[|]] eqn:Ht; cbn; [intros H; inversion H| |].
  - destruct (Py.str a) as [e|s]; cbn; intros H; inversion H; subst.
    exists a, true. auto.
  - intros H; inversion H; subst. exists a, false. auto.
Qed.

(** The answer extracted from the output of the retrieval chain. *)
Lemma extract_chain_output um ctx text a t :
  extract_answer (PyDict [("input", PyStr um); ("context", ctx); ("answer", PyStr text)]) = inr a ->
  Py.truthy a = inr t ->
  (if t then a else PyStr (fallback_text um)) = answer_of text um.
Proof.
  unfold answer_of. cbn. destruct (String.eqb text "") eqn:He; cbn.
  - intros H; inversion H; subst. cbn. intros H'; inversion H'; subst. reflexivity.
  - intros H; inversion H; subst. cbn. rewrite He. cbn.
    intros H'; inversion H'; subst. reflexivity.
Qed.

Lemma successful_run_calls r llm sp um w docs w1 raw w1' (w2 w' : world) a t :
  r (calls w) um = inr docs ->
  calls w1 = (calls w ++ [CallRetrieve um])%list ->
  langchain.invoke (langchain.RetrievalChain r (langchain.StuffDocumentsChain llm sp))
                   (PyDict [("input", PyStr um)]) w1 = (inr raw, w1') ->
  calls w2 = calls w1' ->
  calls w' = calls w2 ->
  extract_answer raw = inr a ->
  Py.truthy a = inr t ->
  exists docs2 text,
    two_retrievals r llm sp w um docs docs2 text w'
    /\ (if t then a else PyStr (fallback_text um)) = answer_of text um.
Proof.
  intros Hr Hc1 Hi Hc2 Hc' Hx Ht.
  apply retrieval_chain_invoke in Hi. cbv zeta in Hi.
  destruct Hi as (docs2 & text & Hr2 & Hllm & -> & Hc1').
  exists docs2, text. split.
  - unfold two_retrievals. cbv zeta.
    rewrite Hc1 in Hr2, Hllm, Hc1'. rewrite <- !app_assoc in Hr2, Hllm, Hc1'.
    cbn in Hr2, Hllm, Hc1'. rewrite <- !app_assoc. cbn.
    repeat split; try assumption. congruence.
  - eapply extract_chain_output; eassumption.
Qed.

Lemma flask_success_run r llm sp req w body w' :
  Flask.chat (App (Some r)
                  (Some (langchain.RetrievalChain r (langchain.StuffDocumentsChain llm sp))))
             req w = (inr (body, 200%Z), w') ->
  exists data msg um docs1 docs2 text,
    Flask.get_json req = inr data
    /\ Py.get data "message" (PyStr "") = inr msg
    /\ Py.strip msg = inr um
    /\ two_retrievals r llm sp w um docs1 docs2 text w'
    /\ body = PyDict [("response", answer_of text um)].
Proof.
  intros H. apply flask_chat_success in H.
  destruct H as (c & data & msg & um & docs & w1 & raw & w2 & Hc & Hd & Hm & Hu & _ & Hr & Hg & Hs).
  cbn in Hc. injection Hc as <-.
  apply flask_retrieve_success in Hr. destruct Hr as (Hr & line & _ & ->).
  apply flask_generate_success in Hg. destruct Hg as (w1' & Hi & Hc2).
  apply flask_respond_success in Hs. destruct Hs as (a & t & Hx & Ht & -> & _ & Hc').
  assert (Hrun := fun Hc1 =>
            successful_run_calls r llm sp um w docs _ raw w1' w2 w' a t Hr Hc1 Hi Hc2 Hc' Hx Ht).
  destruct (Hrun eq_refl) as (docs2 & text & H2 & Ha).
  exists data, msg, um, docs, docs2, text. rewrite Ha. auto.
Qed.

Lemma fastapi_success_run r llm sp payload w body w' :
  FastAPI.chat (App (Some r)
                    (Some (langchain.RetrievalChain r (langchain.StuffDocumentsChain llm sp))))
               payload w = (inr (FastAPI.Return body), w') ->
  exists docs1 docs2 text,
    two_retrievals r llm sp w (PyString.strip (FastAPI.message payload)) docs1 docs2 text w'
    /\ body = PyDict [("response", answer_of text (PyString.strip (FastAPI.message payload)))].
Proof.
  intros H. apply fastapi_chat_success in H.
  destruct H as (c & docs & w1 & raw & w2 & H). cbv zeta in H.
  destruct H as (Hc & _ & Hr & Hg & Hs).
  cbn in Hc. injection Hc as <-.
  apply fastapi_retrieve_success in Hr. destruct Hr as (Hr & line & _ & ->).
  apply fastapi_generate_success in Hg. destruct Hg as (w1' & Hi & Hc2).
  apply fastapi_respond_success in Hs. destruct Hs as (a & t & Hx & Ht & -> & Hc').
  assert (Hrun := fun Hc1 =>
            successful_run_calls r llm sp (PyString.strip (FastAPI.message payload))
              w docs _ raw w1' w2 w' a t Hr Hc1 Hi Hc2 Hc' Hx Ht).
  destruct (Hrun eq_refl) as (docs2 & text & H2 & Ha).
  exists docs, docs2, text. rewrite Ha. auto.
Qed.

Lemma two_retrievals_count r llm sp w um docs1 docs2 text w' :
  two_retrievals r llm sp w um docs1 docs2 text w' ->
  count_retrieves (calls w') = 2 + count_retrieves (calls w)
  /\ count_invokes (calls w') = 1 + count_invokes (calls w).
Proof.
  unfold two_retrievals. cbv zeta. intros (_ & _ & _ & ->).
  unfold count_retrieves, count_invokes.
  rewrite !List.filter_app, !List.length_app. cbn. lia.
Qed.

(** *** Runs that differ in the first retrieval only *)

Section Same_outcome.
Context {A B : Type}.

Lemma bind_same (m m' : M A) (k k' : A -> M B) w w' :
  same_outcome (m w) (m' w') ->
  (forall x w1 w1', calls w1 = calls w1' -> same_outcome (k x w1) (k' x w1')) ->
  same_outcome (bind m k w) (bind m' k' w').
Proof.
  unfold bind, same_outcome.
  destruct (m w) as [[e|x] w1], (m' w') as [[e'|x'] w1']; cbn;
    intros [Hf Hc] Hk; inversion Hf; subst; auto.
Qed.

Lemma try_except_same (m m' : M A) (h h' : exn -> M A) w w' :
  same_outcome (m w) (m' w') ->
  (forall e w1 w1', calls w1 = calls w1' -> same_outcome (h e w1) (h' e w1')) ->
  same_outcome (try_except m h w) (try_except m' h' w').
Proof.
  unfold try_except, same_outcome.
  destruct (m w) as [[e|x] w1], (m' w') as [[e'|x'] w1']; cbn;
    intros [Hf Hc] Hh; inversion Hf; subst; auto.
  destruct (is_Exception e'); auto.
Qed.

End Same_outcome.

(** No step of the handlers reads the log: a step that starts after the same
    calls ends alike. *)
Ltac same_step :=
  unfold same_outcome, lift, ret, logger.info, logger.warning, logger.exception, emit,
    Flask.jsonify, bind; cbn;
  repeat match goal with
         | |- context [match ?x with inl _ => _ | inr _ => _ end] => destruct x; cbn
         end;
  now split.

Lemma flask_respond_same um raw w w' :
  calls w = calls w' -> same_outcome (Flask.respond um raw w) (Flask.respond um raw w').
Proof.
  intros Hc. unfold same_outcome, Flask.respond, or_fallback. run.
  destruct (extract_answer raw) as [e|a]; cbn; [now split|].
  destruct (Py.truthy a) as [e|[|]]; cbn; [now split| |now split].
  destruct (Py.str a) as [e|s]; cbn; [now split|].
  destruct (Py.json_check a) as [e|[]]; cbn; now split.
Qed.

Lemma fastapi_respond_same um raw w w' :
  calls w = calls w' -> same_outcome (FastAPI.respond um raw w) (FastAPI.respond um raw w').
Proof.
  intros Hc. unfold same_outcome, FastAPI.respond, or_fallback. run.
  destruct (extract_answer raw) as [e|a]; cbn; [now split|].
  destruct (Py.truthy a) as [e|[|]]; cbn; [now split| |now split].
  destruct (Py.str a) as [e|s]; cbn; now split.
Qed.

(** The chain calls the retriever after the invocation is recorded: a
    retriever that differs on another history only is the same to it. *)
Lemma invoke_agree r r' comb h0 um w w' :
  agree_except_at h0 r r' ->
  calls w = calls w' ->
  (calls w ++ [CallInvoke (PyDict [("input", PyStr um)])])%list <> h0 ->
  same_outcome
    (langchain.invoke (langchain.RetrievalChain r comb) (PyDict [("input", PyStr um)]) w)
    (langchain.invoke (langchain.RetrievalChain r' comb) (PyDict [("input", PyStr um)]) w').
Proof.
  intros Hag Hc Hne.
  unfold same_outcome, langchain.invoke, langchain.invoke_stuff, get_relevant_documents.
  run. rewrite <- Hc. rewrite (Hag _ um Hne).
  destruct (r _ um) as [e|docs]; cbn; [now split|].
  destruct (langchain.chain_llm comb _ _) as [e|text]; cbn; now split.
Qed.

Lemma flask_generate_same c c' um w w' :
  same_outcome (langchain.invoke c (PyDict [("input", PyStr um)]) w)
               (langchain.invoke c' (PyDict [("input", PyStr um)]) w') ->
  same_outcome (Flask.generate c um w) (Flask.generate c' um w').
Proof.
  intros H. unfold Flask.generate. apply try_except_same.
  - apply bind_same; [exact H|]. intros raw w1 w1' Hc.
    apply bind_same; [same_step|]. intros text w2 w2' Hc2.
    apply bind_same; [same_step|]. intros u w3 w3' Hc3. same_step.
  - intros e w1 w1' Hc. same_step.
Qed.

Lemma fastapi_generate_same c c' um w w' :
  same_outcome (langchain.invoke c (PyDict [("input", PyStr um)]) w)
               (langchain.invoke c' (PyDict [("input", PyStr um)]) w') ->
  same_outcome (FastAPI.generate c um w) (FastAPI.generate c' um w').
Proof.
  intros H. unfold FastAPI.generate. apply try_except_same.
  - apply bind_same; [exact H|]. intros raw w1 w1' Hc.
    apply bind_same; [same_step|]. intros text w2 w2' Hc2.
    apply bind_same; [same_step|]. intros u w3 w3' Hc3. same_step.
  - intros e w1 w1' Hc. same_step.
Qed.

Section First_retrieval.

Variables (r r' : vector_store_retriever) (comb : langchain.stuff_documents_chain).
Variables (w : world) (um : string) (docs1 docs1' : list doc) (line1 line1' : string).
Hypothesis agree : agree_except_at (calls w) r r'.
Hypothesis first : r (calls w) um = inr docs1.
Hypothesis first_line : retrieved_line docs1 = inr line1.
Hypothesis first' : r' (calls w) um = inr docs1'.
Hypothesis first_line' : retrieved_line docs1' = inr line1'.

Lemma chain_invoke_agree :
  same_outcome
    (langchain.invoke (langchain.RetrievalChain r comb) (PyDict [("input", PyStr um)])
                      (retrieved w um line1))
    (langchain.invoke (langchain.RetrievalChain r' comb) (PyDict [("input", PyStr um)])
                      (retrieved w um line1')).
Proof.
  apply (invoke_agree r r' comb (calls w)); [exact agree | reflexivity |].
  cbn. intros Heq. apply (f_equal (@List.length call)) in Heq.
  rewrite !List.length_app in Heq. cbn in Heq. lia.
Qed.

Lemma flask_pipeline_agree :
  same_outcome
    (Flask.pipeline (App (Some r) (Some (langchain.RetrievalChain r comb)))
                    (langchain.RetrievalChain r comb) um (logged_input w um))
    (Flask.pipeline (App (Some r') (Some (langchain.RetrievalChain r' comb)))
                    (langchain.RetrievalChain r' comb) um (logged_input w um)).
Proof.
  unfold Flask.pipeline.
  rewrite (bind_inr (Flask.retrieve (App (Some r) _) um) _ _ (inr docs1)
             (retrieved w um line1))
    by (rewrite <- retrieved_world; apply flask_retrieve_ok; [exact first | exact first_line]).
  rewrite (bind_inr (Flask.retrieve (App (Some r') _) um) _ _ (inr docs1')
             (retrieved w um line1'))
    by (rewrite <- retrieved_world; apply flask_retrieve_ok; [exact first' | exact first_line']).
  apply bind_same.
  - apply flask_generate_same, chain_invoke_agree.
  - intros [resp|raw] w1 w1' Hc; [same_step | now apply flask_respond_same].
Qed.

Lemma fastapi_pipeline_agree :
  same_outcome
    (FastAPI.pipeline (App (Some r) (Some (langchain.RetrievalChain r comb)))
                      (langchain.RetrievalChain r comb) um (logged_input w um))
    (FastAPI.pipeline (App (Some r') (Some (langchain.RetrievalChain r' comb)))
                      (langchain.RetrievalChain r' comb) um (logged_input w um)).
Proof.
  unfold FastAPI.pipeline.
  rewrite (bind_inr (FastAPI.retrieve (App (Some r) _) um) _ _ (inr docs1)
             (retrieved w um line1))
    by (rewrite <- retrieved_world; apply fastapi_retrieve_ok; [exact first | exact first_line]).
  rewrite (bind_inr (FastAPI.retrieve (App (Some r') _) um) _ _ (inr docs1')
             (retrieved w um line1'))
    by (rewrite <- retrieved_world; apply fastapi_retrieve_ok; [exact first' | exact first_line']).
  apply bind_same.
  - apply fastapi_generate_same, chain_invoke_agree.
  - intros [exc|raw] w1 w1' Hc; [same_step | now apply fastapi_respond_same].
Qed.

End First_retrieval.

(** Whenever the log line of the first retrieval can be made in both runs,
    the two runs of a handler end alike. *)
Lemma chat_agree r r' comb d m w docs1 line1 docs1' line1' :
  agree_except_at (calls w) r r' ->
  Py.dict_get d "message" (PyStr "") = PyStr m ->
  r (calls w) (PyString.strip m) = inr docs1 ->
  retrieved_line docs1 = inr line1 ->
  r' (calls w) (PyString.strip m) = inr docs1' ->
  retrieved_line docs1' = inr line1' ->
  same_outcome (Flask.chat (App (Some r) (Some (langchain.RetrievalChain r comb)))
                           (json_request d) w)
               (Flask.chat (App (Some r') (Some (langchain.RetrievalChain r' comb)))
                           (json_request d) w)
  /\ same_outcome (FastAPI.chat (App (Some r) (Some (langchain.RetrievalChain r comb)))
                                (FastAPI.Build_ChatRequest m) w)
                  (FastAPI.chat (App (Some r') (Some (langchain.RetrievalChain r' comb)))
                                (FastAPI.Build_ChatRequest m) w).
Proof.
  intros Hag Hm Hr Hl Hr' Hl'.
  destruct (String.eqb (PyString.strip m) "") eqn:He.
  - split.
    + unfold same_outcome, Flask.chat, Flask.chat_try, json_request. run.
      rewrite Hm. cbn. rewrite He. now split.
    + unfold same_outcome, FastAPI.chat. cbn. rewrite He. now split.
  - apply String.eqb_neq in He. split.
    + unfold Flask.chat. cbn [rag_chain]. apply try_except_same.
      * rewrite !(flask_chat_try_valid _ _ _ m) by trivial.
        now apply (flask_pipeline_agree r r' comb w _ docs1 docs1' line1 line1').
      * intros e w1 w1' Hc. same_step.
    + rewrite !fastapi_chat_valid by trivial.
      now apply (fastapi_pipeline_agree r r' comb w _ docs1 docs1' line1 line1').
Qed.

(** C10, amended: on the chain the start-up builds, a request that succeeds
    calls the retriever twice with the trimmed message, once from the handler
    and once from inside the chain invocation, and the prompt given to the
    model is made from the documents of the second call only.  The documents
    of the first call are not passed on; the log line is made from them, and
    whenever that line can be made, the request ends the same way (same
    response or error, same calls) whatever they are. *)
Theorem retrieval_runs_twice (r : vector_store_retriever) (llm : chat_model) (sp : string) :
  let chain := langchain.create_retrieval_chain r (langchain.create_stuff_documents_chain llm sp) in
  let a := App (Some r) (Some chain) in
  (forall w0, startup (inr r) llm sp w0 = (inr a, w0))
  /\ (forall req w body w',
        Flask.chat a req w = (inr (body, 200%Z), w') ->
        exists data msg um docs1 docs2 text,
          Flask.get_json req = inr data
          /\ Py.get data "message" (PyStr "") = inr msg
          /\ Py.strip msg = inr um
          /\ two_retrievals r llm sp w um docs1 docs2 text w'
          /\ count_retrieves (calls w') = 2 + count_retrieves (calls w)
          /\ body = PyDict [("response", answer_of text um)])
  /\ (forall payload w body w',
        FastAPI.chat a payload w = (inr (FastAPI.Return body), w') ->
        exists docs1 docs2 text,
          two_retrievals r llm sp w (PyString.strip (FastAPI.message payload))
                         docs1 docs2 text w'
          /\ count_retrieves (calls w') = 2 + count_retrieves (calls w)
          /\ body = PyDict [("response",
                             answer_of text (PyString.strip (FastAPI.message payload)))])
  /\ (forall r' d m w docs1 line1 docs1' line1',
        agree_except_at (calls w) r r' ->
        Py.dict_get d "message" (PyStr "") = PyStr m ->
        r (calls w) (PyString.strip m) = inr docs1 ->
        retrieved_line docs1 = inr line1 ->
        r' (calls w) (PyString.strip m) = inr docs1' ->
        retrieved_line docs1' = inr line1' ->
        let chain' := langchain.create_retrieval_chain r'
                        (langchain.create_stuff_documents_chain llm sp) in
        let a' := App (Some r') (Some chain') in
        same_outcome (Flask.chat a (json_request d) w) (Flask.chat a' (json_request d) w)
        /\ same_outcome (FastAPI.chat a (FastAPI.Build_ChatRequest m) w)
                        (FastAPI.chat a' (FastAPI.Build_ChatRequest m) w)).
Proof.
  intros chain a. split; [|split; [|split]].
  - intros w0. apply startup_ok.
  - intros req w body w' H. apply flask_success_run in H.
    destruct H as (data & msg & um & docs1 & docs2 & text & Hd & Hm & Hu & Ht & Hb).
    exists data, msg, um, docs1, docs2, text.
    pose proof (two_retrievals_count _ _ _ _ _ _ _ _ _ Ht) as (Hn & _). auto 10.
  - intros payload w body w' H. apply fastapi_success_run in H.
    destruct H as (docs1 & docs2 & text & Ht & Hb).
    exists docs1, docs2, text.
    pose proof (two_retrievals_count _ _ _ _ _ _ _ _ _ Ht) as (Hn & _). auto.
  - intros r' d m w docs1 line1 docs1' line1' Hag Hm Hr Hl Hr' Hl' chain' a'.
    now apply (chat_agree r r' _ d m w docs1 line1 docs1' line1').
Qed.

(** Two retrievers that differ on the first retrieval only, on the same
    request: with the first documents of the one the request is answered,
    with those of the other, where a title is a number, it ends as a
    retrieval error. *)
Lemma first_retrieval_decides_outcome :
  let chain r := langchain.create_retrieval_chain r
                   (langchain.create_stuff_documents_chain echo_model "Answer from: {context}") in
  let a r := App (Some r) (Some (chain r)) in
  agree_except_at [] changing_retriever numbering_retriever
  /\ fst (Flask.chat (a changing_retriever) (json_request [("message", PyStr "what helps?")])
                     (World [] []))
     = inr (PyDict [("response", PyStr "Context: Fever is a symptom.")], 200%Z)
  /\ fst (Flask.chat (a numbering_retriever) (json_request [("message", PyStr "what helps?")])
                     (World [] []))
     = inr (Flask.error_body
              "retrieval error: sequence item 0: expected str instance, int found", 500%Z)
  /\ fst (FastAPI.chat (a changing_retriever) (FastAPI.Build_ChatRequest "what helps?")
                       (World [] []))
     = inr (FastAPI.Return (PyDict [("response", PyStr "Context: Fever is a symptom.")]))
  /\ fst (FastAPI.chat (a numbering_retriever) (FastAPI.Build_ChatRequest "what helps?")
                       (World [] []))
     = inr (FastAPI.HTTPException 500
              "retrieval error: sequence item 0: expected str instance, int found").
Proof.
  intros chain a. split; [|repeat split].
  intros [|c h] q Hh; [now destruct Hh | reflexivity].
Qed.

Lemma retrieval_runs_twice_witness :
  let w' :=
    World [CallRetrieve "what helps?";
           CallInvoke (PyDict [("input", PyStr "what helps?")]);
           CallRetrieve "what helps?";
           CallLLM (Prompt "Answer from: {context}" "Fever is a symptom." "what helps?")]
          [Log INFO "[DEBUG] User input: what helps?" None;
           Log INFO "[DEBUG] Retrieved 1 docs. Sample titles/snippets: Asthma" None;
           Log INFO "[DEBUG] Raw chain output: {'input': 'what helps?', 'context': [Document(fever)], 'answer': 'Context: Fever is a symptom.'}" None;
           Log INFO "[DEBUG] Final answer: Context: Fever is a symptom." None] in
  let r' : vector_store_retriever :=
    fun h _ => match h with [] => inr [fever_doc; asthma_doc] | _ => inr [fever_doc] end in
  let a r := App (Some r)
                 (Some (langchain.RetrievalChain r
                          (langchain.StuffDocumentsChain echo_model "Answer from: {context}"))) in
  (exists data msg um docs1 docs2 text,
     Flask.get_json (json_request [("message", PyStr " what helps? ")]) = inr data
     /\ Py.get data "message" (PyStr "") = inr msg
     /\ Py.strip msg = inr um
     /\ two_retrievals changing_retriever echo_model "Answer from: {context}" (World [] [])
          um docs1 docs2 text w'
     /\ count_retrieves (calls w') = 2 + count_retrieves (calls (World [] []))
     /\ PyDict [("response", PyStr "Context: Fever is a symptom.")]
        = PyDict [("response", answer_of text um)])
  /\ same_outcome (Flask.chat (a changing_retriever)
                              (json_request [("message", PyStr " what helps? ")]) (World [] []))
                  (Flask.chat (a r') (json_request [("message", PyStr " what helps? ")])
                              (World [] []))
  /\ same_outcome (FastAPI.chat (a changing_retriever)
                                (FastAPI.Build_ChatRequest " what helps? ") (World [] []))
                  (FastAPI.chat (a r') (FastAPI.Build_ChatRequest " what helps? ")
                                (World [] [])).
Proof.
  intros w' r' a.
  destruct (retrieval_runs_twice changing_retriever echo_model "Answer from: {context}")
    as (_ & H & _ & Hsame).
  split.
  - apply (H (json_request [("message", PyStr " what helps? ")]) (World [] [])).
    reflexivity.
  - apply (Hsame r' [("message", PyStr " what helps? ")] " what helps? " (World [] [])
             [asthma_doc] "[DEBUG] Retrieved 1 docs. Sample titles/snippets: Asthma"
             [fever_doc; asthma_doc]
             "[DEBUG] Retrieved 2 docs. Sample titles/snippets: no-title; Asthma").
    + intros [|c h] q Hh; [now destruct Hh | reflexivity].
    + reflexivity.
    + reflexivity.
    + reflexivity.
    + reflexivity.
    + reflexivity.
Defined.

Lemma index_build_idempotent_witness :
  Store.build_index {[ Store.index_name := fresh_index ]}
  = (inr {[ Store.index_name := fresh_index ]}, [skip_line]).
Proof.
  destruct index_build_idempotent as (H & _).
  apply H. unfold Store.names. apply elem_of_dom. exists fresh_index. reflexivity.
Defined.

(** * Further properties of the handlers *)

(** ** The two applications agree *)
Lemma retrieve_ports a um w :
  Flask.retrieve a um w
  = match FastAPI.retrieve a um w with
    | (inl e, w') => (inl e, w')
    | (inr (inl exc), w') => (inr (inl (flask_error exc)), w')
    | (inr (inr docs), w') => (inr (inr docs), w')
    end.
Proof.
  unfold Flask.retrieve, FastAPI.retrieve, get_relevant_documents.
  destruct (retriever a) as [r|]; run.
  - destruct (r (calls w) um) as [e|docs]; cbn; [now destruct (is_Exception e)|].
    destruct (retrieved_line docs) as [e|line]; cbn; [now destruct (is_Exception e)|].
    reflexivity.
  - reflexivity.
Qed.

Ltac unfold_m :=
  unfold bind, ret, lift, raise, try_except, history, record_call, emit,
    logger.info, logger.warning, logger.exception, Flask.jsonify.

Lemma generate_ports c um w :
  Flask.generate c um w
  = match FastAPI.generate c um w with
    | (inl e, w') => (inl e, w')
    | (inr (inl exc), w') => (inr (inl (flask_error exc)), w')
    | (inr (inr raw), w') => (inr (inr raw), w')
    end.
Proof.
  unfold Flask.generate, FastAPI.generate. unfold_m.
  destruct (langchain.invoke c _ w) as [[e|raw] w1]; cbn; [now destruct (is_Exception e)|].
  destruct (Py.str raw) as [e|text]; cbn; [now destruct (is_Exception e)|].
  reflexivity.
Qed.

Lemma respond_ports um raw w :
  Flask.respond um raw w = flask_try_view (FastAPI.respond um raw w).
Proof.
  unfold Flask.respond, FastAPI.respond, or_fallback. run.
  destruct (extract_answer raw) as [e|a]; cbn; [reflexivity|].
  destruct (Py.truthy a) as [e|[|]]; cbn; [reflexivity| |].
  - destruct (Py.str a) as [e|s]; cbn; [reflexivity|].
    destruct (Py.json_check a) as [e|[]]; reflexivity.
  - reflexivity.
Qed.

Lemma pipeline_ports a c um w :
  Flask.pipeline a c um w = flask_try_view (FastAPI.pipeline a c um w).
Proof.
  unfold Flask.pipeline, FastAPI.pipeline.
  unfold bind at 1 3. rewrite retrieve_ports.
  destruct (FastAPI.retrieve a um w) as [[e|[exc|docs]] w1] eqn:Hr.
  - reflexivity.
  - apply fastapi_retrieve_inv in Hr.
    destruct Hr as [(? & Hr)|[(msg & Hr)|(? & Hr & _)]]; try discriminate Hr.
    injection Hr as ->. reflexivity.
  - unfold bind. rewrite generate_ports.
    destruct (FastAPI.generate c um w1) as [[e|[exc|raw]] w2] eqn:Hg.
    + reflexivity.
    + apply fastapi_generate_inv in Hg.
      destruct Hg as [(? & Hg)|[(msg & Hg)|(? & Hg & _)]]; try discriminate Hg.
      injection Hg as ->. reflexivity.
    + apply respond_ports.
Qed.

Lemma chat_ports r c d m w :
  Py.dict_get d "message" (PyStr "") = PyStr m ->
  Flask.chat (App r (Some c)) (json_request d) w
  = flask_view (FastAPI.chat (App r (Some c)) (FastAPI.Build_ChatRequest m) w).
Proof.
  intros Hm. destruct (String.eqb (PyString.strip m) "") eqn:He.
  - unfold Flask.chat, FastAPI.chat, Flask.chat_try, json_request, flask_view.
    run. rewrite Hm. cbn. rewrite He. reflexivity.
  - apply String.eqb_neq in He.
    rewrite fastapi_chat_valid by exact He.
    unfold Flask.chat, flask_view. cbn [rag_chain]. unfold try_except.
    rewrite (flask_chat_try_valid _ _ _ m) by trivial.
    rewrite pipeline_ports.
    destruct (flask_try_view _) as [[e|resp] w1]; [|reflexivity].
    destruct (is_Exception e); reflexivity.
Qed.

(** X1: with the RAG chain present and a message that is a string, the
    Flask handler does what the FastAPI handler does, in the same world: an
    [HTTPException] of the one is the error body and status of the other, a
    returned body is the response with the status 200 when it can be
    serialised, and an exception that leaves the FastAPI handler (or the
    one of a body that cannot be serialised) is the logged
    "internal server error" of the Flask handler when it is an instance of
    [Exception], and leaves the Flask handler as well when it is not. *)
Theorem ports_agree
  (r : option vector_store_retriever) (c : langchain.runnable)
  (d : pydict) (m : string) (w : world) :
  Py.dict_get d "message" (PyStr "") = PyStr m ->
  Flask.chat (App r (Some c)) (json_request d) w
  = flask_view (FastAPI.chat (App r (Some c)) (FastAPI.Build_ChatRequest m) w).
Proof. apply chat_ports. Qed.

Lemma ports_agree_witness :
  Flask.chat (App (Some changing_retriever)
                  (Some (langchain.Double (fun _ _ => inr (PyDict [("answer", ndarray)])))))
             (json_request [("message", PyStr "fever")]) (World [] [])
  = flask_view (FastAPI.chat
                  (App (Some changing_retriever)
                       (Some (langchain.Double (fun _ _ => inr (PyDict [("answer", ndarray)])))))
                  (FastAPI.Build_ChatRequest "fever") (World [] [])).
Proof.
  apply (ports_agree (Some changing_retriever)
           (langchain.Double (fun _ _ => inr (PyDict [("answer", ndarray)])))
           [("message", PyStr "fever")] "fever" (World [] [])).
  reflexivity.
Defined.

(** ** Trimming *)

Lemma rstrip_idem s : PyString.rstrip (PyString.rstrip s) = PyString.rstrip s.
Proof.
  induction s as [|c s IH]; [reflexivity|].
  cbn [PyString.rstrip]. destruct (PyString.rstrip s) as [|d t] eqn:Hs.
  - destruct (PyString.is_space c) eqn:Hc; [reflexivity|].
    cbn. now rewrite Hc.
  - cbn [PyString.rstrip] in *. now rewrite IH.
Qed.

Lemma rstrip_head c s :
  PyString.is_space c = false -> exists t, PyString.rstrip (String c s) = String c t.
Proof.
  intros Hc. cbn [PyString.rstrip]. destruct (PyString.rstrip s) as [|d t].
  - rewrite Hc. now exists "".
  - now exists (String d t).
Qed.

Lemma lstrip_head s :
  PyString.lstrip s = "" \/ exists c t, PyString.lstrip s = String c t /\ PyString.is_space c = false.
Proof.
  induction s as [|c s IH]; [now left|].
  cbn [PyString.lstrip]. destruct (PyString.is_space c) eqn:Hc; [exact IH|].
  right. now exists c, s.
Qed.

Lemma strip_idem s : PyString.strip (PyString.strip s) = PyString.strip s.
Proof.
  unfold PyString.strip.
  destruct (lstrip_head s) as [-> | (c & t & -> & Hc)]; [reflexivity|].
  destruct (rstrip_head c t Hc) as (t' & Ht). rewrite Ht.
  cbn [PyString.lstrip]. rewrite Hc. rewrite <- Ht. apply rstrip_idem.
Qed.


Lemma fastapi_retrieve_calls a um w res w' :
  FastAPI.retrieve a um w = (res, w') ->
  (calls w' = calls w /\ exists exc, res = inr (inl exc))
  \/ calls w' = (calls w ++ [CallRetrieve um])%list.
Proof.
  unfold FastAPI.retrieve, get_relevant_documents.
  destruct (retriever a) as [r|]; run.
  - destruct (r (calls w) um) as [e|docs]; cbn.
    + destruct (is_Exception e); intros H; inversion H; subst; now right.
    + destruct (retrieved_line docs) as [e|line]; cbn; [destruct (is_Exception e)|];
        intros H; inversion H; subst; now right.
  - intros H; inversion H; subst. left. eauto.
Qed.

Lemma fastapi_generate_calls c um w res w' :
  FastAPI.generate c um w = (res, w') ->
  exists rest, calls w' = (calls w ++ CallInvoke (PyDict [("input", PyStr um)]) :: rest)%list
               /\ count_invokes rest = 0.
Proof.
  unfold FastAPI.generate.
  unfold bind, ret, lift, try_except, logger.info, logger.exception, emit.
  destruct (langchain.invoke c _ w) as [[e|raw] w1] eqn:Hi;
    apply invoke_calls in Hi; destruct Hi as (rest & Hc & Hn & _).
  - destruct (is_Exception e); intros H; inversion H; subst; exists rest; now cbn.
  - destruct (Py.str raw) as [e|text]; [destruct (is_Exception e)|];
      intros H; inversion H; subst; exists rest; now cbn.
Qed.

Lemma fastapi_respond_calls um raw w res w' :
  FastAPI.respond um raw w = (res, w') -> calls w' = calls w.
Proof.
  unfold FastAPI.respond, or_fallback. run.
  destruct (extract_answer raw) as [e|a]; cbn; [intros H; now inversion H|].
  destruct (Py.truthy a) as [e|[|]]; cbn; [intros H; now inversion H| |].
  - destruct (Py.str a) as [e|s]; cbn; intros H; now inversion H.
  - intros H; now inversion H.
Qed.

Lemma fastapi_pipeline_calls a c um w res w' :
  FastAPI.pipeline a c um w = (res, w') ->
  exists new, calls w' = (calls w ++ new)%list /\ request_calls um new.
Proof.
  unfold FastAPI.pipeline, request_calls. intros H.
  apply bind_inv in H. destruct H as [(e & H & _) | (x & w1 & Hr & H)].
  { apply fastapi_retrieve_calls in H. destruct H as [(_ & exc & Hx) | Hc]; [discriminate|].
    exists [CallRetrieve um]. auto. }
  pose proof (fastapi_retrieve_calls _ _ _ _ _ Hr) as Hc1.
  destruct x as [exc|docs].
  { inversion H; subst. destruct Hc1 as [(Hc & _) | Hc].
    - exists []. rewrite app_nil_r. auto.
    - exists [CallRetrieve um]. auto. }
  destruct Hc1 as [(_ & exc & Hx) | Hc1]; [discriminate|].
  apply bind_inv in H. destruct H as [(e & H & _) | (y & w2 & Hg & H)].
  { apply fastapi_generate_calls in H. destruct H as (rest & Hc2 & Hn).
    eexists. split; [|right; right; exists rest; split; [reflexivity|exact Hn]].
    rewrite Hc2, Hc1, <- app_assoc. reflexivity. }
  apply fastapi_generate_calls in Hg. destruct Hg as (rest & Hc2 & Hn).
  assert (Hc' : calls w' = calls w2).
  { destruct y as [exc|raw]; [now inversion H | now apply fastapi_respond_calls in H]. }
  eexists. split; [|right; right; exists rest; split; [reflexivity|exact Hn]].
  rewrite Hc', Hc2, Hc1, <- app_assoc. reflexivity.
Qed.

Lemma fastapi_chat_calls a payload w res w' :
  FastAPI.chat a payload w = (res, w') ->
  exists new, calls w' = (calls w ++ new)%list
              /\ (new = []
                  \/ PyString.strip (FastAPI.message payload) <> ""
                     /\ request_calls (PyString.strip (FastAPI.message payload)) new).
Proof.
  unfold FastAPI.chat. destruct (rag_chain a) as [c|].
  2:{ intros H; inversion H; subst. exists []. rewrite app_nil_r. auto. }
  cbv zeta. destruct (String.eqb _ "") eqn:He.
  { intros H; inversion H; subst. exists []. rewrite app_nil_r. auto. }
  apply String.eqb_neq in He. intros H.
  apply bind_inv in H. destruct H as [(e & H & _) | (u & w1 & Hl & H)]; [discriminate|].
  unfold logger.info, emit in Hl. injection Hl as _ Hw. subst w1.
  apply fastapi_pipeline_calls in H. destruct H as (new & Hc & Hp).
  exists new. cbn in Hc. auto.
Qed.

Lemma flask_view_calls out : calls (snd (flask_view out)) = calls (snd out).
Proof.
  unfold flask_view, flask_try_view.
  destruct out as [[e|[body|st detail]] w1]; cbn; try reflexivity.
  - now destruct (is_Exception e).
  - destruct (Py.json_check body) as [e|[]]; [now destruct (is_Exception e) | reflexivity].
Qed.

(** X2: whatever the request and however it ends, the calls a handler adds
    to the world are none, or the retrieval alone, or the retrieval followed
    by exactly one invocation of the chain (and by what the chain calls);
    the chain is never invoked before the retrieval, and the query of these
    calls is not empty and is its own [strip]. *)
Theorem request_protocol :
  (forall a payload w res w',
      FastAPI.chat a payload w = (res, w') ->
      exists um new, calls w' = (calls w ++ new)%list
                     /\ (new = [] \/ um <> "" /\ PyString.strip um = um /\ request_calls um new))
  /\ (forall a req w res w',
        Flask.chat a req w = (res, w') ->
        exists um new, calls w' = (calls w ++ new)%list
                       /\ (new = [] \/ um <> "" /\ PyString.strip um = um /\ request_calls um new)).
Proof.
  assert (HA : forall a payload w res w',
      FastAPI.chat a payload w = (res, w') ->
      exists um new, calls w' = (calls w ++ new)%list
                     /\ (new = [] \/ um <> "" /\ PyString.strip um = um /\ request_calls um new)).
  { intros a payload w res w' H. apply fastapi_chat_calls in H.
    destruct H as (new & Hc & Hn). exists (PyString.strip (FastAPI.message payload)), new.
    split; [exact Hc|]. destruct Hn as [Hn | (Hne & Hp)]; [now left|].
    right. auto using strip_idem. }
  split; [exact HA|].
  intros a req w res w'.
  destruct a as [r [c|]].
  2:{ cbn. intros H; inversion H; subst. exists "", []. rewrite app_nil_r. auto. }
  assert (Hnone : forall e,
            Flask.chat_try (App r (Some c)) c req w = (inl e, w) ->
            Flask.chat (App r (Some c)) req w = (res, w') ->
            exists um new, calls w' = (calls w ++ new)%list
                     /\ (new = [] \/ um <> "" /\ PyString.strip um = um /\ request_calls um new)).
  { intros e He H. rewrite (flask_chat_catches _ _ _ _ _ _ He) in H.
    exists "", []. rewrite app_nil_r. split; [|now left].
    destruct (is_Exception e); inversion H; subst; reflexivity. }
  destruct req as [[e|data]].
  { apply (Hnone e). reflexivity. }
  destruct data as [| | | |d|]; try (eapply Hnone; reflexivity).
  destruct (Py.dict_get d "message" (PyStr "")) as [| | |m| |] eqn:Hm;
    try (eapply Hnone; unfold Flask.chat_try; run; rewrite Hm; reflexivity).
  change (Flask.Request (inr (PyDict d))) with (json_request d).
  rewrite (chat_ports r c d m w Hm).
  destruct (FastAPI.chat (App r (Some c)) (FastAPI.Build_ChatRequest m) w) as [res1 w1] eqn:HF.
  intros H. apply (f_equal snd) in H. cbn [snd] in H. subst w'.
  rewrite flask_view_calls. cbn [snd]. now apply HA in HF.
Qed.

(** ** Bodies the Flask handler cannot read *)

(** X4: a JSON body that is not an object, or whose [message] is not a
    string, makes the Flask handler answer "internal server error" with the
    status 500 (not 400): the [AttributeError] of [get] or [strip] is caught
    by the outer [except]; nothing is called. *)
Theorem flask_unreadable_body r c w :
  (forall data, (forall d, data <> PyDict d) ->
     Flask.chat (App r (Some c)) (Flask.Request (inr data)) w
     = (inr internal_server_error,
        logged w (unhandled (attribute_error (Py.type_name data) "get"))))
  /\ (forall d v, Py.dict_get d "message" (PyStr "") = v -> (forall s, v <> PyStr s) ->
        Flask.chat (App r (Some c)) (json_request d) w
        = (inr internal_server_error,
           logged w (unhandled (attribute_error (Py.type_name v) "strip")))).
Proof.
  split.
  - intros data Hd. destruct data as [| | | |d|]; try reflexivity. now destruct (Hd d).
  - intros d v Hv Hs. unfold Flask.chat, Flask.chat_try, json_request. run. rewrite Hv.
    destruct v as [| | |s| |]; try reflexivity. now destruct (Hs s).
Qed.

Lemma flask_unreadable_body_witness :
  Flask.chat (App None (Some (langchain.Double (fun _ _ => inr PyNone))))
             (json_request [("message", PyInt 5)]) (World [] [])
  = (inr internal_server_error,
     logged (World [] []) (unhandled (attribute_error "int" "strip"))).
Proof.
  destruct (flask_unreadable_body None (langchain.Double (fun _ _ => inr PyNone)) (World [] []))
    as (_ & H).
  apply (H [("message", PyInt 5)] (PyInt 5)).
  - reflexivity.
  - discriminate.
Defined.

Lemma dict_get_absent d k default :
  (forall v, ~ In (k, v) d) -> Py.dict_get d k default = default.
Proof.
  induction d as [|[k' x] d IH]; intros H; [reflexivity|].
  cbn. destruct (String.eqb k' k) eqn:Hk.
  - apply String.eqb_eq in Hk. subst. destruct (H x). now left.
  - apply IH. intros v Hv. apply (H v). now right.
Qed.

(** X5: a JSON object without the key [message] is rejected by the Flask
    handler as an empty message, with the status 400 and the world unchanged:
    the default of [data.get] is the empty string. *)
Theorem flask_missing_message r c d w :
  (forall v, ~ In ("message", v) d) ->
  Flask.chat (App r (Some c)) (json_request d) w
  = (inr (Flask.error_body "empty message", 400%Z), w).
Proof.
  intros H. unfold Flask.chat, Flask.chat_try, json_request. run.
  now rewrite (dict_get_absent d "message" (PyStr "") H).
Qed.

Lemma flask_missing_message_witness :
  Flask.chat (App None (Some (langchain.Double (fun _ _ => inr PyNone))))
             (json_request [("text", PyStr "fever")]) (World [] [])
  = (inr (Flask.error_body "empty message", 400%Z), World [] []).
Proof.
  apply flask_missing_message. intros v [H|[]]. discriminate H.
Defined.

(** ** The titles in the log line *)


Lemma join_items_ok items : forall i,
  (exists l, Py.join_items i items = inr l) <-> Forall (fun v => exists s, v = PyStr s) items.
Proof.
  induction items as [|v items IH]; intros i.
  - split; [constructor | eexists; reflexivity].
  - split.
    + intros (l & H). destruct v as [| | |s| |]; cbn in H; try discriminate.
      constructor; [eauto|]. apply (IH (S i)).
      destruct (Py.join_items (S i) items) as [e|l']; [discriminate|eauto].
    + intros H. inversion H as [|? ? (s & ->) Hrest]; subst. cbn.
      apply (IH (S i)) in Hrest. destruct Hrest as (l & ->). eauto.
Qed.

Lemma retrieved_line_ok docs :
  (exists line, retrieved_line docs = inr line) <-> Forall title_is_str (firstn 3 docs).
Proof.
  unfold retrieved_line, Py.join.
  rewrite <- (Forall_map doc_title (fun v => exists s, v = PyStr s)).
  rewrite <- (join_items_ok _ 0).
  destruct (Py.join_items 0 _) as [e|l]; split.
  - intros (line & H). discriminate.
  - intros (l & H). discriminate.
  - eauto.
  - eauto.
Qed.


(** The exception of the log line is the [TypeError] of [join], an instance
    of [Exception]. *)
Lemma join_items_raises items : forall i e,
  Py.join_items i items = inl e -> is_Exception e = true.
Proof.
  induction items as [|v items IH]; intros i e H; [discriminate|].
  destruct v as [| | |s| |]; cbn in H; try (injection H as <-; reflexivity).
  destruct (Py.join_items (S i) items) as [e'|l] eqn:Hj; [|discriminate].
  injection H as <-. now apply (IH (S i)).
Qed.

Lemma retrieved_line_raises docs e :
  retrieved_line docs = inl e -> is_Exception e = true.
Proof.
  unfold retrieved_line, Py.join.
  destruct (Py.join_items 0 _) as [e'|l] eqn:Hj; [|discriminate].
  intros H. injection H as <-. exact (join_items_raises _ 0 _ Hj).
Qed.

Lemma fastapi_retrieve_line_raises r c um w docs e :
  r (calls w) um = inr docs -> retrieved_line docs = inl e ->
  FastAPI.retrieve (App (Some r) c) um w
  = (inr (inl (FastAPI.HTTPException 500 ("retrieval error: " ++ exn_str e))),
     World (calls w ++ [CallRetrieve um])
           (logs w ++ [Log ERROR "[ERROR] Retrieval failed" (Some e)])).
Proof.
  intros H1 H2. unfold FastAPI.retrieve. run. rewrite H1. cbn. rewrite H2. cbn.
  now rewrite (retrieved_line_raises _ _ H2).
Qed.

(** X6: the log line about the retrieved documents can be made exactly when
    the titles of the first three documents are strings; when it cannot,
    although the retriever returned, the request ends as a retrieval error
    with the status 500 and the text of the [TypeError], and the chain is not
    invoked. *)
Theorem unprintable_title_fails_request :
  (forall docs, (exists line, retrieved_line docs = inr line)
                <-> Forall title_is_str (firstn 3 docs))
  /\ (forall r c d m w docs e,
        Py.dict_get d "message" (PyStr "") = PyStr m ->
        PyString.strip m <> "" ->
        r (calls w) (PyString.strip m) = inr docs ->
        retrieved_line docs = inl e ->
        let w' := World (calls w ++ [CallRetrieve (PyString.strip m)])
                        (logs w ++ [Log INFO ("[DEBUG] User input: " ++ PyString.strip m) None;
                                    Log ERROR "[ERROR] Retrieval failed" (Some e)]) in
        Flask.chat (App (Some r) (Some c)) (json_request d) w
        = (inr (Flask.error_body ("retrieval error: " ++ exn_str e), 500%Z), w')
        /\ FastAPI.chat (App (Some r) (Some c)) (FastAPI.Build_ChatRequest m) w
           = (inr (FastAPI.HTTPException 500 ("retrieval error: " ++ exn_str e)), w')).
Proof.
  split; [apply retrieved_line_ok|].
  intros r c d m w docs e Hm Hne Hr Hl w'.
  assert (HA : FastAPI.chat (App (Some r) (Some c)) (FastAPI.Build_ChatRequest m) w
               = (inr (FastAPI.HTTPException 500 ("retrieval error: " ++ exn_str e)), w')).
  { rewrite fastapi_chat_valid by trivial.
    erewrite fastapi_pipeline_retrieval_returns
      by (apply (fastapi_retrieve_line_raises _ _ _ _ docs); [exact Hr | exact Hl]).
    unfold w'. cbn. now rewrite <- app_assoc. }
  split; [|exact HA].
  rewrite (chat_ports _ _ _ m) by exact Hm. now rewrite HA.
Qed.

Lemma unprintable_title_fails_request_witness :
  let r : vector_store_retriever :=
    fun _ _ => inr [asthma_doc; Document (Some [("title", PyInt 7)]) "x" "Document(x)"] in
  let c := langchain.Double (fun _ _ => inr (PyStr "unused")) in
  Flask.chat (App (Some r) (Some c)) (json_request [("message", PyStr "fever")]) (World [] [])
  = (inr (Flask.error_body
            "retrieval error: sequence item 1: expected str instance, int found", 500%Z),
     World [CallRetrieve "fever"]
           [Log INFO "[DEBUG] User input: fever" None;
            Log ERROR "[ERROR] Retrieval failed"
                (Some (Exn "TypeError" "sequence item 1: expected str instance, int found"))]).
Proof.
  intros r c.
  destruct unprintable_title_fails_request as (_ & H).
  apply (H r c [("message", PyStr "fever")] "fever" (World [] [])
           [asthma_doc; Document (Some [("title", PyInt 7)]) "x" "Document(x)"]
           (Exn "TypeError" "sequence item 1: expected str instance, int found")).
  - reflexivity.
  - discriminate.
  - reflexivity.
  - reflexivity.
Defined.

(** ** The log line about the chain output *)

Lemma fastapi_generate_format_raises c um w raw w2 e :
  langchain.invoke c (PyDict [("input", PyStr um)]) w = (inr raw, w2) ->
  Py.str raw = inl e ->
  is_Exception e = true ->
  FastAPI.generate c um w
  = (inr (inl (FastAPI.HTTPException 500 ("chain invocation error: " ++ exn_str e))),
     logged w2 (Log ERROR "[ERROR] Chain invocation failed" (Some e))).
Proof.
  intros H He Hexc. unfold FastAPI.generate.
  rewrite (try_except_inl _ _ _ e w2); [reflexivity | | exact Hexc].
  erewrite bind_inr by exact H. apply bind_inl. unfold lift. now rewrite He.
Qed.

(** X7: when the chain returns a value whose rendering for the log line
    raises [e], an instance of [Exception], the request ends as a chain
    invocation error with the status 500, although the invocation itself
    returned: the log call is inside the guarded step. *)
Theorem unprintable_output_fails_request
  (r : vector_store_retriever) (c : langchain.runnable)
  (d : pydict) (m : string) (w : world)
  (docs : list doc) (line : string) (raw : pyval) (w2 : world) (e : exn) :
  Py.dict_get d "message" (PyStr "") = PyStr m ->
  PyString.strip m <> "" ->
  r (calls w) (PyString.strip m) = inr docs ->
  retrieved_line docs = inr line ->
  langchain.invoke c (PyDict [("input", PyStr (PyString.strip m))])
                   (retrieved w (PyString.strip m) line) = (inr raw, w2) ->
  Py.str raw = inl e ->
  is_Exception e = true ->
  let w' := logged w2 (Log ERROR "[ERROR] Chain invocation failed" (Some e)) in
  Flask.chat (App (Some r) (Some c)) (json_request d) w
  = (inr (Flask.error_body ("chain invocation error: " ++ exn_str e), 500%Z), w')
  /\ FastAPI.chat (App (Some r) (Some c)) (FastAPI.Build_ChatRequest m) w
     = (inr (FastAPI.HTTPException 500 ("chain invocation error: " ++ exn_str e)), w').
Proof.
  intros Hm Hne Hr Hl Hi He Hexc w'.
  assert (HA : FastAPI.chat (App (Some r) (Some c)) (FastAPI.Build_ChatRequest m) w
               = (inr (FastAPI.HTTPException 500 ("chain invocation error: " ++ exn_str e)), w')).
  { rewrite fastapi_chat_valid by trivial.
    eapply fastapi_pipeline_generate_returns.
    - apply fastapi_retrieve_ok; [exact Hr | exact Hl].
    - rewrite retrieved_world. now apply (fastapi_generate_format_raises _ _ _ raw). }
  split; [|exact HA].
  rewrite (chat_ports _ _ _ m) by exact Hm. now rewrite HA.
Qed.


Lemma unprintable_output_fails_request_witness :
  let r : vector_store_retriever := fun _ _ => inr [] in
  let c := langchain.Double (fun _ _ => inr (PyDict [("answer", unprintable)])) in
  Flask.chat (App (Some r) (Some c)) (json_request [("message", PyStr "fever")]) (World [] [])
  = (inr (Flask.error_body "chain invocation error: no text for this object", 500%Z),
     World [CallRetrieve "fever"; CallInvoke (PyDict [("input", PyStr "fever")])]
           [Log INFO "[DEBUG] User input: fever" None;
            Log INFO "[DEBUG] Retrieved 0 docs. Sample titles/snippets: " None;
            Log ERROR "[ERROR] Chain invocation failed" (Some no_text)]).
Proof.
  intros r c.
  apply (unprintable_output_fails_request r c [("message", PyStr "fever")] "fever"
           (World [] []) [] "[DEBUG] Retrieved 0 docs. Sample titles/snippets: "
           (PyDict [("answer", unprintable)])
           (World [CallRetrieve "fever"; CallInvoke (PyDict [("input", PyStr "fever")])]
                  [Log INFO "[DEBUG] User input: fever" None;
                   Log INFO "[DEBUG] Retrieved 0 docs. Sample titles/snippets: " None])
           no_text).
  - reflexivity.
  - discriminate.
  - reflexivity.
  - reflexivity.
  - reflexivity.
  - reflexivity.
  - reflexivity.
Defined.

(** ** The answer of a request that succeeds *)

Lemma fastapi_respond_answer um raw s w :
  extract_answer raw = inr (PyStr s) -> s <> "" ->
  FastAPI.respond um raw w
  = (inr (FastAPI.Return (PyDict [("response", PyStr s)])),
     logged w (Log INFO ("[DEBUG] Final answer: " ++ s) None)).
Proof.
  intros He Hs. apply String.eqb_neq in Hs.
  unfold FastAPI.respond, or_fallback. run. rewrite He. cbn. now rewrite Hs.
Qed.

(** X8: when the retrieval succeeds and the chain returns an output from
    which a non-empty string [s] is extracted, both handlers answer [s]
    unchanged with the status 200, after logging the raw output and the final
    answer. *)
Theorem answer_returned
  (r : vector_store_retriever) (c : langchain.runnable)
  (d : pydict) (m : string) (w : world)
  (docs : list doc) (line : string) (raw : pyval) (w2 : world) (text s : string) :
  Py.dict_get d "message" (PyStr "") = PyStr m ->
  PyString.strip m <> "" ->
  r (calls w) (PyString.strip m) = inr docs ->
  retrieved_line docs = inr line ->
  langchain.invoke c (PyDict [("input", PyStr (PyString.strip m))])
                   (retrieved w (PyString.strip m) line) = (inr raw, w2) ->
  Py.str raw = inr text ->
  extract_answer raw = inr (PyStr s) ->
  s <> "" ->
  let w' := World (calls w2)
                  (logs w2 ++ [Log INFO ("[DEBUG] Raw chain output: " ++ text) None;
                               Log INFO ("[DEBUG] Final answer: " ++ s) None]) in
  Flask.chat (App (Some r) (Some c)) (json_request d) w
  = (inr (PyDict [("response", PyStr s)], 200%Z), w')
  /\ FastAPI.chat (App (Some r) (Some c)) (FastAPI.Build_ChatRequest m) w
     = (inr (FastAPI.Return (PyDict [("response", PyStr s)])), w').
Proof.
  intros Hm Hne Hr Hl Hi Ht Hx Hs w'.
  assert (HA : FastAPI.chat (App (Some r) (Some c)) (FastAPI.Build_ChatRequest m) w
               = (inr (FastAPI.Return (PyDict [("response", PyStr s)])), w')).
  { rewrite fastapi_chat_valid by trivial.
    erewrite (fastapi_pipeline_responds _ _ _ _ docs _ raw
                (logged w2 (Log INFO ("[DEBUG] Raw chain output: " ++ text) None))).
    - rewrite (fastapi_respond_answer _ raw s) by assumption.
      unfold w', logged. cbn. now rewrite <- app_assoc.
    - apply fastapi_retrieve_ok; [exact Hr | exact Hl].
    - rewrite retrieved_world. apply fastapi_generate_ok; [exact Hi | exact Ht]. }
  split; [|exact HA].
  rewrite (chat_ports _ _ _ m) by exact Hm. now rewrite HA.
Qed.

Lemma answer_returned_witness :
  let r : vector_store_retriever := fun _ _ => inr [asthma_doc] in
  let c := langchain.Double (fun _ _ => inr (PyDict [("output", PyStr "Use an inhaler.")])) in
  Flask.chat (App (Some r) (Some c)) (json_request [("message", PyStr " asthma? ")]) (World [] [])
  = (inr (PyDict [("response", PyStr "Use an inhaler.")], 200%Z),
     World [CallRetrieve "asthma?"; CallInvoke (PyDict [("input", PyStr "asthma?")])]
           [Log INFO "[DEBUG] User input: asthma?" None;
            Log INFO "[DEBUG] Retrieved 1 docs. Sample titles/snippets: Asthma" None;
            Log INFO "[DEBUG] Raw chain output: {'output': 'Use an inhaler.'}" None;
            Log INFO "[DEBUG] Final answer: Use an inhaler." None]).
Proof.
  intros r c.
  apply (answer_returned r c [("message", PyStr " asthma? ")] " asthma? " (World [] [])
           [asthma_doc] "[DEBUG] Retrieved 1 docs. Sample titles/snippets: Asthma"
           (PyDict [("output", PyStr "Use an inhaler.")])
           (World [CallRetrieve "asthma?"; CallInvoke (PyDict [("input", PyStr "asthma?")])]
                  [Log INFO "[DEBUG] User input: asthma?" None;
                   Log INFO "[DEBUG] Retrieved 1 docs. Sample titles/snippets: Asthma" None])
           "{'output': 'Use an inhaler.'}" "Use an inhaler.").
  - reflexivity.
  - discriminate.
  - reflexivity.
  - reflexivity.
  - reflexivity.
  - reflexivity.
  - reflexivity.
  - discriminate.
Defined.

(** ** The messages of the guarded steps *)

Lemma fastapi_retrieve_error_form a um w exc w' :
  FastAPI.retrieve a um w = (inr (inl exc), w') ->
  exists e, exc = FastAPI.HTTPException 500 ("retrieval error: " ++ exn_str e).
Proof.
  unfold FastAPI.retrieve. intros H.
  apply try_except_inv in H.
  destruct H as [(x & H & Hx) | [(e & w1 & _ & _ & H) | (e & _ & _ & H)]].
  - apply bind_inv in H. destruct H as [(e & _ & H) | (docs & w1 & _ & H)]; [discriminate|].
    apply bind_inv in H. destruct H as [(e & _ & H) | (line & w2 & _ & H)]; [discriminate|].
    apply bind_inv in H. destruct H as [(e & _ & H) | (u & w3 & _ & H)]; [discriminate|].
    inversion H; subst. discriminate.
  - run_in H. inversion H; subst. eauto.
  - discriminate H.
Qed.

Lemma fastapi_generate_error_form c um w exc w' :
  FastAPI.generate c um w = (inr (inl exc), w') ->
  exists e, exc = FastAPI.HTTPException 500 ("chain invocation error: " ++ exn_str e).
Proof.
  unfold FastAPI.generate. intros H.
  apply try_except_inv in H.
  destruct H as [(x & H & Hx) | [(e & w1 & _ & _ & H) | (e & _ & _ & H)]].
  - apply bind_inv in H. destruct H as [(e & _ & H) | (raw & w1 & _ & H)]; [discriminate|].
    apply bind_inv in H. destruct H as [(e & _ & H) | (line & w2 & _ & H)]; [discriminate|].
    apply bind_inv in H. destruct H as [(e & _ & H) | (u & w3 & _ & H)]; [discriminate|].
    inversion H; subst. discriminate.
  - run_in H. inversion H; subst. eauto.
  - discriminate H.
Qed.

Lemma fastapi_pipeline_forms a c um w res w' :
  FastAPI.pipeline a c um w = (res, w') ->
  (exists e, res = inr (FastAPI.HTTPException 500 ("retrieval error: " ++ exn_str e)))
  \/ (exists e, res = inr (FastAPI.HTTPException 500 ("chain invocation error: " ++ exn_str e)))
  \/ (exists e, res = inl e /\ is_Exception e = false)
  \/ (exists docs w1 raw w2,
        FastAPI.retrieve a um w = (inr (inr docs), w1)
        /\ FastAPI.generate c um w1 = (inr (inr raw), w2)
        /\ FastAPI.respond um raw w2 = (res, w')).
Proof.
  unfold FastAPI.pipeline. intros H.
  apply bind_inv in H. destruct H as [(e & H & ->) | (x & w1 & Hr & H)].
  { apply fastapi_retrieve_inv in H.
    destruct H as [(? & H) | [(? & H) | (e' & H & He)]]; try discriminate H.
    injection H as <-. right; right; left. eauto. }
  destruct x as [exc|docs].
  { apply fastapi_retrieve_error_form in Hr. destruct Hr as (e & ->).
    inversion H; subst. left. eauto. }
  apply bind_inv in H. destruct H as [(e & H & ->) | (y & w2 & Hg & H)].
  { apply fastapi_generate_inv in H.
    destruct H as [(? & H) | [(? & H) | (e' & H & He)]]; try discriminate H.
    injection H as <-. right; right; left. eauto. }
  destruct y as [exc|raw].
  { apply fastapi_generate_error_form in Hg. destruct Hg as (e & ->).
    inversion H; subst. right; left. eauto. }
  right; right; right. now exists docs, w1, raw, w2.
Qed.


Lemma fastapi_chat_expected a payload w rep w' :
  FastAPI.chat a payload w = (inr rep, w') -> expected_reply rep.
Proof.
  unfold FastAPI.chat. destruct (rag_chain a) as [c|].
  2:{ run. intros H; inversion H; subst. constructor. }
  cbv zeta. destruct (String.eqb _ "") eqn:He.
  { run. intros H; inversion H; subst. constructor. }
  intros H.
  apply bind_inv in H. destruct H as [(e & H & _) | (u & w1 & Hl & H)]; [discriminate|].
  apply fastapi_pipeline_forms in H.
  destruct H as [(e & H) | [(e & H) | [(e & H & _) | (docs & w2 & raw & w3 & _ & _ & H)]]].
  - inversion H; subst. constructor.
  - inversion H; subst. constructor.
  - discriminate H.
  - destruct (fastapi_respond_returns _ _ _ _ _ H) as (body & ->).
    apply fastapi_respond_inv in H. destruct H as (answer & -> & _). constructor.
Qed.

Lemma flask_error_expected rep :
  expected_reply rep -> rep <> FastAPI.HTTPException 500 "Retrieval chain not initialized" ->
  expected_response (flask_error rep).
Proof. intros H Hn. destruct H; cbn; try constructor. now destruct Hn. Qed.

Lemma flask_chat_expected a req w resp w' :
  Flask.chat a req w = (inr resp, w') -> expected_response resp.
Proof.
  unfold Flask.chat. destruct (rag_chain a) as [c|].
  2:{ run. intros H; inversion H; subst. constructor. }
  intros H. apply try_except_inv in H.
  destruct H as [(x & H & Hx) | [(e & w1 & _ & _ & H) | (e & _ & _ & H)]].
  2:{ run_in H. inversion H; subst. constructor. }
  2:{ discriminate H. }
  inversion Hx; subst x; clear Hx.
  unfold Flask.chat_try in H.
  apply bind_inv in H. destruct H as [(e & _ & H) | (data & w1 & _ & H)]; [discriminate|].
  apply bind_inv in H. destruct H as [(e & _ & H) | (msg & w2 & _ & H)]; [discriminate|].
  apply bind_inv in H. destruct H as [(e & _ & H) | (um & w3 & _ & H)]; [discriminate|].
  destruct (String.eqb um "").
  { run_in H. inversion H; subst. constructor. }
  apply bind_inv in H. destruct H as [(e & _ & H) | (u & w4 & _ & H)]; [discriminate|].
  rewrite pipeline_ports in H.
  destruct (FastAPI.pipeline a c um w4) as [[e|rep] w5] eqn:Hp; [discriminate|].
  apply fastapi_pipeline_forms in Hp.
  destruct Hp as [(e & Hp) | [(e & Hp) | [(e & Hp & _) | (docs & w6 & raw & w7 & _ & _ & Hp)]]].
  - inversion Hp; subst. cbn in H. inversion H; subst. constructor.
  - inversion Hp; subst. cbn in H. inversion H; subst. constructor.
  - discriminate Hp.
  - destruct (fastapi_respond_returns _ _ _ _ _ Hp) as (body & ->).
    apply fastapi_respond_inv in Hp. destruct Hp as (answer & -> & _).
    cbn in H. destruct (Py.json_check answer) as [e|[]]; inversion H; subst. constructor.
Qed.

(** X3: the Flask handler only ever responds with the answer and the status
    200, or with one of five error bodies: not initialised (500), empty
    message (400), retrieval error (500), chain invocation error (500),
    internal server error (500).  The FastAPI handler only ever returns the
    answer or raises one of the four corresponding [HTTPException]s. *)
Theorem responses_are_expected :
  (forall a req w resp w', Flask.chat a req w = (inr resp, w') -> expected_response resp)
  /\ (forall a payload w rep w', FastAPI.chat a payload w = (inr rep, w') -> expected_reply rep).
Proof. split; [apply flask_chat_expected | apply fastapi_chat_expected]. Qed.

(** ** The chain of the start-up *)

Lemma fastapi_respond_chain_output um ctx text w :
  exists w',
    FastAPI.respond um (PyDict [("input", PyStr um); ("context", ctx); ("answer", PyStr text)]) w
    = (inr (FastAPI.Return (PyDict [("response", answer_of text um)])), w').
Proof.
  unfold FastAPI.respond, or_fallback, answer_of. run.
  destruct (String.eqb text "") eqn:He; cbn.
  - eexists. reflexivity.
  - rewrite He. cbn. eexists. reflexivity.
Qed.

Lemma fastapi_startup_chat r llm sp payload w res w' :
  FastAPI.chat (App (Some r)
                    (Some (langchain.RetrievalChain r (langchain.StuffDocumentsChain llm sp))))
               payload w = (res, w') ->
  (exists rep, res = inr rep
               /\ rep <> FastAPI.HTTPException 500 "Retrieval chain not initialized"
               /\ forall body, rep = FastAPI.Return body -> Py.json_check body = inr tt)
  \/ (exists e, res = inl e /\ is_Exception e = false).
Proof.
  unfold FastAPI.chat. cbn [rag_chain]. cbv zeta.
  destruct (String.eqb _ "") eqn:He.
  { run. intros H. inversion H; subst. left.
    eexists. split; [reflexivity|]. split; discriminate. }
  unfold bind at 1. unfold logger.info at 1, emit. intros H.
  apply fastapi_pipeline_forms in H.
  destruct H as [(e & ->) | [(e & ->) | [(e & -> & He') | (docs & w2 & raw & w3 & _ & Hg & H)]]].
  - left. eexists. split; [reflexivity|]. split; discriminate.
  - left. eexists. split; [reflexivity|]. split; discriminate.
  - right. eauto.
  - apply fastapi_generate_success in Hg. destruct Hg as (w1' & Hi & _).
    apply retrieval_chain_invoke in Hi. cbv zeta in Hi.
    destruct Hi as (docs2 & text & _ & _ & -> & _).
    destruct (fastapi_respond_chain_output
                (PyString.strip (FastAPI.message payload))
                (langchain.list_of_docs docs2) text w3) as (w4 & Hw).
    rewrite Hw in H. inversion H; subst. left.
    eexists. split; [reflexivity|]. split; [discriminate|].
    intros body Hb. inversion Hb; subst. reflexivity.
Qed.

(** X9: on the application that the start-up builds, whether the start-up
    succeeded or failed, the only exceptions that leave a handler are those
    the retriever or the model raise that are not instances of [Exception]:
    otherwise the FastAPI handler returns or raises one of its own
    [HTTPException]s, and for a request whose message is a string the Flask
    handler never answers "internal server error".  The output of the
    retrieval chain always carries a string under [answer], which extraction,
    logging and serialisation accept. *)
Theorem startup_chain_needs_no_catch_all
  (init : result vector_store_retriever) (llm : chat_model) (sp : string)
  (w0 : world) (a : app) (w1 : world) :
  startup init llm sp w0 = (inr a, w1) ->
  (forall payload w res w',
      FastAPI.chat a payload w = (res, w') ->
      (exists rep, res = inr rep /\ expected_reply rep)
      \/ (exists e, res = inl e /\ is_Exception e = false))
  /\ (forall d m w res w',
        Py.dict_get d "message" (PyStr "") = PyStr m ->
        Flask.chat a (json_request d) w = (res, w') ->
        (exists resp, res = inr resp /\ expected_response resp /\ resp <> internal_server_error)
        \/ (exists e, res = inl e /\ is_Exception e = false)).
Proof.
  destruct init as [e|r].
  - destruct (is_Exception e) eqn:He;
      [rewrite startup_failed by exact He | rewrite startup_interrupted by exact He];
      intros H; inversion H; subst; clear H.
    split.
    + intros payload w res w' H. inversion H; subst. left.
      eexists. split; [reflexivity | constructor].
    + intros d m w res w' Hm H. inversion H; subst. left.
      eexists. split; [reflexivity|]. split; [constructor | discriminate].
  - rewrite startup_ok. intros H; inversion H; subst; clear H.
    split.
    + intros payload w res w' H.
      destruct (fastapi_startup_chat _ _ _ _ _ _ _ H) as [(rep & -> & _) | He]; [|now right].
      left. exists rep. split; [reflexivity|]. now apply fastapi_chat_expected in H.
    + intros d m w res w' Hm H.
      rewrite (chat_ports _ _ _ m) in H by exact Hm.
      destruct (FastAPI.chat _ (FastAPI.Build_ChatRequest m) w) as [res1 wq] eqn:HF.
      destruct (fastapi_startup_chat _ _ _ _ _ _ _ HF) as [(rep & -> & Hn & Hj) | (e & -> & He)].
      * apply fastapi_chat_expected in HF.
        unfold flask_view, flask_try_view in H.
        destruct HF.
        -- rewrite (Hj _ eq_refl) in H. inversion H; subst. left.
           eexists. split; [reflexivity|]. split; [constructor | discriminate].
        -- now destruct Hn.
        -- inversion H; subst. left.
           eexists. split; [reflexivity|]. split; [constructor | discriminate].
        -- inversion H; subst. left.
           eexists. split; [reflexivity|]. split; [constructor | discriminate].
        -- inversion H; subst. left.
           eexists. split; [reflexivity|]. split; [constructor | discriminate].
      * unfold flask_view, flask_try_view in H. rewrite He in H.
        inversion H; subst. right. eauto.
Qed.

Lemma startup_chain_needs_no_catch_all_witness :
  exists resp,
    fst (Flask.chat (App (Some changing_retriever)
                         (Some (langchain.RetrievalChain changing_retriever
                                  (langchain.StuffDocumentsChain echo_model
                                     "Answer from: {context}"))))
                    (json_request [("message", PyStr "fever")]) (World [] [])) = inr resp
    /\ expected_response resp
    /\ resp <> internal_server_error.
Proof.
  destruct (startup_chain_needs_no_catch_all (inr changing_retriever) echo_model
              "Answer from: {context}" (World [] [])
              (App (Some changing_retriever)
                   (Some (langchain.RetrievalChain changing_retriever
                            (langchain.StuffDocumentsChain echo_model "Answer from: {context}"))))
              (World [] []) eq_refl) as (_ & H).
  destruct (H [("message", PyStr "fever")] "fever" (World [] []) _ _ eq_refl
              (surjective_pairing _)) as [(resp & Hr & He & Hn) | (e & He & _)].
  - exists resp. auto.
  - vm_compute in He. discriminate He.
Defined.

(** * The health check *)

Lemma pad2_two_digits n : (n < 100)%N -> two_digits (time.pad2 n) = true.
Proof.
  intros H.
  assert (Hall : forallb (fun k => two_digits (time.pad2 (N.of_nat k))) (seq 0 100) = true)
    by (vm_compute; reflexivity).
  rewrite forallb_forall in Hall.
  rewrite <- (N2Nat.id n). apply Hall. apply in_seq. lia.
Qed.

Lemma year_four_digits n :
  (1000 <= n <= 9999)%N -> four_digits (time.decimal n) = true.
Proof.
  intros H.
  assert (Hall : forallb (fun k => four_digits (time.decimal (1000 + N.of_nat k)))
                         (seq 0 (N.to_nat 9000)) = true)
    by (vm_compute; reflexivity).
  rewrite forallb_forall in Hall.
  replace n with (1000 + N.of_nat (N.to_nat (n - 1000)))%N by lia.
  apply Hall. apply in_seq. lia.
Qed.

Lemma two_digits_inv s :
  two_digits s = true ->
  exists a b, s = String a (String b "") /\ is_digit a = true /\ is_digit b = true.
Proof.
  intros H. destruct s as [|a [|b [|c s]]]; try discriminate.
  cbn in H. apply andb_prop in H. destruct H. eauto.
Qed.

Lemma four_digits_inv s :
  four_digits s = true ->
  exists a b c d, s = String a (String b (String c (String d "")))
                  /\ is_digit a = true /\ is_digit b = true
                  /\ is_digit c = true /\ is_digit d = true.
Proof.
  intros H. destruct s as [|a [|b [|c [|d [|e s]]]]]; try discriminate.
  cbn in H. apply andb_prop in H. destruct H as [H H4].
  apply andb_prop in H. destruct H as [H H3]. apply andb_prop in H. destruct H as [H1 H2].
  exists a, b, c, d. auto.
Qed.

Lemma timestamp_shape t :
  in_range t -> iso_shape (time.strftime "%Y-%m-%dT%H:%M:%SZ" t) = true.
Proof.
  intros (Hy & Hm & Hd & Hh & Hmi & Hs).
  destruct (four_digits_inv _ (year_four_digits _ Hy))
    as (y1 & y2 & y3 & y4 & Ey & Hy1 & Hy2 & Hy3 & Hy4).
  destruct (two_digits_inv _ (pad2_two_digits (time.tm_mon t) ltac:(lia)))
    as (m1 & m2 & Em & Hm1 & Hm2).
  destruct (two_digits_inv _ (pad2_two_digits (time.tm_mday t) ltac:(lia)))
    as (d1 & d2 & Ed & Hd1 & Hd2).
  destruct (two_digits_inv _ (pad2_two_digits (time.tm_hour t) ltac:(lia)))
    as (h1 & h2 & Eh & Hh1 & Hh2).
  destruct (two_digits_inv _ (pad2_two_digits (time.tm_min t) ltac:(lia)))
    as (i1 & i2 & Ei & Hi1 & Hi2).
  destruct (two_digits_inv _ (pad2_two_digits (time.tm_sec t) ltac:(lia)))
    as (s1 & s2 & Es & Hs1 & Hs2).
  cbn [time.strftime Ascii.eqb Bool.eqb time.directive].
  rewrite Ey, Em, Ed, Eh, Ei, Es.
  unfold iso_shape. cbv [append]. cbn -[is_digit].
  rewrite Hy1, Hy2, Hy3, Hy4, Hm1, Hm2, Hd1, Hd2, Hh1, Hh2, Hi1, Hi2, Hs1, Hs2.
  reflexivity.
Qed.

(** X10: [health] answers with the status 200, the status text "ok" and a
    timestamp of the shape YYYY-MM-DDTHH:MM:SSZ (twenty characters, digits
    and separators in place) for every time of a year from 1000 to 9999; it
    reads nothing of the application and leaves the world as it is.  In both
    applications. *)
Theorem health_timestamp (now : time.struct_time) (w : world) :
  in_range now ->
  exists ts,
    iso_shape ts = true
    /\ Flask.health now w
       = (inr (PyDict [("status", PyStr "ok"); ("timestamp", PyStr ts)], 200%Z), w)
    /\ FastAPI.health now w
       = (inr (PyDict [("status", PyStr "ok"); ("timestamp", PyStr ts)]), w).
Proof.
  intros H. exists (time.strftime "%Y-%m-%dT%H:%M:%SZ" now).
  split; [now apply timestamp_shape|]. split; reflexivity.
Qed.

Lemma health_timestamp_witness :
  exists ts,
    iso_shape ts = true
    /\ Flask.health (time.Build_struct_time 2026 11 3 9 5 7) (World [] [])
       = (inr (PyDict [("status", PyStr "ok"); ("timestamp", PyStr ts)], 200%Z), World [] [])
    /\ FastAPI.health (time.Build_struct_time 2026 11 3 9 5 7) (World [] [])
       = (inr (PyDict [("status", PyStr "ok"); ("timestamp", PyStr ts)]), World [] []).
Proof.
  apply (health_timestamp (time.Build_struct_time 2026 11 3 9 5 7) (World [] [])).
  unfold in_range. cbn. lia.
Defined.

Example health_example :
  Flask.health (time.Build_struct_time 2026 11 3 9 5 7) (World [] [])
  = (inr (PyDict [("status", PyStr "ok"); ("timestamp", PyStr "2026-11-03T09:05:07Z")], 200%Z),
     World [] []).
Proof. reflexivity. Qed.

(** * The scaffolding script *)

Section Template_facts.
Variable getsize_dir : gmap (list string) Template.node -> list string -> nat.

Lemma makedirs_from_subseteq (rest : list string) : forall made (fs : gmap (list string) Template.node),
  fs ⊆ (Template.makedirs_from made rest fs).2.
Proof.
  induction rest as [|x rest IH]; intros made fs; cbn; [reflexivity|].
  destruct (fs !! (made ++ [x])%list) as [[|c]|] eqn:Hp.
  - apply IH.
  - reflexivity.
  - etransitivity; [|apply IH]. now apply insert_subseteq.
Qed.

Lemma makedirs_from_made (rest : list string) : forall made (fs fs' : gmap (list string) Template.node),
  Template.makedirs_from made rest fs = (None, fs') -> dirs_made made rest fs'.
Proof.
  induction rest as [|x rest IH]; intros made fs fs' H pre suf Hr Hpre.
  - destruct pre; [now destruct Hpre|discriminate].
  - destruct pre as [|y pre]; [now destruct Hpre|]. cbn in Hr. injection Hr as <- Hr.
    cbn in H.
    assert (Hx : exists fs1, Template.makedirs_from (made ++ [x])%list rest fs1 = (None, fs')
                             /\ fs1 !! (made ++ [x])%list = Some Template.Dir).
    { destruct (fs !! (made ++ [x])%list) as [[|c]|] eqn:Hp.
      - eauto.
      - discriminate.
      - eexists. split; [exact H|]. apply lookup_insert_eq. }
    destruct Hx as (fs1 & H1 & Hd).
    destruct pre as [|z pre].
    + pose proof (makedirs_from_subseteq rest (made ++ [x])%list fs1) as Hs.
      rewrite H1 in Hs. cbn in Hs. eapply lookup_weaken; eassumption.
    + replace (made ++ x :: z :: pre)%list with ((made ++ [x]) ++ z :: pre)%list
        by (now rewrite <- app_assoc).
      eapply (IH _ _ _ H1); [exact Hr|discriminate].
Qed.

Lemma makedirs_from_noop (rest : list string) : forall made (fs : gmap (list string) Template.node),
  dirs_made made rest fs -> Template.makedirs_from made rest fs = (None, fs).
Proof.
  induction rest as [|x rest IH]; intros made fs H; [reflexivity|].
  cbn. rewrite (H [x] rest eq_refl) by discriminate.
  apply IH. intros pre suf Hr Hpre.
  rewrite <- app_assoc. cbn. apply (H (x :: pre) suf); [now rewrite Hr|discriminate].
Qed.

Lemma makedirs_from_frame (rest : list string) : forall made (fs : gmap (list string) Template.node) p,
  (forall pre suf, rest = (pre ++ suf)%list -> pre <> [] -> p <> (made ++ pre)%list) ->
  (Template.makedirs_from made rest fs).2 !! p = fs !! p.
Proof.
  induction rest as [|x rest IH]; intros made fs p H; [reflexivity|].
  cbn.
  assert (Hne : p <> (made ++ [x])%list) by (apply (H [x] rest); [reflexivity|discriminate]).
  assert (Hrest : forall pre suf, rest = (pre ++ suf)%list -> pre <> [] ->
                                  p <> ((made ++ [x]) ++ pre)%list).
  { intros pre suf Hr Hpre. rewrite <- app_assoc. cbn.
    apply (H (x :: pre) suf); [now rewrite Hr|discriminate]. }
  destruct (fs !! (made ++ [x])%list) as [[|c]|] eqn:Hp.
  - now apply IH.
  - reflexivity.
  - rewrite IH by exact Hrest. now apply lookup_insert_ne.
Qed.

Lemma dirs_made_weaken (made rest : list string) (fs fs' : gmap (list string) Template.node) :
  fs ⊆ fs' -> dirs_made made rest fs -> dirs_made made rest fs'.
Proof. intros Hs H pre suf Hr Hpre. eapply lookup_weaken; [|exact Hs]. now apply (H pre suf). Qed.

Lemma stat_weaken (fs fs' : gmap (list string) Template.node) (p : list string) :
  fs ⊆ fs' -> is_Some (Template.stat fs p) -> is_Some (Template.stat fs' p).
Proof.
  intros Hs. destruct p as [|x p]; [trivial|]. cbn. intros (v & Hv).
  exists v. eapply lookup_weaken; eassumption.
Qed.

Lemma settled_weaken (fs fs' : gmap (list string) Template.node) (f : string) :
  fs ⊆ fs' -> settled fs f -> settled fs' f.
Proof. intros Hs (H1 & H2). split; [eapply dirs_made_weaken | eapply stat_weaken]; eassumption. Qed.


Lemma visit_fs (f : string) (fs : gmap (list string) Template.node) :
  let p := Template.Path f in
  (Template.visit getsize_dir f fs).1.2 = (after_dirs f fs).2
  \/ (Template.visit getsize_dir f fs).1 = (None, <[p := Template.File ""]> (after_dirs f fs).2)
     /\ (after_dirs f fs).1 = None
     /\ (Template.stat (after_dirs f fs).2 p = None
         \/ Template.stat (after_dirs f fs).2 p = Some (Template.File "")).
Proof.
  cbv zeta. unfold Template.visit, Template.os_path_split, after_dirs.
  set (p := Template.Path f).
  assert (Hmain : forall fs1 log1,
    let r := (if negb (bool_decide (is_Some (Template.stat fs1 p)))
                 || Nat.eqb (Template.getsize getsize_dir fs1 p) 0
              then match Template.open_w p fs1 with
                   | (Some e, fs2) => (Some e, fs2, log1)
                   | (None, fs2) =>
                       (None, fs2, (log1 ++ [Template.CreatingEmptyFile (List.last p ".")
                                               (List.removelast p)])%list)
                   end
              else (None, fs1, (log1 ++ [Template.AlreadyExists (List.last p ".")])%list)) in
    r.1.2 = fs1
    \/ r.1 = (None, <[p := Template.File ""]> fs1)
       /\ (Template.stat fs1 p = None \/ Template.stat fs1 p = Some (Template.File ""))).
  { intros fs1 log1. cbv zeta. unfold Template.open_w, Template.getsize.
    destruct (Template.stat fs1 p) as [[|c]|] eqn:Hst.
    - left. destruct (_ || _); reflexivity.
    - rewrite bool_decide_eq_true_2 by eauto. cbn [negb orb].
      destruct (Nat.eqb (String.length c) 0) eqn:Hc.
      + right. apply Nat.eqb_eq in Hc. destruct c; [|discriminate]. auto.
      + now left.
    - right. rewrite bool_decide_eq_false_2 by (intros [? ?]; discriminate). auto. }
  destruct (List.removelast p) as [|d filedir] eqn:Hd.
  - destruct (Hmain fs []) as [H | (H1 & H2)]; [now left|right; auto].
  - destruct (Template.makedirs (d :: filedir) fs) as [[e|] fs1] eqn:Hm.
    + now left.
    + destruct (Hmain fs1 [Template.CreatingDirectory (d :: filedir)]) as [H | (H1 & H2)];
        [now left|right; auto].
Qed.

Lemma visit_ok (f : string) (fs fs' : gmap (list string) Template.node) log :
  Template.visit getsize_dir f fs = (None, fs', log) ->
  (after_dirs f fs).1 = None
  /\ (fs' = (after_dirs f fs).2 /\ is_Some (Template.stat (after_dirs f fs).2 (Template.Path f))
      \/ fs' = <[Template.Path f := Template.File ""]> (after_dirs f fs).2).
Proof.
  unfold Template.visit, Template.os_path_split, after_dirs.
  set (p := Template.Path f).
  assert (Hmain : forall fs1 log1,
    (if negb (bool_decide (is_Some (Template.stat fs1 p)))
        || Nat.eqb (Template.getsize getsize_dir fs1 p) 0
     then match Template.open_w p fs1 with
          | (Some e, fs2) => (Some e, fs2, log1)
          | (None, fs2) =>
              (None, fs2, (log1 ++ [Template.CreatingEmptyFile (List.last p ".")
                                      (List.removelast p)])%list)
          end
     else (None, fs1, (log1 ++ [Template.AlreadyExists (List.last p ".")])%list))
    = (None, fs', log) ->
    fs' = fs1 /\ is_Some (Template.stat fs1 p) \/ fs' = <[p := Template.File ""]> fs1).
  { intros fs1 log1. unfold Template.open_w.
    destruct (bool_decide (is_Some (Template.stat fs1 p))) eqn:Hex; cbn [negb orb].
    - apply bool_decide_eq_true_1 in Hex.
      destruct (Nat.eqb _ 0).
      + destruct (Template.stat fs1 p) as [[|c]|]; intros H; inversion H; subst; auto.
      + intros H; inversion H; subst; auto.
    - destruct (Template.stat fs1 p) as [[|c]|]; intros H; inversion H; subst; auto. }
  destruct (List.removelast p) as [|d filedir] eqn:Hd.
  - intros H. split; [reflexivity|]. now apply (Hmain fs []).
  - destruct (Template.makedirs (d :: filedir) fs) as [[e|] fs1] eqn:Hm; [discriminate|].
    intros H. split; [reflexivity|]. now apply (Hmain fs1 [Template.CreatingDirectory (d :: filedir)]).
Qed.

Lemma after_dirs_subseteq (f : string) (fs : gmap (list string) Template.node) : fs ⊆ (after_dirs f fs).2.
Proof.
  unfold after_dirs. destruct (List.removelast _); [reflexivity|apply makedirs_from_subseteq].
Qed.

Lemma stat_insert_subseteq (fs : gmap (list string) Template.node) (p : list string) :
  Template.stat fs p = None \/ Template.stat fs p = Some (Template.File "") ->
  fs ⊆ <[p := Template.File ""]> fs.
Proof.
  destruct p as [|x p]; cbn; intros [H|H]; try discriminate.
  - now apply insert_subseteq.
  - now rewrite insert_id.
Qed.

Lemma visit_subseteq (f : string) (fs : gmap (list string) Template.node) :
  fs ⊆ (Template.visit getsize_dir f fs).1.2.
Proof.
  destruct (visit_fs f fs) as [-> | (-> & _ & Hst)].
  - apply after_dirs_subseteq.
  - cbn. etransitivity; [apply after_dirs_subseteq|]. now apply stat_insert_subseteq.
Qed.

Lemma scaffold_subseteq (files : list string) : forall fs : gmap (list string) Template.node,
  fs ⊆ (Template.scaffold getsize_dir files fs).1.2.
Proof.
  induction files as [|f files IH]; intros fs; cbn [Template.scaffold]; [reflexivity|].
  pose proof (visit_subseteq f fs) as Hv.
  destruct (Template.visit getsize_dir f fs) as [[[e|] fs1] log1]; cbn [fst snd] in *;
    [exact Hv|].
  specialize (IH fs1).
  destruct (Template.scaffold getsize_dir files fs1) as [[e2 fs2] log2]; cbn [fst snd] in *.
  etransitivity; eassumption.
Qed.

Lemma after_dirs_made (f : string) (fs : gmap (list string) Template.node) :
  (after_dirs f fs).1 = None ->
  dirs_made [] (List.removelast (Template.Path f)) (after_dirs f fs).2.
Proof.
  unfold after_dirs. destruct (List.removelast (Template.Path f)) as [|d filedir] eqn:Hd.
  - intros _ pre suf Hr Hpre. destruct pre; [now destruct Hpre|discriminate].
  - unfold Template.makedirs. destruct (Template.makedirs_from _ _ _) as [e fs1] eqn:Hm.
    cbn. intros ->. now apply makedirs_from_made in Hm.
Qed.

Lemma visit_settles (f : string) (fs fs' : gmap (list string) Template.node) log :
  Template.visit getsize_dir f fs = (None, fs', log) -> settled fs' f.
Proof.
  intros H. apply visit_ok in H. destruct H as (He & H).
  pose proof (after_dirs_made f fs He) as Hd.
  destruct H as [(-> & Hst) | ->].
  - now split.
  - split.
    + intros pre suf Hr Hpre. rewrite lookup_insert_ne; [now apply (Hd pre suf)|].
      intros Heq. cbn in Heq.
      assert (Hlen : List.length (Template.Path f) = List.length pre) by now rewrite Heq.
      assert (Hne : Template.Path f <> []) by (rewrite Heq; exact Hpre).
      pose proof (List.app_removelast_last "." Hne) as Hl.
      apply (f_equal (@List.length string)) in Hl, Hr.
      rewrite List.length_app in Hl, Hr. cbn in Hl. lia.
    + destruct (Template.Path f) as [|x p]; [cbn; eauto|]. cbn. rewrite lookup_insert_eq. eauto.
Qed.

Lemma scaffold_settles (files : list string) : forall (fs fs' : gmap (list string) Template.node) log,
  Template.scaffold getsize_dir files fs = (None, fs', log) -> Forall (settled fs') files.
Proof.
  induction files as [|f files IH]; intros fs fs' log; cbn [Template.scaffold]; [constructor|].
  destruct (Template.visit getsize_dir f fs) as [[[e|] fs1] log1] eqn:Hv; [discriminate|].
  pose proof (scaffold_subseteq files fs1) as Hs.
  destruct (Template.scaffold getsize_dir files fs1) as [[e2 fs2] log2] eqn:Hf.
  intros H; inversion H; subst. constructor.
  - eapply settled_weaken; [exact Hs|]. eapply visit_settles; eassumption.
  - eapply IH; eassumption.
Qed.

Lemma after_dirs_noop (f : string) (fs : gmap (list string) Template.node) :
  settled fs f -> after_dirs f fs = (None, fs).
Proof.
  intros (Hd & _). unfold after_dirs.
  destruct (List.removelast (Template.Path f)); [reflexivity|].
  now apply makedirs_from_noop.
Qed.

Lemma visit_noop (f : string) (fs : gmap (list string) Template.node) :
  settled fs f -> (Template.visit getsize_dir f fs).1.2 = fs.
Proof.
  intros Hs. pose proof (after_dirs_noop f fs Hs) as Ha.
  destruct (visit_fs f fs) as [H | (H & _ & Hst)]; rewrite Ha in *; cbn in *; [exact H|].
  rewrite H. cbn. destruct Hs as (_ & (v & Hv)). destruct Hst as [Hst|Hst]; [congruence|].
  destruct (Template.Path f) as [|x p]; [discriminate|]. cbn in Hst. now apply insert_id.
Qed.

Lemma scaffold_noop (files : list string) : forall fs : gmap (list string) Template.node,
  Forall (settled fs) files -> (Template.scaffold getsize_dir files fs).1.2 = fs.
Proof.
  induction files as [|f files IH]; intros fs H; cbn [Template.scaffold]; [reflexivity|].
  inversion H as [|? ? Hf Hrest]; subst.
  pose proof (visit_noop f fs Hf) as Hv.
  destruct (Template.visit getsize_dir f fs) as [[[e|] fs1] log1]; cbn [fst snd] in Hv; subst;
    [reflexivity|].
  specialize (IH fs Hrest).
  destruct (Template.scaffold getsize_dir files fs) as [[e2 fs2] log2]. exact IH.
Qed.

Lemma visit_frame (f : string) (fs : gmap (list string) Template.node) (p : list string) :
  ~ p `prefix_of` Template.Path f ->
  (Template.visit getsize_dir f fs).1.2 !! p = fs !! p.
Proof.
  intros Hp.
  assert (Ha : (after_dirs f fs).2 !! p = fs !! p).
  { unfold after_dirs. destruct (List.removelast (Template.Path f)) as [|d filedir] eqn:Hd;
      [reflexivity|].
    apply makedirs_from_frame. intros pre suf Hr Hpre Heq. cbn in Heq. subst p.
    apply Hp. exists (suf ++ [List.last (Template.Path f) "."])%list.
    rewrite app_assoc, <- Hr, <- Hd. apply List.app_removelast_last.
    intros Hnil. rewrite Hnil in Hd. discriminate. }
  destruct (visit_fs f fs) as [-> | (-> & _ & _)]; [exact Ha|].
  cbn. rewrite lookup_insert_ne; [exact Ha|].
  intros <-. apply Hp. reflexivity.
Qed.

Lemma scaffold_frame (files : list string) : forall (fs : gmap (list string) Template.node) p,
  (forall f, In f files -> ~ p `prefix_of` Template.Path f) ->
  (Template.scaffold getsize_dir files fs).1.2 !! p = fs !! p.
Proof.
  induction files as [|f files IH]; intros fs p H; cbn [Template.scaffold]; [reflexivity|].
  pose proof (visit_frame f fs p (H f (or_introl eq_refl))) as Hv.
  destruct (Template.visit getsize_dir f fs) as [[[e|] fs1] log1]; cbn [fst snd] in Hv;
    [exact Hv|].
  specialize (IH fs1 p (fun g Hg => H g (or_intror Hg))).
  destruct (Template.scaffold getsize_dir files fs1) as [[e2 fs2] log2]; cbn [fst snd] in *.
  rewrite IH. exact Hv.
Qed.

End Template_facts.

(** ** What the scaffolding script does to the file system *)

(** X13: the scaffolding script never destroys anything: whatever is at a
    path before the run, a directory or a file with its content, is there
    unchanged after it, whether the run ends normally or with an exception.
    Only a file that is empty is written again, as the empty file. *)
Theorem scaffold_keeps_what_exists
  (getsize_dir : gmap (list string) Template.node -> list string -> nat)
  (fs : gmap (list string) Template.node) (p : list string) (v : Template.node) :
  fs !! p = Some v ->
  (Template.scaffold getsize_dir Template.list_of_files fs).1.2 !! p = Some v.
Proof.
  intros H. eapply lookup_weaken; [exact H|]. apply scaffold_subseteq.
Qed.

Lemma settled_there (fs : gmap (list string) Template.node) (f : string) :
  settled fs f -> Template.Path f <> [] ->
  is_Some (fs !! Template.Path f)
  /\ (List.removelast (Template.Path f) <> [] ->
      fs !! List.removelast (Template.Path f) = Some Template.Dir).
Proof.
  intros (Hd & Hs) Hne. split.
  - destruct (Template.Path f); [now destruct Hne|exact Hs].
  - intros Hr. apply (Hd (List.removelast (Template.Path f)) []); [now rewrite app_nil_r|exact Hr].
Qed.

Lemma list_of_files_paths (f : string) :
  In f Template.list_of_files -> Template.Path f <> [].
Proof.
  intros Hf. cbv [Template.list_of_files In] in Hf.
  repeat (destruct Hf as [<-|Hf]; [vm_compute; discriminate|]). destruct Hf.
Qed.

(** X14: when the scaffolding script ends without an exception, every entry
    of its list is there, and the directory of every entry that has one is a
    directory. *)
Theorem scaffold_makes_the_files
  (getsize_dir : gmap (list string) Template.node -> list string -> nat)
  (fs fs' : gmap (list string) Template.node) (log : list Template.logline) :
  Template.scaffold getsize_dir Template.list_of_files fs = (None, fs', log) ->
  Forall (fun f => is_Some (fs' !! Template.Path f)
                   /\ (List.removelast (Template.Path f) <> [] ->
                       fs' !! List.removelast (Template.Path f) = Some Template.Dir))
         Template.list_of_files.
Proof.
  intros H. apply scaffold_settles in H.
  rewrite List.Forall_forall in *. intros f Hf.
  apply settled_there; [now apply H | now apply list_of_files_paths].
Qed.

(** X15: after a run that ended without an exception, a further run of the
    scaffolding script leaves the file system exactly as it is, whatever
    sizes the system reports for directories. *)
Theorem scaffold_second_run_changes_nothing
  (getsize_dir getsize_dir' : gmap (list string) Template.node -> list string -> nat)
  (fs fs' : gmap (list string) Template.node) (log : list Template.logline) :
  Template.scaffold getsize_dir Template.list_of_files fs = (None, fs', log) ->
  (Template.scaffold getsize_dir' Template.list_of_files fs').1.2 = fs'.
Proof.
  intros H. apply scaffold_noop. eapply scaffold_settles. exact H.
Qed.

(** X16: the first entry of the list is [" src/helper.py"], with a space
    before [src]: the script never touches [src/helper.py], and when it ends
    without an exception the directory [" src"] and the file
    [" src/helper.py"] are there instead. *)
Theorem scaffold_misses_helper
  (getsize_dir : gmap (list string) Template.node -> list string -> nat)
  (fs : gmap (list string) Template.node) :
  let out := Template.scaffold getsize_dir Template.list_of_files fs in
  out.1.2 !! ["src"; "helper.py"] = fs !! ["src"; "helper.py"]
  /\ (out.1.1 = None ->
      out.1.2 !! [" src"] = Some Template.Dir /\ is_Some (out.1.2 !! [" src"; "helper.py"])).
Proof.
  cbv zeta. split.
  - apply scaffold_frame. intros f Hf. cbv [Template.list_of_files In] in Hf.
    repeat (destruct Hf as [<-|Hf]; [vm_compute; intros (k & Hk); discriminate Hk|]).
    destruct Hf.
  - destruct (Template.scaffold getsize_dir Template.list_of_files fs) as [[e fs'] log] eqn:H.
    cbn [fst snd]. intros ->. apply scaffold_settles in H.
    inversion H as [|? ? Hs _]; subst.
    destruct (settled_there _ _ Hs ltac:(vm_compute; discriminate)) as (Hthere & Hd).
    split; [|exact Hthere]. apply Hd. vm_compute. discriminate.
Qed.


Section Template_success.
Variable getsize_dir : gmap (list string) Template.node -> list string -> nat.

Lemma makedirs_from_succeeds (rest : list string) :
  forall (made : list string) (fs : gmap (list string) Template.node),
  (forall pre suf c, rest = (pre ++ suf)%list -> pre <> [] ->
                     fs !! (made ++ pre)%list <> Some (Template.File c)) ->
  (Template.makedirs_from made rest fs).1 = None.
Proof.
  induction rest as [|x rest IH]; intros made fs H; [reflexivity|].
  cbn [Template.makedirs_from].
  assert (Hrest : forall fs1 : gmap (list string) Template.node,
             (forall q, q <> (made ++ [x])%list -> fs1 !! q = fs !! q) ->
             forall pre suf c, rest = (pre ++ suf)%list -> pre <> [] ->
                               fs1 !! ((made ++ [x]) ++ pre)%list <> Some (Template.File c)).
  { intros fs1 Hfs1 pre suf c Hr Hpre. rewrite Hfs1.
    - rewrite <- app_assoc. cbn. apply (H (x :: pre) suf); [now rewrite Hr|discriminate].
    - intros Heq. apply (f_equal (@List.length string)) in Heq.
      rewrite !List.length_app in Heq. destruct pre; [now destruct Hpre|]. cbn in Heq. lia. }
  destruct (fs !! (made ++ [x])%list) as [[|c]|] eqn:Hp.
  - apply IH. now apply Hrest.
  - destruct (H [x] rest c eq_refl ltac:(discriminate) Hp).
  - apply IH. apply Hrest. intros q Hq. now apply lookup_insert_ne.
Qed.

Lemma after_dirs_succeeds (f : string) (fs : gmap (list string) Template.node) :
  dirs_free fs f -> (after_dirs f fs).1 = None.
Proof.
  intros H. unfold after_dirs.
  destruct (List.removelast (Template.Path f)) as [|d filedir] eqn:Hd; [reflexivity|].
  apply makedirs_from_succeeds. intros pre suf c Hr Hpre. cbn.
  apply (H pre suf c); [now rewrite Hd|exact Hpre].
Qed.

Lemma makedirs_from_lookup (rest : list string) :
  forall (made : list string) (fs : gmap (list string) Template.node) (q : list string),
  (Template.makedirs_from made rest fs).2 !! q = fs !! q
  \/ (Template.makedirs_from made rest fs).2 !! q = Some Template.Dir
     /\ exists pre suf, rest = (pre ++ suf)%list /\ pre <> [] /\ q = (made ++ pre)%list.
Proof.
  induction rest as [|x rest IH]; intros made fs q; [now left|].
  cbn [Template.makedirs_from].
  assert (Hstep : forall fs1 : gmap (list string) Template.node,
    (Template.makedirs_from (made ++ [x])%list rest fs1).2 !! q = fs1 !! q
    \/ (Template.makedirs_from (made ++ [x])%list rest fs1).2 !! q = Some Template.Dir
       /\ exists pre suf, (x :: rest) = (pre ++ suf)%list /\ pre <> [] /\ q = (made ++ pre)%list).
  { intros fs1. destruct (IH (made ++ [x])%list fs1 q) as [H | (H & pre & suf & Hr & Hpre & Hq)].
    - now left.
    - right. split; [exact H|]. exists (x :: pre), suf.
      split; [now rewrite Hr|]. split; [discriminate|]. now rewrite Hq, <- app_assoc. }
  destruct (fs !! (made ++ [x])%list) as [[|c]|] eqn:Hp.
  - apply Hstep.
  - now left.
  - destruct (Hstep (<[(made ++ [x])%list := Template.Dir]> fs)) as [H | H]; [|now right].
    destruct (decide (q = (made ++ [x])%list)) as [->|Hne].
    + right. rewrite H, lookup_insert_eq. split; [reflexivity|].
      exists [x], rest. split; [reflexivity|]. split; [discriminate|reflexivity].
    + left. rewrite H. now apply lookup_insert_ne.
Qed.

Lemma after_dirs_lookup (f : string) (fs : gmap (list string) Template.node) (q : list string) :
  (after_dirs f fs).2 !! q = fs !! q
  \/ (after_dirs f fs).2 !! q = Some Template.Dir
     /\ exists pre suf, List.removelast (Template.Path f) = (pre ++ suf)%list
                        /\ pre <> [] /\ q = pre.
Proof.
  unfold after_dirs.
  destruct (List.removelast (Template.Path f)) as [|d filedir] eqn:Hd; [now left|].
  destruct (makedirs_from_lookup (d :: filedir) [] fs q) as [H | (H & pre & suf & Hr & Hn & Hq)].
  - now left.
  - right. split; [exact H|]. now exists pre, suf.
Qed.

(** What one round of the loop changes: directories above the entry, and
    the entry itself. *)
Lemma visit_lookup (f : string) (fs : gmap (list string) Template.node) (q : list string) :
  (Template.visit getsize_dir f fs).1.2 !! q = fs !! q
  \/ ((Template.visit getsize_dir f fs).1.2 !! q = Some Template.Dir
      /\ exists pre suf, List.removelast (Template.Path f) = (pre ++ suf)%list
                         /\ pre <> [] /\ q = pre)
  \/ ((Template.visit getsize_dir f fs).1.2 !! q = Some (Template.File "")
      /\ q = Template.Path f).
Proof.
  pose proof (after_dirs_lookup f fs q) as Ha.
  destruct (visit_fs getsize_dir f fs) as [-> | (-> & _ & _)].
  - destruct Ha as [Ha|Ha]; auto.
  - cbn [fst snd]. destruct (decide (q = Template.Path f)) as [->|Hne].
    + right; right. now rewrite lookup_insert_eq.
    + rewrite lookup_insert_ne by congruence. destruct Ha as [Ha|Ha]; auto.
Qed.

Lemma prefix_of_removelast (p pre suf : list string) :
  List.removelast p = (pre ++ suf)%list -> pre <> [] -> p <> pre.
Proof.
  intros Hr Hpre ->.
  pose proof (List.app_removelast_last "." Hpre) as Hl.
  apply (f_equal (@List.length string)) in Hl, Hr.
  rewrite List.length_app in Hl, Hr. cbn in Hl. lia.
Qed.

Lemma stat_nonempty (fs : gmap (list string) Template.node) (p : list string) :
  p <> [] -> Template.stat fs p = fs !! p.
Proof. destruct p; [intros H; now destruct H|reflexivity]. Qed.

Lemma visit_outcome (f : string) (fs : gmap (list string) Template.node) :
  (after_dirs f fs).1 = None ->
  Template.stat (after_dirs f fs).2 (Template.Path f) <> Some Template.Dir ->
  (Template.visit getsize_dir f fs).1.1 = None.
Proof.
  unfold Template.visit, Template.os_path_split, after_dirs.
  destruct (List.removelast (Template.Path f)) as [|d filedir] eqn:Hd.
  - cbn [fst snd]. intros _ Hst. unfold Template.open_w.
    destruct (_ || _); [|reflexivity].
    destruct (Template.stat fs (Template.Path f)) as [[|c]|]; try reflexivity. now destruct Hst.
  - destruct (Template.makedirs (d :: filedir) fs) as [[e|] fs1]; cbn [fst snd]; [discriminate|].
    intros _ Hst. unfold Template.open_w.
    destruct (_ || _); [|reflexivity].
    destruct (Template.stat fs1 (Template.Path f)) as [[|c]|]; try reflexivity. now destruct Hst.
Qed.

Lemma visit_succeeds (f : string) (fs : gmap (list string) Template.node) :
  Template.Path f <> [] -> dirs_free fs f -> fs !! Template.Path f <> Some Template.Dir ->
  (Template.visit getsize_dir f fs).1.1 = None.
Proof.
  intros Hne Hfree Hnd. apply visit_outcome; [now apply after_dirs_succeeds|].
  rewrite stat_nonempty by exact Hne.
  destruct (after_dirs_lookup f fs (Template.Path f)) as [H | (H & pre & suf & Hr & Hn & Hq)].
  - now rewrite H.
  - exfalso. now apply (prefix_of_removelast _ _ _ Hr Hn).
Qed.

Lemma visit_keeps_clear (all : list string) (f : string) (fs : gmap (list string) Template.node) :
  separate all -> In f all -> clear_for all fs ->
  clear_for all (Template.visit getsize_dir f fs).1.2.
Proof.
  intros Hsep Hf Hclear g Hg. destruct (Hclear g Hg) as (Hfree & Hnd). split.
  - intros pre suf c Hr Hpre.
    destruct (visit_lookup f fs pre) as [H | [(H & _) | (H & Hq)]].
    + rewrite H. now apply (Hfree pre suf).
    + rewrite H. discriminate.
    + exfalso. symmetry in Hq. revert Hq. now apply (Hsep f g pre suf).
  - destruct (visit_lookup f fs (Template.Path g)) as [H | [(H & pre & suf & Hr & Hn & Hq) | (H & _)]].
    + now rewrite H.
    + exfalso. revert Hq. now apply (Hsep g f pre suf).
    + rewrite H. discriminate.
Qed.

Lemma scaffold_succeeds_on (all : list string) :
  separate all -> (forall f, In f all -> Template.Path f <> []) ->
  forall (files : list string) (fs : gmap (list string) Template.node),
    (forall f, In f files -> In f all) -> clear_for all fs ->
    (Template.scaffold getsize_dir files fs).1.1 = None.
Proof.
  intros Hsep Hne files. induction files as [|f files IH]; intros fs Hin Hclear; [reflexivity|].
  cbn [Template.scaffold].
  assert (Hf : In f all) by (apply Hin; now left).
  destruct (Hclear f Hf) as (Hfree & Hnd).
  pose proof (visit_succeeds f fs (Hne f Hf) Hfree Hnd) as Hv.
  pose proof (visit_keeps_clear all f fs Hsep Hf Hclear) as Hk.
  destruct (Template.visit getsize_dir f fs) as [[[e|] fs1] log1]; cbn [fst snd] in *;
    [discriminate|].
  specialize (IH fs1 (fun g Hg => Hin g (or_intror Hg)) Hk).
  destruct (Template.scaffold getsize_dir files fs1) as [[e2 fs2] log2]. exact IH.
Qed.

End Template_success.

Lemma list_of_files_separate : separate Template.list_of_files.
Proof.
  intros f g pre suf Hf Hg Hr Hpre Heq. subst pre.
  assert (Hp : Template.Path f `prefix_of` List.removelast (Template.Path g)) by now exists suf.
  clear Hr. revert Hp.
  cbv [Template.list_of_files In] in Hf, Hg.
  repeat (destruct Hf as [<-|Hf]);
    repeat (destruct Hg as [<-|Hg]);
    try (now destruct Hf); try (now destruct Hg);
    vm_compute; intros (k & Hk); discriminate Hk.
Qed.

Lemma scaffold_list_succeeds
  (getsize_dir : gmap (list string) Template.node -> list string -> nat)
  (fs : gmap (list string) Template.node) :
  (forall d c, In d [[" src"]; ["src"]; ["research"]] -> fs !! d <> Some (Template.File c)) ->
  (forall f, In f Template.list_of_files -> fs !! Template.Path f <> Some Template.Dir) ->
  (Template.scaffold getsize_dir Template.list_of_files fs).1.1 = None.
Proof.
  intros Hd Hf.
  apply (scaffold_succeeds_on getsize_dir Template.list_of_files list_of_files_separate
           list_of_files_paths); [trivial|].
  intros f Hin. split; [|now apply Hf].
  intros pre suf c Hr Hpre. apply Hd.
  cbv [Template.list_of_files In] in Hin.
  assert (Hp : exists k, List.removelast (Template.Path f) = (pre ++ k)%list) by eauto.
  clear Hr. revert Hp.
  repeat (destruct Hin as [<-|Hin]); try (now destruct Hin);
    vm_compute; intros (k & Hk);
    destruct pre as [|x [|y pre]]; try (now destruct Hpre); try discriminate Hk;
    injection Hk as -> _; auto 10.
Qed.

Lemma scaffold_fresh_succeeds
  (getsize_dir : gmap (list string) Template.node -> list string -> nat) :
  (Template.scaffold getsize_dir Template.list_of_files ∅).1.1 = None.
Proof.
  apply scaffold_list_succeeds.
  - intros d c _. rewrite lookup_empty. discriminate.
  - intros f _. rewrite lookup_empty. discriminate.
Qed.

Lemma scaffold_run_shape
  (getsize_dir : gmap (list string) Template.node -> list string -> nat)
  (fs : gmap (list string) Template.node) :
  (Template.scaffold getsize_dir Template.list_of_files fs).1.1 = None ->
  Template.scaffold getsize_dir Template.list_of_files fs
  = (None, (Template.scaffold getsize_dir Template.list_of_files fs).1.2,
     (Template.scaffold getsize_dir Template.list_of_files fs).2).
Proof.
  destruct (Template.scaffold getsize_dir Template.list_of_files fs) as [[e fs'] log].
  cbn. now intros ->.
Qed.

(** X17: the scaffolding script ends without an exception on every file
    system in which none of [" src"], [src], [research] is a file and none of
    the seven entries is a directory. *)
Theorem scaffold_succeeds
  (getsize_dir : gmap (list string) Template.node -> list string -> nat)
  (fs : gmap (list string) Template.node) :
  (forall d c, In d [[" src"]; ["src"]; ["research"]] -> fs !! d <> Some (Template.File c)) ->
  (forall f, In f Template.list_of_files -> fs !! Template.Path f <> Some Template.Dir) ->
  (Template.scaffold getsize_dir Template.list_of_files fs).1.1 = None.
Proof. apply scaffold_list_succeeds. Qed.

Lemma scaffold_keeps_what_exists_witness :
  (Template.scaffold (fun _ _ => 4096) Template.list_of_files
     {[ ["app.py"] := Template.File "print(1)" ]}).1.2 !! ["app.py"]
  = Some (Template.File "print(1)").
Proof.
  apply (scaffold_keeps_what_exists (fun _ _ => 4096)
           {[ ["app.py"] := Template.File "print(1)" ]} ["app.py"] (Template.File "print(1)")).
  reflexivity.
Defined.

Lemma scaffold_makes_the_files_witness :
  Forall (fun f =>
            is_Some ((Template.scaffold (fun _ _ => 4096) Template.list_of_files ∅).1.2
                       !! Template.Path f)
            /\ (List.removelast (Template.Path f) <> [] ->
                (Template.scaffold (fun _ _ => 4096) Template.list_of_files ∅).1.2
                  !! List.removelast (Template.Path f) = Some Template.Dir))
         Template.list_of_files.
Proof.
  apply (scaffold_makes_the_files (fun _ _ => 4096) ∅
           (Template.scaffold (fun _ _ => 4096) Template.list_of_files ∅).1.2
           (Template.scaffold (fun _ _ => 4096) Template.list_of_files ∅).2).
  apply scaffold_run_shape, scaffold_fresh_succeeds.
Defined.

Lemma scaffold_second_run_changes_nothing_witness :
  (Template.scaffold (fun _ _ => 0) Template.list_of_files
     (Template.scaffold (fun _ _ => 4096) Template.list_of_files ∅).1.2).1.2
  = (Template.scaffold (fun _ _ => 4096) Template.list_of_files ∅).1.2.
Proof.
  apply (scaffold_second_run_changes_nothing (fun _ _ => 4096) (fun _ _ => 0) ∅
           (Template.scaffold (fun _ _ => 4096) Template.list_of_files ∅).1.2
           (Template.scaffold (fun _ _ => 4096) Template.list_of_files ∅).2).
  apply scaffold_run_shape, scaffold_fresh_succeeds.
Defined.

Lemma scaffold_succeeds_witness :
  (Template.scaffold (fun _ _ => 0) Template.list_of_files
     {[ ["app.py"] := Template.File "print(1)" ]}).1.1 = None.
Proof.
  apply (scaffold_succeeds (fun _ _ => 0) {[ ["app.py"] := Template.File "print(1)" ]}).
  - intros d c Hd. cbv [In] in Hd.
    repeat (destruct Hd as [<-|Hd]; [vm_compute; discriminate|]). destruct Hd.
  - intros f Hf. cbv [Template.list_of_files In] in Hf.
    repeat (destruct Hf as [<-|Hf]; [vm_compute; discriminate|]). destruct Hf.
Defined.

Lemma scaffold_misses_helper_witness :
  (Template.scaffold (fun _ _ => 4096) Template.list_of_files ∅).1.2
    !! ["src"; "helper.py"] = None
  /\ (Template.scaffold (fun _ _ => 4096) Template.list_of_files ∅).1.2
       !! [" src"] = Some Template.Dir.
Proof.
  destruct (scaffold_misses_helper (fun _ _ => 4096) ∅) as [H1 H2].
  split.
  - rewrite H1. apply lookup_empty.
  - apply H2, scaffold_fresh_succeeds.
Defined.
